(** * nuttyfi32 build and publish scripts: a shallow embedding

    The Python scripts of the repository package a board-support tree into
    a checksummed archive, patch [boards.txt], synchronise the package
    descriptor and publish through git.  This development embeds

    - the text operations the scripts apply to files ([PyStr]),
    - the [boards.txt] section transformer ([Boards]),
    - directory walks, the archive builder and the fingerprint engine
      ([Walk], [Archive], [Fingerprint]),
    - the package descriptor update ([Descriptor]),
    - the git publish workflow ([Publish]),

    and proves the properties the specification states about them.

    Modelling conventions.  A Python [str] is a Rocq [string] whose
    characters are the code points U+0000..U+00FF; [encode] is UTF-8 on
    that range.  Exceptions are values of [exn] carried by [result]. *)

From Stdlib Require Import List String Ascii Bool Arith ZArith NArith Lia.
From Stdlib Require Import Permutation Sorted OrderedTypeEx.
From Stdlib Require Import DecimalString DecimalN DecimalZ DecimalFacts.
From Stdlib.Strings Require Byte.
Import ListNotations.

Local Open Scope bool_scope.
Local Open Scope list_scope.
Local Open Scope string_scope.

(* ================================================================== *)
(** * Python values: exceptions and results *)
(* ================================================================== *)

Module Py.

(** The exception classes the scripts raise or let escape. *)
Inductive exn : Type :=
| FileNotFoundError
| KeyError
| IndexError
| TypeError
| ValueError
| RuntimeError
| CalledProcessError
| JSONDecodeError
| TimeoutExpired.

Inductive result (A : Type) : Type :=
| Ok (a : A)
| Raise (e : exn).
Arguments Ok {A} a.
Arguments Raise {A} e.

Definition bind {A B} (r : result A) (k : A -> result B) : result B :=
  match r with
  | Ok a => k a
  | Raise e => Raise e
  end.

End Py.

(* ================================================================== *)
(** * The [str] methods used by the scripts *)
(* ================================================================== *)

Module PyStr.

Definition newline : ascii := "010"%char.

(** [str.isspace] on one character, for code points below 256. *)
Definition isspace (c : ascii) : bool :=
  let n := nat_of_ascii c in
  (((9 <=? n) && (n <=? 13)) || ((28 <=? n) && (n <=? 32))
   || (n =? 133) || (n =? 160))%nat.

(** [s.lstrip()] *)
Fixpoint lstrip (s : string) : string :=
  match s with
  | String c s' => if isspace c then lstrip s' else s
  | EmptyString => EmptyString
  end.

(** [s.rstrip()] *)
Fixpoint rstrip (s : string) : string :=
  match s with
  | String c s' =>
      match rstrip s' with
      | EmptyString => if isspace c then EmptyString else String c EmptyString
      | r => String c r
      end
  | EmptyString => EmptyString
  end.

(** [s.strip()] *)
Definition strip (s : string) : string := rstrip (lstrip s).

(** [s.startswith(p)] *)
Definition startswith (p s : string) : bool := String.prefix p s.

(** [sub in s] *)
Fixpoint contains (sub s : string) : bool :=
  String.prefix sub s
  || match s with
     | String _ s' => contains sub s'
     | EmptyString => false
     end.

(** [s[n:]] *)
Fixpoint drop (n : nat) (s : string) : string :=
  match n, s with
  | S n', String _ s' => drop n' s'
  | _, _ => s
  end.

(** [s.replace(old, new, 1)] for a non-empty [old]: the leftmost
    occurrence is replaced. *)
Fixpoint replace_first (old new s : string) : string :=
  if String.prefix old s then new ++ drop (String.length old) s
  else match s with
       | String c s' => String c (replace_first old new s')
       | EmptyString => EmptyString
       end.

(** [s.split('\n')] *)
Fixpoint split_lines (s : string) : list string :=
  match s with
  | EmptyString => [EmptyString]
  | String c s' =>
      if Ascii.eqb c newline then EmptyString :: split_lines s'
      else match split_lines s' with
           | h :: t => String c h :: t
           | [] => [String c EmptyString]
           end
  end.

(** ['\n'.join(lines)] *)
Fixpoint join_lines (lines : list string) : string :=
  match lines with
  | [] => EmptyString
  | [l] => l
  | l :: rest => l ++ String newline (join_lines rest)
  end.

(** [sep.join(parts)] for a one-character separator. *)
Fixpoint join (sep : ascii) (parts : list string) : string :=
  match parts with
  | [] => EmptyString
  | [p] => p
  | p :: rest => p ++ String sep (join sep rest)
  end.

(** [str(n)] for a non-negative integer. *)
Definition str_of_N (n : N) : string :=
  NilEmpty.string_of_uint (N.to_uint n).

(** [c.upper()] on the ASCII letters (the only cased characters a hex
    digest holds). *)
Definition upper_char (c : ascii) : ascii :=
  let n := nat_of_ascii c in
  if ((97 <=? n) && (n <=? 122))%nat then ascii_of_nat (n - 32) else c.

Fixpoint upper (s : string) : string :=
  match s with
  | String c s' => String (upper_char c) (upper s')
  | EmptyString => EmptyString
  end.

(** [s.encode()]: UTF-8 of code points below 256. *)
Definition encode_char (c : ascii) : list Byte.byte :=
  let n := N_of_ascii c in
  if (n <? 128)%N then [byte_of_ascii c]
  else [byte_of_ascii (ascii_of_N (192 + N.shiftr n 6));
        byte_of_ascii (ascii_of_N (128 + N.land n 63))].

Fixpoint encode (s : string) : list Byte.byte :=
  match s with
  | String c s' => (encode_char c ++ encode s')%list
  | EmptyString => []
  end.

End PyStr.

(* ================================================================== *)
(** * Section transformer: the [boards.txt] branch of
      [rename_esp32_to_nuttyfi32] *)
(* ================================================================== *)

Module Boards.
Import PyStr.

Definition is_none {A} (o : option A) : bool :=
  match o with None => true | Some _ => false end.
Definition is_some {A} (o : option A) : bool := negb (is_none o).

Definition ANCHOR : string := "esp32.name=ESP32 Dev Module".
Definition SEPARATOR : string :=
  "##############################################################".

(** The test that ends the first scan: a line that, stripped, is not
    empty, is no [esp32.] line and no comment (the inner test on
    [esp32.menu.] is the nested [if] of the source). *)
Definition ends_section (line : string) : bool :=
  let t := strip line in
  if negb (t =? "") && negb (startswith "esp32." t)
     && negb (startswith "#" t) && negb (t =? "")
  then negb (startswith "esp32.menu." t)
  else false.

(** [for i, line in enumerate(lines)]: returns [(esp32_start, esp32_end)].
    The loop stops ([break]) as soon as [esp32_end] is set. *)
Fixpoint scan (lines : list string) (i : nat) (esp32_start : option nat)
  : option nat * option nat :=
  match lines with
  | [] => (esp32_start, None)
  | line :: rest =>
      if (strip line =? ANCHOR) && is_none esp32_start
      then scan rest (S i) (Some i)
      else if is_some esp32_start
           then if ends_section line
                then (esp32_start, Some i)
                else scan rest (S i) esp32_start
           else scan rest (S i) esp32_start
  end.

(** [for i in range(esp32_start + 1, len(lines))]: the next board
    definition, searched when the first scan found no end. *)
Fixpoint next_board (lines : list string) (i : nat) : option nat :=
  match lines with
  | [] => None
  | l :: rest =>
      let line := strip l in
      if contains ".name=" line && negb (startswith "esp32." line)
         && negb (startswith "#" line)
      then Some i
      else next_board rest (S i)
  end.

(** [lines[a:b]] for [0 <= a], [0 <= b]. *)
Definition slice {A} (l : list A) (a b : nat) : list A :=
  firstn (b - a) (skipn a l).

(** [lines[i:i] = new] *)
Definition insert_at {A} (l : list A) (i : nat) (new : list A) : list A :=
  (firstn i l ++ new ++ skipn i l)%list.

(** The body of [for line in esp32_section] for one line: the lines it
    appends to [nuttyfi32_section]. *)
Definition rename_line (line : string) : list string :=
  if startswith "esp32." (strip line)
  then [replace_first "esp32." "nuttyfi32." line]
  else if (strip line =? "") || startswith "#" (strip line)
       then [line]
       else [].

Definition banner (title : string) : list string :=
  [""; SEPARATOR; title; SEPARATOR; ""].

(** The new content of [boards.txt]; [title] is the banner's title
    comment, the one thing the variants of the script differ in. *)
Definition add_board (title content : string) : string :=
  let lines := split_lines content in
  match scan lines 0 None with
  | (Some esp32_start, found) =>
      let esp32_end :=
        match found with
        | Some e => e
        | None =>
            match next_board (skipn (S esp32_start) lines) (S esp32_start) with
            | Some e => e
            | None => List.length lines
            end
        end in
      let esp32_section := slice lines esp32_start esp32_end in
      let nuttyfi32_section :=
        (banner title ++ flat_map rename_line esp32_section)%list in
      join_lines (insert_at lines esp32_end nuttyfi32_section)
  | (None, _) => join_lines lines
  end.

(** [build_nuttyfi32_complete_auto_final.py]: the file is written only
    when the content changed.  The result is the new content and the
    text written to the file, if any. *)
Module AutoFinal.
Definition TITLE : string := "# nuttyfi32 Dev Module".

Definition update_boards (content : string) : string * option string :=
  let original_content := content in
  let content := add_board TITLE content in
  if negb (content =? original_content)
  then (content, Some content)
  else (content, None).

(** The [platform.txt] branch: the first [name=] line that mentions
    ESP32 is replaced, then [python] becomes [python3] after four keys. *)
Fixpoint rename_platform (lines : list string) : list string :=
  match lines with
  | [] => []
  | line :: rest =>
      if startswith "name=" line && contains "ESP32" line
      then "name=nuttyfi32 Arduino" :: rest
      else line :: rename_platform rest
  end%list.

Definition python_keys : list string :=
  ["tools.esptool_py.network_cmd";
   "tools.gen_esp32part.cmd";
   "recipe.objcopy.bin.pattern.linux";
   "tools.esptool_py.upload.pattern.linux"].

Definition replace_python_with_python3 (line key : string) : string :=
  let prefix := key ++ "=python" in
  if startswith prefix line
  then key ++ "=python3" ++ drop (String.length prefix) line
  else line.

Definition python3_line (line : string) : string :=
  fold_left (fun line key =>
               let new_line := replace_python_with_python3 line key in
               if negb (new_line =? line) then new_line else line)
            python_keys line.

Definition update_platform (content : string) : string * option string :=
  let original_content := content in
  let lines := rename_platform (split_lines content) in
  let content := join_lines (map python3_line lines) in
  if negb (content =? original_content)
  then (content, Some content)
  else (content, None).

(** The files of the working directory the function looks at; [None] is
    a file that does not exist. *)
Record work_dir : Type :=
  { package_dir_exists : bool;
    esp32_template : option string;
    nuttyfi32_template : option string;
    package_json : option string;
    platform_txt : option string;
    boards_txt : option string }.

(** One turn of [for file_name in files_to_update]: the content of the
    file afterwards, and the name of the file if it was written. *)
Definition update_file (file_name : string)
           (update : string -> string * option string)
           (file : option string) : option string * list string :=
  match file with
  | None => (None, [])
  | Some content =>
      match update content with
      | (_, Some written) => (Some written, [file_name])
      | (_, None) => (Some content, [])
      end
  end%list.

(** [rename_esp32_to_nuttyfi32(directory)]: the directory afterwards and
    the names of the files written, in order.  [package.json] is read
    and left as it is. *)
Definition rename_esp32_to_nuttyfi32 (directory : work_dir)
  : work_dir * list string :=
  let moved :=
    package_dir_exists directory
    && is_some (esp32_template directory) in
  let '(platform, w1) :=
    update_file "platform.txt" update_platform (platform_txt directory) in
  let '(boards, w2) :=
    update_file "boards.txt" update_boards (boards_txt directory) in
  ({| package_dir_exists := package_dir_exists directory;
      esp32_template :=
        if moved then None else esp32_template directory;
      nuttyfi32_template :=
        if moved then esp32_template directory
        else nuttyfi32_template directory;
      package_json := package_json directory;
      platform_txt := platform;
      boards_txt := boards |},
   (w1 ++ w2)%list).
End AutoFinal.

(** [build_nuttyfi32_package.py]: another title, and the file is
    written back whatever the content. *)
Module Package.
Definition TITLE : string :=
  "# nuttyfi32 Dev Module (same as ESP32 Dev Module)".

Definition update_boards (content : string) : string * option string :=
  let content := add_board TITLE content in
  (content, Some content).
End Package.

End Boards.

(* ================================================================== *)
(** * [hashlib.sha256] (FIPS 180-4), on 32-bit words held in [Z] *)
(* ================================================================== *)

Module Sha256.
Local Open Scope Z_scope.

Definition w32 (x : Z) : Z := Z.land x 0xffffffff.
Definition add32 (x y : Z) : Z := w32 (x + y).
Definition rotr (n x : Z) : Z :=
  Z.lor (Z.shiftr x n) (w32 (Z.shiftl x (32 - n))).
Definition shr (n x : Z) : Z := Z.shiftr x n.

Definition Ch (x y z : Z) : Z :=
  Z.lxor (Z.land x y) (Z.land (Z.lxor x 0xffffffff) z).
Definition Maj (x y z : Z) : Z :=
  Z.lxor (Z.lxor (Z.land x y) (Z.land x z)) (Z.land y z).
Definition Sigma0 (x : Z) : Z :=
  Z.lxor (Z.lxor (rotr 2 x) (rotr 13 x)) (rotr 22 x).
Definition Sigma1 (x : Z) : Z :=
  Z.lxor (Z.lxor (rotr 6 x) (rotr 11 x)) (rotr 25 x).
Definition sigma0 (x : Z) : Z :=
  Z.lxor (Z.lxor (rotr 7 x) (rotr 18 x)) (shr 3 x).
Definition sigma1 (x : Z) : Z :=
  Z.lxor (Z.lxor (rotr 17 x) (rotr 19 x)) (shr 10 x).

(** The round constants and the initial hash value are the first 32
    bits of the fractional parts of the cube roots of the first 64 primes
    and of the square roots of the first 8. *)
Definition is_prime (n : Z) : bool :=
  forallb (fun d => negb (n mod d =? 0))
          (map Z.of_nat (seq 2 (Z.to_nat n - 2))).

Definition first_primes (k : nat) : list Z :=
  firstn k (filter is_prime (map Z.of_nat (seq 2 310))).

(** The largest [r] in [[lo, hi)] with [r ^ 3 <= n]. *)
Fixpoint cube_root (fuel : nat) (n lo hi : Z) : Z :=
  match fuel with
  | O => lo
  | S fuel' =>
      let mid := (lo + hi) / 2 in
      if mid =? lo then lo
      else if mid * mid * mid <=? n then cube_root fuel' n mid hi
           else cube_root fuel' n lo mid
  end.

Definition K : list Z :=
  Eval vm_compute in
    map (fun p => w32 (cube_root 64 (p * 2 ^ 96) 0 (2 ^ 36))) (first_primes 64).

Definition H0 : list Z :=
  Eval vm_compute in
    map (fun p => w32 (Z.sqrt (p * 2 ^ 64))) (first_primes 8).

(** Padding: a 1 bit, zeros up to 56 modulo 64 bytes, then the bit
    length on 8 bytes, most significant first. *)
Definition be_bytes (width : nat) (x : Z) : list Z :=
  map (fun i => Z.land (Z.shiftr x (8 * Z.of_nat i)) 0xff)
      (rev (seq 0 width)).

Definition pad (msg : list Z) : list Z :=
  let len := Z.of_nat (List.length msg) in
  let zeros := Z.to_nat ((55 - len) mod 64) in
  (msg ++ [0x80] ++ repeat 0 zeros ++ be_bytes 8 (8 * len))%list.

Definition word_of (b : list Z) : Z :=
  fold_left (fun acc x => Z.lor (Z.shiftl acc 8) x) b 0.

(** Cuts a list in groups of [n] elements; [fuel] bounds the number of
    groups. *)
Fixpoint groups {A} (n : nat) (fuel : nat) (l : list A) : list (list A) :=
  match fuel with
  | O => []
  | S fuel' =>
      match l with
      | [] => []
      | _ => firstn n l :: groups n fuel' (skipn n l)
      end
  end%list.

Definition words (block : list Z) : list Z :=
  map word_of (groups 4 16 block).

(** The message schedule, most recent word first. *)
Fixpoint extend (n : nat) (w : list Z) : list Z :=
  match n with
  | O => w
  | S n' =>
      let x := add32 (add32 (sigma1 (nth 1 w 0)) (nth 6 w 0))
                     (add32 (sigma0 (nth 14 w 0)) (nth 15 w 0)) in
      extend n' (x :: w)
  end%list.

Definition schedule (block : list Z) : list Z :=
  rev (extend 48 (rev (words block))).

Definition round (s : list Z) (kw : Z * Z) : list Z :=
  match s with
  | [a; b; c; d; e; f; g; h] =>
      let t1 := add32 (add32 (add32 h (Sigma1 e)) (Ch e f g))
                      (add32 (fst kw) (snd kw)) in
      let t2 := add32 (Sigma0 a) (Maj a b c) in
      [add32 t1 t2; a; b; c; add32 d t1; e; f; g]
  | _ => s
  end%list.

Definition compress (h : list Z) (block : list Z) : list Z :=
  let s := fold_left round (combine K (schedule block)) h in
  map (fun p => add32 (fst p) (snd p)) (combine h s).

(** The digest, as 32 byte values. *)
Definition digest (msg : list Z) : list Z :=
  let p := pad msg in
  let h := fold_left compress (groups 64 (List.length p) p) H0 in
  flat_map (be_bytes 4) h.

Definition hex_digit (x : Z) : ascii :=
  if x <? 10 then ascii_of_N (Z.to_N (48 + x))
  else ascii_of_N (Z.to_N (87 + x)).

Fixpoint hex (bytes : list Z) : string :=
  match bytes with
  | [] => EmptyString
  | b :: rest =>
      String (hex_digit (Z.shiftr b 4))
             (String (hex_digit (Z.land b 15)) (hex rest))
  end%list.

Definition byte_val (b : Byte.byte) : Z := Z.of_N (Byte.to_N b).

(** A [hashlib.sha256()] object is the bytes fed to it so far. *)
Definition hasher : Type := list Byte.byte.
Definition new : hasher := []%list.
Definition update (h : hasher) (data : list Byte.byte) : hasher :=
  (h ++ data)%list.
Definition hexdigest (h : hasher) : string :=
  hex (digest (map byte_val h)).

End Sha256.

(* ================================================================== *)
(** * Directory trees and [os.walk] *)
(* ================================================================== *)

Module Walk.
Import PyStr.

(** A directory tree; [A] is what the model keeps of a regular file.
    The order of [entries] is the order in which the operating system
    lists the directory. *)
#[warning="-register-all"]
Inductive node (A : Type) : Type :=
| File (a : A)
| Dir (entries : list (string * node A)).
Arguments File {A} a.
Arguments Dir {A} entries.

(** [name.startswith('.')] *)
Definition hidden (name : string) : bool := startswith "." name.
Definition visible (name : string) : bool := negb (hidden name).

(** One [(root, dirs, files)] triple; [root] is kept relative to the
    walked directory, as a list of names. *)
Record item (A : Type) : Type :=
  { root : list string; dirs : list string; files : list (string * A) }.
Arguments root {A} i.
Arguments dirs {A} i.
Arguments files {A} i.

Definition is_dir {A} (n : node A) : bool :=
  match n with Dir _ => true | File _ => false end.

Definition dir_names {A} (entries : list (string * node A)) : list string :=
  map fst (filter (fun e => is_dir (snd e)) entries).

Definition file_entries {A} (entries : list (string * node A))
  : list (string * A) :=
  flat_map (fun e => match snd e with
                     | File a => [(fst e, a)]
                     | Dir _ => []
                     end)%list entries.

(** [os.walk(top)], top-down, when the loop body prunes with
    [dirs[:] = [d for d in dirs if keep d]]: each triple is yielded with
    all the sub-directories, and the walk then descends into those the
    body has kept, in the order of the listing.  A [top] that is no
    directory yields nothing. *)
Fixpoint os_walk {A} (keep : string -> bool) (rel : list string)
         (n : node A) : list (item A) :=
  match n with
  | File _ => []
  | Dir entries =>
      {| root := rel;
         dirs := dir_names entries;
         files := file_entries entries |}
      :: (fix descend (es : list (string * node A)) : list (item A) :=
            match es with
            | [] => []
            | (name, child) :: es' =>
                if is_dir child && keep name
                then os_walk keep (rel ++ [name]) child ++ descend es'
                else descend es'
            end) entries
  end%list.

(** [str((Path(root) / file).relative_to(top))] *)
Definition relative_path (rel : list string) (file : string) : string :=
  join "/" (rel ++ [file])%list.

End Walk.

(* ================================================================== *)
(** * Archive builder: [create_zip] and [create_zip_from_bsp] *)
(* ================================================================== *)

Module Archive.
Import PyStr Walk.

(** The entries written for one [(root, dirs, files)] triple:
    [for file in files: zipf.write(file_path, arcname)]. *)
Definition write_files {A} (keep_file : string -> bool)
           (arcname : string -> string) (it : item A)
  : list (string * A) :=
  map (fun f => (arcname (relative_path (root it) (fst f)), snd f))
      (filter (fun f => keep_file (fst f)) (files it)).

(** [build_nuttyfi32_complete_auto_final.py], [create_zip]: every entry
    under the single folder [root_folder_name = source_dir.name]. *)
Definition create_zip {A} (root_folder_name : string) (source_dir : node A)
  : list (string * A) :=
  flat_map (write_files visible
              (fun relative_path => root_folder_name ++ "/" ++ relative_path))
           (os_walk visible [] source_dir).

(** [build_and_push_complete.py], [create_zip_from_bsp]: entries at the
    archive root. *)
Definition create_zip_from_bsp {A} (bsp_source : node A)
  : list (string * A) :=
  flat_map (write_files visible (fun relative_path => relative_path))
           (os_walk visible [] bsp_source).

(** [build_nuttyfi32_package.py], [create_zip]: hidden directories are
    pruned, the files of a directory are all written. *)
Module Package.
Definition create_zip {A} (source_dir : node A) : list (string * A) :=
  flat_map (write_files (fun _ => true) (fun relative_path => relative_path))
           (os_walk visible [] source_dir).
End Package.

End Archive.

(* ================================================================== *)
(** * Fingerprint engine *)
(* ================================================================== *)

(** Python floats as far as the scripts use them: compared when tuples
    are sorted, and formatted in an f-string. *)
Class PyFloat : Type :=
  { float : Type;
    float_eqb : float -> float -> bool;
    float_ltb : float -> float -> bool;
    str_float : float -> string }.

Module Fingerprint.
Import PyStr Walk.

(** [list.sort()]: a stable sort that only asks [x < y]. *)
Fixpoint insert {A} (lt : A -> A -> bool) (x : A) (l : list A) : list A :=
  match l with
  | [] => [x]
  | y :: l' => if lt y x then y :: insert lt x l' else x :: l
  end%list.

Fixpoint sort {A} (lt : A -> A -> bool) (l : list A) : list A :=
  match l with
  | [] => []
  | x :: l' => insert lt x (sort lt l')
  end%list.

(** [a < b] on 3-tuples: the first component that differs decides. *)
Definition tuple_lt {A B C}
           (eqA ltA : A -> A -> bool) (eqB ltB : B -> B -> bool)
           (ltC : C -> C -> bool) (a b : A * B * C) : bool :=
  let '(a1, a2, a3) := a in
  let '(b1, b2, b3) := b in
  if negb (eqA a1 b1) then ltA a1 b1
  else if negb (eqB a2 b2) then ltB a2 b2
       else ltC a3 b3.

Section Directory.
Context `{PyFloat}.

Record stat : Type := { st_mtime : float; st_size : N }.

Definition file_info : Type := (string * float * N)%type.

Definition file_info_lt : file_info -> file_info -> bool :=
  tuple_lt String.eqb String.ltb float_eqb float_ltb N.ltb.

(** The [file_info] list of [calculate_bsp_hash], before sorting. *)
Definition collect (bsp_source : node stat) : list file_info :=
  flat_map
    (fun it =>
       map (fun f => (relative_path (root it) (fst f),
                      st_mtime (snd f), st_size (snd f)))
           (filter (fun f => visible (fst f)) (files it)))
    (os_walk visible [] bsp_source).

(** [f"{path}:{mtime}:{size}".encode()] *)
Definition entry_bytes (e : file_info) : list Byte.byte :=
  let '(path, mtime, size) := e in
  encode (path ++ ":" ++ str_float mtime ++ ":" ++ str_of_N size).

(** The digest of an already collected [file_info]. *)
Definition hash_file_info (info : list file_info) : string :=
  Sha256.hexdigest
    (fold_left (fun h e => Sha256.update h (entry_bytes e))
               (sort file_info_lt info) Sha256.new).

(** [build_and_push_complete.py], [calculate_bsp_hash].  A missing
    [BSP_SOURCE] makes [os.walk] yield nothing. *)
Definition calculate_bsp_hash (bsp_source : option (node stat)) : string :=
  hash_file_info
    match bsp_source with
    | Some tree => collect tree
    | None => []
    end%list.
End Directory.

(** A zip file on disk: missing, not a readable archive, or its
    [infolist()] as [(filename, file_size, CRC)]. *)
Inductive zip_file : Type :=
| ZipAbsent
| ZipCorrupt
| Zip (infolist : list (string * N * N)).

Definition zip_info_lt : string * N * N -> string * N * N -> bool :=
  tuple_lt String.eqb String.ltb N.eqb N.ltb N.ltb.

Definition zip_entry_bytes (e : string * N * N) : list Byte.byte :=
  let '(filename, size, crc) := e in
  encode (filename ++ ":" ++ str_of_N size ++ ":" ++ str_of_N crc).

(** [build_nuttyfi32_complete_auto_final.py], [calculate_zip_hash];
    [None] is Python's [None]. *)
Definition calculate_zip_hash (zip_path : zip_file) : option string :=
  match zip_path with
  | ZipAbsent => None
  | ZipCorrupt => None
  | Zip infolist =>
      let file_info :=
        filter (fun info => negb (startswith "." (fst (fst info)))) infolist in
      Some (Sha256.hexdigest
              (fold_left (fun h e => Sha256.update h (zip_entry_bytes e))
                         (sort zip_info_lt file_info) Sha256.new))
  end.

(** A text file on disk: missing, present but failing to open or
    decode, or its text. *)
Inductive text_file : Type :=
| TextAbsent
| TextUnreadable
| Text (content : string).

Definition text_exists (f : text_file) : bool :=
  match f with TextAbsent => false | _ => true end.

(** The file-system accesses a run performs, in order. *)
Inductive path_id : Type := OUTPUT_ZIP | RELEASE_ZIP | BSP_SOURCE | ZIP_HASH.
Inductive access : Type :=
| Exists (p : path_id)
| WalkTree (p : path_id)
| OpenZip (p : path_id)
| OpenText (p : path_id).

(** [build_and_push_complete.py] *)
Module BuildAndPush.
Section Check.
Context `{PyFloat}.

Record files : Type :=
  { output_zip_exists : bool;
    bsp_source : option (node stat);
    hash_file : text_file }.

Definition check_if_zip_needs_update (fs : files) : bool * list access :=
  if negb (output_zip_exists fs) then (true, [Exists OUTPUT_ZIP])
  else
    let current_hash := calculate_bsp_hash (bsp_source fs) in
    let log := [Exists OUTPUT_ZIP; WalkTree BSP_SOURCE; Exists ZIP_HASH] in
    match hash_file fs with
    | TextAbsent => (true, log)
    | TextUnreadable => (true, (log ++ [OpenText ZIP_HASH])%list)
    | Text content =>
        let stored_hash := strip content in
        if current_hash =? stored_hash
        then (false, (log ++ [OpenText ZIP_HASH])%list)
        else (true, (log ++ [OpenText ZIP_HASH])%list)
    end.
End Check.
End BuildAndPush.

(** [build_nuttyfi32_complete_auto_final.py] *)
Module AutoFinal.
Record files : Type :=
  { output_zip_exists : bool;
    release_zip : zip_file;
    bsp_source_exists : bool;
    hash_file : text_file }.

Definition zip_exists (z : zip_file) : bool :=
  match z with ZipAbsent => false | _ => true end.

(** [source_hash == stored_hash], where [source_hash] may be [None]. *)
Definition hash_eq (source_hash : option string) (stored_hash : string)
  : bool :=
  match source_hash with
  | Some h => h =? stored_hash
  | None => false
  end.

Definition check_if_zip_needs_update (fs : files)
  : Py.result bool * list access :=
  if negb (output_zip_exists fs) then (Py.Ok true, [Exists OUTPUT_ZIP])
  else if zip_exists (release_zip fs) then
    let source_hash := calculate_zip_hash (release_zip fs) in
    let log := [Exists OUTPUT_ZIP; Exists RELEASE_ZIP; Exists RELEASE_ZIP;
                OpenZip RELEASE_ZIP; Exists ZIP_HASH] in
    match hash_file fs with
    | TextAbsent => (Py.Ok true, log)
    | TextUnreadable => (Py.Ok true, (log ++ [OpenText ZIP_HASH])%list)
    | Text content =>
        let stored_hash := strip content in
        if hash_eq source_hash stored_hash
        then (Py.Ok false, (log ++ [OpenText ZIP_HASH])%list)
        else (Py.Ok true, (log ++ [OpenText ZIP_HASH])%list)
    end
  else if bsp_source_exists fs then
    (Py.Ok true, [Exists OUTPUT_ZIP; Exists RELEASE_ZIP; Exists BSP_SOURCE])
  else
    (Py.Raise Py.FileNotFoundError,
     [Exists OUTPUT_ZIP; Exists RELEASE_ZIP; Exists BSP_SOURCE]).
End AutoFinal.

End Fingerprint.


(* ================================================================== *)
(** * Descriptor synchronizer *)
(* ================================================================== *)

Module Descriptor.
Import Py PyStr.

(** What [json.load] returns.  A [dict] keeps its keys in insertion
    order, so an object is an association list. *)
#[warning="-register-all"]
Inductive json : Type :=
| JNull
| JBool (b : bool)
| JNum (n : Z)
| JStr (s : string)
| JArr (items : list json)
| JObj (fields : list (string * json)).

Inductive subscript : Type :=
| Key (k : string)
| Index (i : nat).

Definition subscript_eqb (a b : subscript) : bool :=
  match a, b with
  | Key k, Key k' => k =? k'
  | Index i, Index i' => Nat.eqb i i'
  | _, _ => false
  end.

Fixpoint lookup (k : string) (d : list (string * json)) : option json :=
  match d with
  | [] => None
  | (k', v) :: d' => if k' =? k then Some v else lookup k d'
  end%list.

(** [d[k] = v] on a [dict]: an existing key keeps its place. *)
Fixpoint dict_set (k : string) (v : json) (d : list (string * json))
  : list (string * json) :=
  match d with
  | [] => [(k, v)]
  | (k', v') :: d' =>
      if k' =? k then (k, v) :: d' else (k', v') :: dict_set k v d'
  end%list.

Fixpoint list_set (i : nat) (v : json) (l : list json) : list json :=
  match l, i with
  | [], _ => []
  | _ :: l', O => v :: l'
  | x :: l', S i' => x :: list_set i' v l'
  end%list.

(** [v[s]] *)
Definition getitem (v : json) (s : subscript) : result json :=
  match v, s with
  | JObj d, Key k =>
      match lookup k d with Some x => Ok x | None => Raise KeyError end
  | JObj _, Index _ => Raise KeyError
  | JArr l, Index i =>
      match nth_error l i with Some x => Ok x | None => Raise IndexError end
  | JArr _, Key _ => Raise TypeError
  | JStr s, Index i =>
      match String.get i s with
      | Some c => Ok (JStr (String c EmptyString))
      | None => Raise IndexError
      end
  | JStr _, Key _ => Raise TypeError
  | _, _ => Raise TypeError
  end.

(** [v[k] = x] *)
Definition setitem (v : json) (k : string) (x : json) : result json :=
  match v with
  | JObj d => Ok (JObj (dict_set k x d))
  | _ => Raise TypeError
  end.

(** The container [v] once the object reached by [v[s]] has been mutated
    into [child]: dicts and lists hold a reference, a [str] does not. *)
Definition put (v : json) (s : subscript) (child : json) : json :=
  match v, s with
  | JObj d, Key k => JObj (dict_set k child d)
  | JArr l, Index i => JArr (list_set i child l)
  | _, _ => v
  end.

(** [x = v[s1][s2]...; f(x)] where [f] mutates [x] in place: the value of
    [v] afterwards. *)
Fixpoint modify (path : list subscript) (f : json -> result json) (v : json)
  : result json :=
  match path with
  | [] => f v
  | s :: path' =>
      bind (getitem v s) (fun child =>
      bind (modify path' f child) (fun child' =>
      Ok (put v s child')))
  end%list.

(** [v[s1][s2]...] *)
Fixpoint get_path (path : list subscript) (v : json) : result json :=
  match path with
  | [] => Ok v
  | s :: path' => bind (getitem v s) (get_path path')
  end%list.

Definition VERSION : string := "1.0.0".

(** [data['packages'][0]['platforms'][0]] *)
Definition PLATFORM : list subscript :=
  [Key "packages"; Index 0; Key "platforms"; Index 0].

Definition release_url (version : string) : string :=
  "https://github.com/itsbhupendrasingh/nuttyfi32/releases/download/"
  ++ version ++ "/nuttyfi32-" ++ version ++ ".zip".

Definition archive_file_name (version : string) : string :=
  "nuttyfi32-" ++ version ++ ".zip".

(** [calculate_sha256]: the file is read by blocks of 4096 bytes. *)
Definition calculate_sha256 (content : list Byte.byte) : string :=
  upper (Sha256.hexdigest
           (fold_left Sha256.update
                      (Sha256.groups 4096 (List.length content) content)
                      Sha256.new)).

(** [os.path.getsize] *)
Definition get_file_size (content : list Byte.byte) : N :=
  N.of_nat (List.length content).

(** A JSON file on disk: missing, not parseable, or the document it
    holds. *)
Inductive json_file : Type :=
| JsonAbsent
| JsonMalformed
| Json (data : json).

Definition json_exists (f : json_file) : bool :=
  match f with JsonAbsent => false | _ => true end.

(** [with open(path) as f: data = json.load(f)] *)
Definition json_load (f : json_file) : result json :=
  match f with
  | JsonAbsent => Raise FileNotFoundError
  | JsonMalformed => Raise JSONDecodeError
  | Json data => Ok data
  end.

Record files : Type :=
  { output_zip : option (list Byte.byte);
    json_output : json_file;
    json_template : json_file }.

Definition write_json_output (fs : files) (data : json) : files :=
  {| output_zip := output_zip fs;
     json_output := Json data;
     json_template := json_template fs |}.

(** The five assignments, in the order of [update_json_with_zip_info]. *)
Definition set_platform_info (version checksum size : string) (platform : json)
  : result json :=
  bind (setitem platform "version" (JStr version)) (fun platform =>
  bind (setitem platform "url" (JStr (release_url version))) (fun platform =>
  bind (setitem platform "archiveFileName" (JStr (archive_file_name version)))
       (fun platform =>
  bind (setitem platform "checksum" (JStr ("SHA-256:" ++ checksum)))
       (fun platform =>
  setitem platform "size" (JStr size))))).

(** The part all variants share once [data] is loaded. *)
Definition update_and_write (fs : files) (checksum size : string)
           (loaded : result json) : result (string * string) * files :=
  match bind loaded (modify PLATFORM (set_platform_info VERSION checksum size))
  with
  | Ok data => (Ok (checksum, size), write_json_output fs data)
  | Raise e => (Raise e, fs)
  end.

(** [build_nuttyfi32_complete_auto_final.py] *)
Module AutoFinal.
Definition update_json_with_zip_info (fs : files)
  : result (string * string) * files :=
  match output_zip fs with
  | None => (Raise FileNotFoundError, fs)
  | Some zip =>
      let checksum := calculate_sha256 zip in
      let size := str_of_N (get_file_size zip) in
      update_and_write fs checksum size
        (if json_exists (json_output fs) then json_load (json_output fs)
         else if json_exists (json_template fs) then json_load (json_template fs)
              else Raise FileNotFoundError)
  end.
End AutoFinal.

(** [build_nuttyfi32_complete_auto.py]: the template is required and is
    the only document read. *)
Module CompleteAuto.
Definition update_json_with_zip_info (fs : files)
  : result (string * string) * files :=
  match output_zip fs with
  | None => (Raise FileNotFoundError, fs)
  | Some zip =>
      if negb (json_exists (json_template fs))
      then (Raise FileNotFoundError, fs)
      else
        let checksum := calculate_sha256 zip in
        let size := str_of_N (get_file_size zip) in
        update_and_write fs checksum size (json_load (json_template fs))
  end.
End CompleteAuto.

(** [build_nuttyfi32_from_release_zip.py]: without a template the
    document is created from scratch. *)
Module FromReleaseZip.
Definition HOME : string := "https://github.com/itsbhupendrasingh/nuttyfi32".

Definition from_scratch (checksum size : string) : json :=
  JObj
    [("packages",
      JArr
        [JObj
           [("name", JStr "nuttyfi32");
            ("maintainer", JStr "Community");
            ("websiteURL", JStr HOME);
            ("email", JStr "itsbhupendrasingh@gmail.com");
            ("help", JObj [("online", JStr HOME)]);
            ("platforms",
             JArr
               [JObj
                  [("name", JStr "nuttyfi32");
                   ("architecture", JStr "esp32");
                   ("version", JStr VERSION);
                   ("category", JStr "ESP32");
                   ("url", JStr (release_url VERSION));
                   ("archiveFileName", JStr (archive_file_name VERSION));
                   ("checksum", JStr ("SHA-256:" ++ checksum));
                   ("size", JStr size);
                   ("help", JObj [("online", JStr HOME)]);
                   ("boards", JArr [JObj [("name", JStr "nuttyfi32 Dev Module")]]);
                   ("toolsDependencies", JArr [])]]);
            ("tools", JArr [])]])]%list.

Definition update_json_with_zip_info (fs : files)
  : result (string * string) * files :=
  match output_zip fs with
  | None => (Raise FileNotFoundError, fs)
  | Some zip =>
      let checksum := calculate_sha256 zip in
      let size := str_of_N (get_file_size zip) in
      update_and_write fs checksum size
        (if json_exists (json_template fs) then json_load (json_template fs)
         else Ok (from_scratch checksum size))
  end.
End FromReleaseZip.

(** [build_nuttyfi32_package.py], [update_json_with_checksum(json_file,
    zip_file, version)]: one file is read and written back; the
    assignments come in another order and nothing is returned. *)
Module Package.
Definition set_platform_info (version checksum size : string) (platform : json)
  : result json :=
  bind (setitem platform "checksum" (JStr ("SHA-256:" ++ checksum)))
       (fun platform =>
  bind (setitem platform "size" (JStr size)) (fun platform =>
  bind (setitem platform "version" (JStr version)) (fun platform =>
  bind (setitem platform "url" (JStr (release_url version))) (fun platform =>
  setitem platform "archiveFileName" (JStr (archive_file_name version)))))).

Definition update_json_with_checksum (json_path : json_file)
           (zip_file : option (list Byte.byte)) (version : string)
  : result unit * json_file :=
  match zip_file with
  | None => (Raise FileNotFoundError, json_path)
  | Some zip =>
      let checksum := calculate_sha256 zip in
      let size := get_file_size zip in
      match bind (json_load json_path)
                 (modify PLATFORM
                         (set_platform_info version checksum (str_of_N size)))
      with
      | Ok data => (Ok tt, Json data)
      | Raise e => (Raise e, json_path)
      end
  end.
End Package.

End Descriptor.


(* ================================================================== *)
(** * Publish workflow ([build_nuttyfi32_complete_auto_final.py]) *)
(* ================================================================== *)

Module Publish.
Import Py PyStr.

(** [subprocess.CompletedProcess] *)
Record completed : Type :=
  { returncode : Z; stdout : string; stderr : string }.

(** One item of [BASE_DIR.iterdir()]. *)
Record dir_entry : Type :=
  { name : string; is_file : bool; is_dir : bool }.

(** The machine the script runs on: the git executable, the file system
    and the steps of the build that do not call git.  Nothing is assumed
    about them. *)
Class Machine : Type :=
  { world : Type;
    (** [subprocess.run(["git"] + cmd, cwd=BASE_DIR)] running to its end *)
    git : list string -> world -> completed * world;
    (** the command outlives the [timeout] it was given: the world it
        leaves behind *)
    git_timeout : list string -> world -> option world;
    path_exists : string -> world -> bool;
    token_file : world -> Fingerprint.text_file;
    iterdir_base : world -> list dir_entry;
    ensure_bsp_source_folder : world -> result unit * world;
    (** the loop copying [arduino-esp32-master] to the root; its
        [file_count] *)
    sync_to_root : world -> result nat * world;
    zip_files : world -> Fingerprint.AutoFinal.files;
    (** [delete_old_zips] to [update_json_with_zip_info] in [main] *)
    rebuild : world -> result unit * world }.

Section Workflow.
Context `{Machine}.

(** The state threaded through a run: the machine, and the git commands
    run so far with their outcome ([None]: timed out). *)
Record state : Type :=
  { now : world; log : list (list string * option completed) }.

Definition M (A : Type) : Type := state -> result A * state.

Definition ret {A} (a : A) : M A := fun st => (Ok a, st).
Definition raise {A} (e : exn) : M A := fun st => (Raise e, st).
Definition bindM {A B} (m : M A) (k : A -> M B) : M B :=
  fun st =>
    match m st with
    | (Ok a, st') => k a st'
    | (Raise e, st') => (Raise e, st')
    end.

(** An action of the machine that runs no git command. *)
Definition lift {A} (f : world -> result A * world) : M A :=
  fun st =>
    let (r, w) := f (now st) in (r, {| now := w; log := log st |}).

Definition ask {A} (f : world -> A) : M A :=
  fun st => (Ok (f (now st)), st).

Definition VERSION : string := "1.0.0".
Definition GITHUB_BRANCH : string := "Master".
Definition JSON_OUTPUT_NAME : string := "package_nuttyfi32_index.json".
Definition BSP_SOURCE : string := "arduino-esp32-master".

(** [run_git(cmd, allow_failure, timeout)] *)
Definition run_git (cmd : list string) (allow_failure : bool)
           (timeout : bool) : M completed :=
  fun st =>
    match (if timeout then git_timeout cmd (now st) else None) with
    | Some w =>
        (Raise TimeoutExpired,
         {| now := w; log := (log st ++ [(cmd, None)])%list |})
    | None =>
        let (result, w) := git cmd (now st) in
        let st' := {| now := w; log := (log st ++ [(cmd, Some result)])%list |} in
        if negb (returncode result =? 0)%Z && negb allow_failure
        then (Raise RuntimeError, st')
        else (Ok result, st')
    end.

(** [for x in l: acc = body(x, acc)] *)
Fixpoint for_each {A S} (l : list A) (body : A -> S -> M S) (acc : S) : M S :=
  match l with
  | [] => ret acc
  | x :: l' => bindM (body x acc) (for_each l' body)
  end%list.

(** [ensure_git_ready] *)
Definition ensure_git_ready : M unit :=
  bindM (ask (fun w => path_exists ".git/rebase-apply" w
                       || path_exists ".git/rebase-merge" w))
        (fun marker =>
           if marker
           then bindM (run_git ["rebase"; "--abort"] true false)
                      (fun _ => ret tt)
           else ret tt).

(** [sync_with_remote] *)
Definition sync_with_remote : M unit :=
  bindM (run_git ["fetch"; "origin"; GITHUB_BRANCH] false false) (fun _ =>
  bindM (run_git ["pull"; "--rebase"; "origin"; GITHUB_BRANCH] true false)
        (fun result =>
           if negb (returncode result =? 0)%Z
           then raise RuntimeError
           else ret tt)).

(** [get_token] *)
Definition get_token (w : world) : option string :=
  match token_file w with
  | Fingerprint.Text content => Some (strip content)
  | Fingerprint.TextUnreadable => None
  | Fingerprint.TextAbsent => None
  end.

(** [Path(name).suffix] *)
Fixpoint last_dot (s : string) (i : nat) (found : option nat) : option nat :=
  match s with
  | EmptyString => found
  | String c s' =>
      last_dot s' (S i) (if Ascii.eqb c "."%char then Some i else found)
  end.

Definition suffix (name : string) : string :=
  match last_dot name 0 None with
  | Some i =>
      if (0 <? i)%nat && (i <? String.length name - 1)%nat
      then drop i name
      else EmptyString
  | None => EmptyString
  end.

Definition exclude_items : list string :=
  ["arduino-esp32-master"; ".git"; ".github_token"; "temp_build"].
Definition exclude_extensions : list string := [".bat"; ".zip"].

Definition mem (x : string) (l : list string) : bool :=
  existsb (String.eqb x) l.

Definition auto_scripts : list string :=
  ["build_nuttyfi32_complete_auto_final.py";
   "build_nuttyfi32_package.py";
   "build_nuttyfi32_complete_auto.py";
   "build_nuttyfi32_from_release_zip.py";
   "build_and_push_complete.py";
   "build_and_push.bat"].

(** The body of [for item in BASE_DIR.iterdir()]; the accumulator is
    [added_count]. *)
Definition add_item (item : dir_entry) (added_count : nat) : M nat :=
  if mem (name item) exclude_items || startswith "." (name item)
  then ret added_count
  else if mem (suffix (name item)) exclude_extensions
  then ret added_count
  else if name item =? JSON_OUTPUT_NAME
  then ret added_count
  else if is_file item
  then bindM (run_git ["add"; "-f"; name item] true false) (fun result =>
         ret (if (returncode result =? 0)%Z then S added_count
              else added_count))
  else if is_dir item
  then bindM (run_git ["add"; "-f"; name item ++ "/"] true false)
             (fun result =>
         ret (if (returncode result =? 0)%Z then S added_count
              else added_count))
  else ret added_count.

Definition add_script (script : string) (_ : unit) : M unit :=
  bindM (ask (path_exists script)) (fun present =>
    if present
    then bindM (run_git ["add"; script] true false) (fun _ => ret tt)
    else ret tt).

(** [push_bsp_to_github], up to the last [git add]: the value is
    [file_count]. *)
Definition stage : M nat :=
  bindM (ask get_token) (fun token =>
  match token with
  | None => raise ValueError
  | Some EmptyString => raise ValueError
  | Some token =>
      let repo_url :=
        "https://" ++ token ++ "@github.com/itsbhupendrasingh/nuttyfi32.git" in
      bindM (ask (path_exists BSP_SOURCE)) (fun present =>
      bindM (if present then ret tt else lift ensure_bsp_source_folder)
            (fun _ =>
      bindM (run_git ["config"; "http.postBuffer"; "524288000"] true false)
            (fun _ =>
      bindM (run_git ["config"; "http.timeout"; "600"] true false) (fun _ =>
      bindM (run_git ["remote"; "set-url"; "origin"; repo_url] false false)
            (fun _ =>
      bindM (lift sync_to_root) (fun file_count =>
      bindM (ask (path_exists JSON_OUTPUT_NAME)) (fun json_present =>
      bindM (if json_present
             then bindM (run_git ["add"; "-f"; JSON_OUTPUT_NAME] true false)
                        (fun _ => ret tt)
             else ret tt) (fun _ =>
      bindM (ask iterdir_base) (fun items =>
      bindM (for_each items add_item 0) (fun _ =>
      bindM (for_each auto_scripts add_script tt) (fun _ =>
      ret file_count)))))))))))
  end).

(** [[f for f in stdout.strip().split('\n') if f.strip()]] *)
Definition staged_files (stdout : string) : list string :=
  filter (fun f => negb (strip f =? "")) (split_lines (strip stdout)).

Definition DIFF : list string := ["diff"; "--cached"; "--name-only"].
Definition commit_message : string :=
  "Update nuttyfi32 BSP v" ++ VERSION ++ " - auto build".
Definition COMMIT : list string := ["commit"; "-m"; commit_message].
Definition PUSH : list string := ["push"; "origin"; GITHUB_BRANCH].

(** [push_bsp_to_github], from the check of the staged changes on. *)
Definition commit_and_push (file_count : nat) : M nat :=
  bindM (run_git DIFF false false) (fun result =>
    match staged_files (stdout result) with
    | [] => ret file_count
    | _ :: _ =>
        bindM (run_git COMMIT false false) (fun _ =>
        bindM (run_git PUSH false true) (fun _ =>
        ret file_count))
    end%list).

Definition push_bsp_to_github : M nat := bindM stage commit_and_push.

(** [build_and_push_complete.py] calls [subprocess.run] itself:
    [check=True] raises [CalledProcessError] on a non-zero return code. *)
Definition run (cmd : list string) (check : bool) (timeout : bool)
  : M completed :=
  fun st =>
    match (if timeout then git_timeout cmd (now st) else None) with
    | Some w =>
        (Raise TimeoutExpired,
         {| now := w; log := (log st ++ [(cmd, None)])%list |})
    | None =>
        let (result, w) := git cmd (now st) in
        let st' := {| now := w; log := (log st ++ [(cmd, Some result)])%list |} in
        if negb (returncode result =? 0)%Z && check
        then (Raise CalledProcessError, st')
        else (Ok result, st')
    end.

Definition STATUS : list string := ["status"; "--porcelain"].
Definition COMMIT_SYNC : list string :=
  ["commit"; "-m"; "Update nuttyfi32 BSP v" ++ VERSION ++ " - sync changes"].

(** [push_bsp_to_github_root] of [build_and_push_complete.py], from the
    check of the changes on: the test is on [git status --porcelain]. *)
Definition commit_and_push_root (file_count : nat) : M nat :=
  bindM (run STATUS false false) (fun result =>
    if strip (stdout result) =? ""
    then ret file_count
    else
      bindM (run COMMIT_SYNC true false) (fun _ =>
      bindM (run PUSH true true) (fun _ =>
      ret file_count))).

(** The [try] block of [main]; [Raise] is the [except Exception] branch
    being taken. *)
Definition run_tasks : M nat :=
  bindM ensure_git_ready (fun _ =>
  bindM sync_with_remote (fun _ =>
  bindM (fun st =>
           (fst (Fingerprint.AutoFinal.check_if_zip_needs_update
                   (zip_files (now st))), st))
        (fun zip_needs_update =>
  bindM (if zip_needs_update then lift rebuild else ret tt) (fun _ =>
  push_bsp_to_github)))).

Definition start (w : world) : state := {| now := w; log := [] |}.

End Workflow.
End Publish.


(* ================================================================== *)
(** * Properties of the text operations *)
(* ================================================================== *)

Module PyStrFacts.
Import PyStr.

Lemma split_lines_not_nil (s : string) : split_lines s <> []%list.
Proof.
  destruct s as [|c s]; cbn [split_lines]; [discriminate|].
  destruct (Ascii.eqb c newline); [discriminate|].
  destruct (split_lines s); discriminate.
Qed.

Lemma join_split_lines (s : string) : join_lines (split_lines s) = s.
Proof.
  induction s as [|c s IH]; [reflexivity|].
  cbn [split_lines].
  pose proof (split_lines_not_nil s) as Hne.
  destruct (Ascii.eqb_spec c newline) as [->|Hc].
  - destruct (split_lines s) as [|h t] eqn:E; [congruence|].
    cbn [join_lines]. cbn [join_lines] in IH.
    now rewrite IH.
  - destruct (split_lines s) as [|h t] eqn:E; [congruence|].
    destruct t as [|h' t']; cbn [join_lines] in *.
    + now subst.
    + now rewrite <- IH.
Qed.

Lemma startswith_app (p s : string) : startswith p (p ++ s) = true.
Proof.
  unfold startswith. induction p as [|c p IH]; cbn.
  - now destruct s.
  - destruct (ascii_dec c c); [exact IH|congruence].
Qed.

Lemma startswith_split (p s : string) :
  startswith p s = true -> s = p ++ drop (String.length p) s.
Proof.
  unfold startswith. revert s.
  induction p as [|c p IH]; intros s Hp; cbn.
  - now destruct s.
  - destruct s as [|c' s]; cbn in Hp; [discriminate|].
    destruct (ascii_dec c c') as [->|]; [|discriminate].
    cbn. f_equal. now apply IH.
Qed.

Lemma startswith_trans (p q s : string) :
  startswith (p ++ q) s = true -> startswith p s = true.
Proof.
  unfold startswith. revert s.
  induction p as [|c p IH]; intros s Hp.
  - now destruct s.
  - destruct s as [|c' s]; cbn in *; [discriminate|].
    destruct (ascii_dec c c'); [now apply IH|discriminate].
Qed.

Lemma startswith_cons (a b : ascii) (p s : string) :
  startswith (String a p) (String b s) = Ascii.eqb a b && startswith p s.
Proof.
  unfold startswith. cbn [prefix].
  destruct (ascii_dec a b) as [->|Hab].
  - now rewrite Ascii.eqb_refl.
  - apply Ascii.eqb_neq in Hab. now rewrite Hab.
Qed.

Lemma replace_first_prefix (old new s : string) :
  startswith old s = true ->
  replace_first old new s = new ++ drop (String.length old) s.
Proof.
  unfold startswith. intros Hp. destruct s; cbn [replace_first]; now rewrite Hp.
Qed.

Lemma rstrip_cons_nonspace (c : ascii) (s : string) :
  isspace c = false -> rstrip (String c s) = String c (rstrip s).
Proof.
  intros Hc. cbn [rstrip]. rewrite Hc. now destruct (rstrip s).
Qed.

Lemma lstrip_cons_nonspace (c : ascii) (s : string) :
  isspace c = false -> lstrip (String c s) = String c s.
Proof. intros Hc. cbn [lstrip]. now rewrite Hc. Qed.

(** Stripping keeps a prefix made of characters that are no spaces. *)
Fixpoint no_space (p : string) : bool :=
  match p with
  | String c p' => negb (isspace c) && no_space p'
  | EmptyString => true
  end.

Lemma rstrip_app_no_space (p s : string) :
  no_space p = true -> rstrip (p ++ s) = p ++ rstrip s.
Proof.
  induction p as [|c p IH]; cbn; intros Hp; [reflexivity|].
  apply andb_prop in Hp as [Hc Hp]. apply negb_true_iff in Hc.
  change (rstrip (String c (p ++ s)) = String c (p ++ rstrip s)).
  rewrite rstrip_cons_nonspace by exact Hc. now rewrite IH.
Qed.

Lemma strip_app_no_space (c : ascii) (p s : string) :
  no_space (String c p) = true ->
  strip (String c p ++ s) = String c p ++ rstrip s.
Proof.
  intros Hp. unfold strip.
  assert (Hc : isspace c = false).
  { cbn in Hp. apply andb_prop in Hp as [Hc _]. now apply negb_true_iff. }
  change (String c p ++ s) with (String c (p ++ s)) at 1.
  rewrite lstrip_cons_nonspace by exact Hc.
  now apply (rstrip_app_no_space (String c p)).
Qed.

Lemma startswith_strip (c : ascii) (p s : string) :
  no_space (String c p) = true ->
  startswith (String c p) s = true ->
  startswith (String c p) (strip s) = true.
Proof.
  intros Hp Hs. rewrite (startswith_split _ _ Hs).
  rewrite strip_app_no_space by exact Hp. apply startswith_app.
Qed.

(** A string strips to the empty string only when it holds nothing but
    spaces. *)
Fixpoint all_space (s : string) : bool :=
  match s with
  | String c s' => isspace c && all_space s'
  | EmptyString => true
  end.

Lemma rstrip_empty (s : string) : rstrip s = "" -> all_space s = true.
Proof.
  induction s as [|c s IH]; cbn; [reflexivity|].
  destruct (rstrip s); [|discriminate].
  destruct (isspace c); [|discriminate]. intros _. now apply IH.
Qed.

Lemma lstrip_all_space (s : string) :
  all_space (lstrip s) = true -> all_space s = true.
Proof.
  induction s as [|c s IH]; cbn; [reflexivity|].
  destruct (isspace c) eqn:Hc; cbn; [exact IH|].
  now rewrite Hc.
Qed.

Lemma strip_empty (s : string) : strip s = "" -> all_space s = true.
Proof. intros Hs. apply lstrip_all_space, rstrip_empty, Hs. Qed.

Lemma all_space_strip (s : string) : all_space s = true -> strip s = "".
Proof.
  unfold strip. induction s as [|c s IH]; cbn; [reflexivity|].
  intros Hs. apply andb_prop in Hs as [Hc Hs]. rewrite Hc. now apply IH.
Qed.

Lemma all_space_contains (c : ascii) (sub s : string) :
  isspace c = false -> all_space s = true ->
  contains (String c sub) s = false.
Proof.
  intros Hc. induction s as [|c' s IH]; [reflexivity|].
  intros Hs. cbn in Hs. apply andb_prop in Hs as [Hc' Hs].
  cbn [contains prefix].
  destruct (ascii_dec c c') as [->|]; [congruence|].
  cbn. now apply IH.
Qed.

Lemma contains_strip_nonempty (c : ascii) (sub s : string) :
  isspace c = false -> contains (String c sub) s = true -> strip s <> "".
Proof.
  intros Hc Hs Hempty.
  rewrite (all_space_contains c sub s Hc (strip_empty s Hempty)) in Hs.
  discriminate.
Qed.

End PyStrFacts.


(* ================================================================== *)
(** * Properties of the section transformer *)
(* ================================================================== *)

Module BoardsFacts.
Import PyStr Boards PyStrFacts.

(** Lines that continue the section: an [esp32.] line, a blank line or a
    comment. *)
Definition section_line (l : string) : Prop :=
  startswith "esp32." l = true
  \/ strip l = ""
  \/ startswith "#" (strip l) = true.

(** What the new block holds for a section line. *)
Definition renamed (l : string) : string :=
  if startswith "esp32." l then "nuttyfi32." ++ drop 6 l else l.

Lemma scan_no_anchor (lines : list string) (i : nat) :
  Forall (fun l => strip l <> ANCHOR) lines ->
  scan lines i None = (None, None).
Proof.
  intros Hl. revert i.
  induction Hl as [|l lines Hne _ IH]; intros i; cbn [scan]; [reflexivity|].
  apply String.eqb_neq in Hne. rewrite Hne. cbn. apply IH.
Qed.

Lemma scan_skip (pre rest : list string) (i : nat) :
  Forall (fun l => strip l <> ANCHOR) pre ->
  scan (pre ++ rest) i None = scan rest (List.length pre + i) None.
Proof.
  intros Hl. revert i.
  induction Hl as [|l pre Hne _ IH]; intros i; [reflexivity|].
  cbn [scan List.app List.length].
  apply String.eqb_neq in Hne. rewrite Hne. cbn [andb is_some is_none negb].
  rewrite IH. f_equal. lia.
Qed.

Lemma scan_anchor (a : string) (rest : list string) (i : nat) :
  strip a = ANCHOR ->
  scan (a :: rest) i None = scan rest (S i) (Some i).
Proof.
  intros Ha. cbn [scan]. rewrite Ha, String.eqb_refl. reflexivity.
Qed.

Lemma scan_section (body rest : list string) (j i : nat) :
  Forall (fun l => ends_section l = false) body ->
  scan (body ++ rest) j (Some i) = scan rest (List.length body + j) (Some i).
Proof.
  intros Hl. revert j.
  induction Hl as [|l body Hl _ IH]; intros j; [reflexivity|].
  cbn [scan List.app List.length is_some is_none negb].
  rewrite andb_false_r, Hl, IH. f_equal. lia.
Qed.

Lemma scan_end (f : string) (post : list string) (j i : nat) :
  ends_section f = true -> scan (f :: post) j (Some i) = (Some i, Some j).
Proof.
  intros Hf. cbn [scan is_some is_none negb]. now rewrite andb_false_r, Hf.
Qed.

Lemma comment_not_esp32 (t : string) :
  startswith "#" t = true -> startswith "esp32." t = false.
Proof.
  destruct t as [|c t]; [discriminate|].
  rewrite !startswith_cons.
  destruct (Ascii.eqb_spec "#" c) as [<-|]; [reflexivity|discriminate].
Qed.

Lemma blank_not_esp32 (l : string) :
  strip l = "" -> startswith "esp32." l = false.
Proof.
  intros Hl. destruct (startswith "esp32." l) eqn:E; [|reflexivity].
  apply (startswith_strip "e" "sp32.") in E; [|reflexivity].
  rewrite Hl in E. discriminate.
Qed.

Lemma comment_line_not_esp32 (l : string) :
  startswith "#" (strip l) = true -> startswith "esp32." l = false.
Proof.
  intros Hl. destruct (startswith "esp32." l) eqn:E; [|reflexivity].
  apply (startswith_strip "e" "sp32.") in E; [|reflexivity].
  rewrite (comment_not_esp32 _ Hl) in E. discriminate.
Qed.

Lemma rename_line_section (l : string) :
  section_line l -> rename_line l = [renamed l]%list.
Proof.
  unfold rename_line, renamed. intros [Hl|[Hl|Hl]].
  - rewrite Hl, (startswith_strip "e" "sp32." l eq_refl Hl).
    now rewrite (replace_first_prefix _ _ _ Hl).
  - rewrite (blank_not_esp32 _ Hl), Hl. reflexivity.
  - rewrite (comment_line_not_esp32 _ Hl), (comment_not_esp32 _ Hl), Hl.
    now rewrite orb_true_r.
Qed.

Lemma rename_line_other (l : string) :
  startswith "esp32." (strip l) = false ->
  strip l <> "" ->
  startswith "#" (strip l) = false ->
  rename_line l = []%list.
Proof.
  unfold rename_line. intros -> Hne ->.
  apply String.eqb_neq in Hne. now rewrite Hne.
Qed.

Lemma ends_section_section (l : string) :
  section_line l -> ends_section l = false.
Proof.
  unfold ends_section. intros [Hl|[Hl|Hl]].
  - rewrite (startswith_strip "e" "sp32." l eq_refl Hl).
    now rewrite andb_false_r.
  - now rewrite Hl.
  - rewrite Hl. now rewrite !andb_false_r.
Qed.

Lemma ends_section_foreign (f : string) :
  contains ".name=" f = true ->
  startswith "esp32." (strip f) = false ->
  startswith "#" (strip f) = false ->
  ends_section f = true.
Proof.
  intros Hname Hesp Hcom. unfold ends_section.
  pose proof (contains_strip_nonempty "." "name=" f eq_refl Hname) as Hne.
  apply String.eqb_neq in Hne. rewrite Hne, Hesp, Hcom. cbn.
  destruct (startswith "esp32.menu." (strip f)) eqn:E; [|reflexivity].
  apply (startswith_trans "esp32." "menu.") in E. congruence.
Qed.

Lemma slice_middle {A} (pre mid post : list A) :
  slice (pre ++ mid ++ post) (List.length pre)
        (List.length mid + List.length pre) = mid.
Proof.
  unfold slice.
  rewrite skipn_app, skipn_all, Nat.sub_diag. cbn [List.app skipn].
  replace (List.length mid + List.length pre - List.length pre)
    with (List.length mid + 0) by lia.
  rewrite firstn_app_2. cbn. apply List.app_nil_r.
Qed.

Lemma insert_at_end_of {A} (l post new : list A) :
  insert_at (l ++ post) (List.length l) new = (l ++ new ++ post)%list.
Proof.
  unfold insert_at.
  rewrite firstn_app, firstn_all, Nat.sub_diag.
  rewrite skipn_app, skipn_all, Nat.sub_diag.
  cbn [firstn skipn List.app]. now rewrite List.app_nil_r.
Qed.

Lemma flat_map_rename (section : list string) :
  Forall section_line section ->
  flat_map rename_line section = map renamed section.
Proof.
  induction 1 as [|l section Hl _ IH]; [reflexivity|].
  cbn [flat_map map]. now rewrite (rename_line_section l Hl), IH.
Qed.

(** The transformer on a text whose lines are [pre], the anchor, the
    section [body], the first foreign line and [post]. *)
Lemma add_board_shape (title content : string)
      (pre body post : list string) (foreign : string) :
  split_lines content = (pre ++ ANCHOR :: body ++ foreign :: post)%list ->
  Forall (fun l => strip l <> ANCHOR) pre ->
  Forall section_line body ->
  ends_section foreign = true ->
  add_board title content
  = join_lines (pre ++ ANCHOR :: body
                    ++ banner title ++ map renamed (ANCHOR :: body)
                    ++ foreign :: post)%list.
Proof.
  intros Hsplit Hpre Hbody Hforeign. unfold add_board. rewrite Hsplit.
  rewrite (scan_skip _ _ _ Hpre), (scan_anchor ANCHOR) by reflexivity.
  rewrite scan_section
    by (eapply Forall_impl; [|exact Hbody]; apply ends_section_section).
  rewrite (scan_end _ _ _ _ Hforeign).
  assert (Hsec : Forall section_line (ANCHOR :: body)).
  { constructor; [now left|exact Hbody]. }
  replace (List.length pre + 0) with (List.length pre) by lia.
  replace (List.length body + S (List.length pre))
    with (List.length (ANCHOR :: body) + List.length pre)
    by (cbn [List.length]; lia).
  change (pre ++ ANCHOR :: body ++ foreign :: post)%list
    with (pre ++ (ANCHOR :: body) ++ foreign :: post)%list.
  rewrite slice_middle, (flat_map_rename _ Hsec).
  rewrite List.app_assoc.
  replace (List.length (ANCHOR :: body) + List.length pre)
    with (List.length (pre ++ ANCHOR :: body)%list)
    by (rewrite List.length_app; lia).
  rewrite insert_at_end_of. f_equal.
  rewrite <- !List.app_assoc. reflexivity.
Qed.

Lemma add_board_no_anchor (title content : string) :
  Forall (fun l => strip l <> ANCHOR) (split_lines content) ->
  add_board title content = content.
Proof.
  intros Hl. unfold add_board. rewrite (scan_no_anchor _ _ Hl).
  apply join_split_lines.
Qed.

End BoardsFacts.


(* ================================================================== *)
(** * The section transformer: duplication and no-op *)
(* ================================================================== *)

Section SectionTransformer.
Import PyStr Boards PyStrFacts BoardsFacts.

(** C4.  When the lines of the boards text are [pre], the anchor line
    [esp32.name=ESP32 Dev Module] (the first line that strips to it), a
    section [body] of [esp32.]-prefixed, blank or comment lines, a foreign
    [.name=] line and [post], the transformer returns the same lines with,
    between the untouched section and the foreign line, the banner (blank
    line, separator, title naming [nuttyfi32], separator, blank line) and
    the section again, where a line ["esp32." ++ r] has become
    ["nuttyfi32." ++ r] and blank or comment lines are copied as they
    are.  A line that is neither is dropped by the copying loop. *)
Theorem section_duplication_shape :
  forall (content : string) (pre body post : list string) (foreign : string),
    split_lines content = (pre ++ ANCHOR :: body ++ foreign :: post)%list ->
    Forall (fun l => strip l <> ANCHOR) pre ->
    Forall section_line body ->
    contains ".name=" foreign = true ->
    startswith "esp32." (strip foreign) = false ->
    startswith "#" (strip foreign) = false ->
    (fst (Boards.AutoFinal.update_boards content)
     = join_lines (pre ++ ANCHOR :: body
                       ++ [""; SEPARATOR; Boards.AutoFinal.TITLE; SEPARATOR; ""]
                       ++ map renamed (ANCHOR :: body)
                       ++ foreign :: post)%list
     /\ fst (Boards.Package.update_boards content)
        = join_lines (pre ++ ANCHOR :: body
                          ++ [""; SEPARATOR; Boards.Package.TITLE; SEPARATOR; ""]
                          ++ map renamed (ANCHOR :: body)
                          ++ foreign :: post)%list)
    /\ contains "nuttyfi32" Boards.AutoFinal.TITLE = true
    /\ contains "nuttyfi32" Boards.Package.TITLE = true
    /\ (forall r, renamed ("esp32." ++ r) = "nuttyfi32." ++ r)
    /\ (forall l, startswith "esp32." l = false -> renamed l = l)
    /\ (forall l, startswith "esp32." (strip l) = false ->
                  strip l <> "" ->
                  startswith "#" (strip l) = false ->
                  rename_line l = []%list).
Proof.
  intros content pre body post foreign Hsplit Hpre Hbody Hname Hesp Hcom.
  pose proof (ends_section_foreign _ Hname Hesp Hcom) as Hend.
  repeat split.
  - unfold Boards.AutoFinal.update_boards.
    rewrite (add_board_shape _ _ _ _ _ _ Hsplit Hpre Hbody Hend).
    now destruct (negb _).
  - unfold Boards.Package.update_boards. cbn [fst].
    now rewrite (add_board_shape _ _ _ _ _ _ Hsplit Hpre Hbody Hend).
  - intros r. unfold renamed. now rewrite startswith_app.
  - intros l Hl. unfold renamed. now rewrite Hl.
  - intros l H1 H2 H3. now apply rename_line_other.
Qed.

Definition boards_sample : string :=
  join_lines ["# boards"; ANCHOR; "esp32.upload.tool=esptool_py";
              "esp32.menu.PSRAM.disabled=Disabled"; ""; "# flash";
              "esp32.build.mcu=esp32";
              "pico32.name=ESP32 Pico Kit"; "pico32.build.mcu=esp32"].

Lemma section_duplication_shape_witness :
  fst (Boards.AutoFinal.update_boards boards_sample)
  = join_lines
      ["# boards"; ANCHOR; "esp32.upload.tool=esptool_py";
       "esp32.menu.PSRAM.disabled=Disabled"; ""; "# flash";
       "esp32.build.mcu=esp32";
       ""; SEPARATOR; "# nuttyfi32 Dev Module"; SEPARATOR; "";
       "nuttyfi32.name=ESP32 Dev Module"; "nuttyfi32.upload.tool=esptool_py";
       "nuttyfi32.menu.PSRAM.disabled=Disabled"; ""; "# flash";
       "nuttyfi32.build.mcu=esp32";
       "pico32.name=ESP32 Pico Kit"; "pico32.build.mcu=esp32"].
Proof.
  refine (proj1 (proj1
    (section_duplication_shape boards_sample
       ["# boards"]
       ["esp32.upload.tool=esptool_py"; "esp32.menu.PSRAM.disabled=Disabled";
        ""; "# flash"; "esp32.build.mcu=esp32"]
       ["pico32.build.mcu=esp32"] "pico32.name=ESP32 Pico Kit"
       eq_refl _ _ eq_refl eq_refl eq_refl))).
  - repeat constructor; discriminate.
  - repeat constructor;
      first [ now left | right; left; reflexivity | right; right; reflexivity ].
Defined.

(** C9, as stated: no line equals the anchor exactly, and yet a section
    is inserted, because lines are compared after [strip()]. *)
Lemma exact_anchor_absent_counterexample :
  (forall l, In l (split_lines " esp32.name=ESP32 Dev Module") -> l <> ANCHOR)
  /\ fst (Boards.AutoFinal.update_boards " esp32.name=ESP32 Dev Module")
     <> " esp32.name=ESP32 Dev Module"
  /\ snd (Boards.AutoFinal.update_boards " esp32.name=ESP32 Dev Module")
     <> None.
Proof.
  repeat split.
  - intros l [<-|[]]. discriminate.
  - vm_compute. discriminate.
  - vm_compute. discriminate.
Qed.

(** C9, amended.  If no line of the boards text, once stripped of the
    white space around it, equals the anchor, the transformer returns the
    text unchanged, and [rename_esp32_to_nuttyfi32] of
    [build_nuttyfi32_complete_auto_final.py] leaves [boards.txt] as it is
    without writing it.  ([build_nuttyfi32_package.py] writes the same
    text back.) *)
Theorem anchor_absent_noop :
  forall content : string,
    Forall (fun l => strip l <> ANCHOR) (split_lines content) ->
    Boards.AutoFinal.update_boards content = (content, None)
    /\ (forall directory,
           Boards.AutoFinal.boards_txt directory = Some content ->
           let after := Boards.AutoFinal.rename_esp32_to_nuttyfi32 directory in
           Boards.AutoFinal.boards_txt (fst after) = Some content
           /\ ~ In "boards.txt" (snd after))
    /\ Boards.Package.update_boards content = (content, Some content).
Proof.
  intros content Hl.
  assert (Hsame : Boards.AutoFinal.update_boards content = (content, None)).
  { unfold Boards.AutoFinal.update_boards.
    now rewrite (add_board_no_anchor _ _ Hl), String.eqb_refl. }
  split; [exact Hsame|]. split.
  - intros directory Hboards after. subst after.
    unfold Boards.AutoFinal.rename_esp32_to_nuttyfi32.
    rewrite Hboards. cbn [Boards.AutoFinal.update_file]. rewrite Hsame.
    destruct (Boards.AutoFinal.update_file "platform.txt"
                Boards.AutoFinal.update_platform
                (Boards.AutoFinal.platform_txt directory)) as [platform w1] eqn:E.
    cbn [fst snd Boards.AutoFinal.boards_txt]. split; [reflexivity|].
    rewrite List.app_nil_r. intros Hin.
    unfold Boards.AutoFinal.update_file in E.
    destruct (Boards.AutoFinal.platform_txt directory) as [p|];
      [|injection E as <- <-; exact Hin].
    destruct (Boards.AutoFinal.update_platform p) as [c [written|]];
      injection E as <- <-; [|exact Hin].
    destruct Hin as [Heq|[]]. discriminate Heq.
  - unfold Boards.Package.update_boards.
    now rewrite (add_board_no_anchor _ _ Hl).
Qed.

Lemma anchor_absent_noop_witness :
  Boards.AutoFinal.update_boards "pico32.name=ESP32 Pico Kit"
  = ("pico32.name=ESP32 Pico Kit", None).
Proof.
  refine (proj1 (anchor_absent_noop "pico32.name=ESP32 Pico Kit" _)).
  repeat constructor; discriminate.
Defined.

End SectionTransformer.


(* ================================================================== *)
(** * Properties of directory walks *)
(* ================================================================== *)

Module WalkFacts.
Import PyStr Walk.

Lemma node_induction {A} (P : node A -> Prop) :
  (forall a, P (File a)) ->
  (forall es, Forall (fun e => P (snd e)) es -> P (Dir es)) ->
  forall n, P n.
Proof.
  intros HF HD. fix IH 1. intros [a|es]; [apply HF|].
  apply HD. induction es as [|[name child] es IHes]; constructor.
  - apply IH.
  - exact IHes.
Qed.

(** [path] leads from the directory [n] to a regular file holding [a]. *)
Inductive file_at {A} : node A -> list string -> A -> Prop :=
| at_file (a : A) : file_at (File a) [] a
| at_entry (es : list (string * node A)) (name : string) (child : node A)
           (path : list string) (a : A) :
    In (name, child) es -> file_at child path a ->
    file_at (Dir es) (name :: path) a.

(** Two trees that differ only by the order in which each directory
    lists its entries. *)
Inductive same_tree {A} : node A -> node A -> Prop :=
| same_file (a : A) : same_tree (File a) (File a)
| same_dir (es es' : list (string * node A)) :
    same_entries es es' -> same_tree (Dir es) (Dir es')
with same_entries {A} :
  list (string * node A) -> list (string * node A) -> Prop :=
| same_nil : same_entries [] []
| same_cons (name : string) (n n' : node A) (es es' : list (string * node A)) :
    same_tree n n' -> same_entries es es' ->
    same_entries ((name, n) :: es) ((name, n') :: es')
| same_swap (e1 e2 : string * node A) (es : list (string * node A)) :
    same_entries (e1 :: e2 :: es) (e2 :: e1 :: es)
| same_trans (es1 es2 es3 : list (string * node A)) :
    same_entries es1 es2 -> same_entries es2 es3 -> same_entries es1 es3.

Scheme same_tree_mut := Induction for same_tree Sort Prop
  with same_entries_mut := Induction for same_entries Sort Prop.
Combined Scheme same_tree_entries_ind from same_tree_mut, same_entries_mut.

(** The step of [os_walk] into one entry of a directory. *)
Definition enter {A} (keep : string -> bool) (rel : list string)
           (e : string * node A) : list (item A) :=
  if is_dir (snd e) && keep (fst e)
  then os_walk keep (rel ++ [fst e]) (snd e)
  else [].

Lemma os_walk_dir {A} (keep : string -> bool) (rel : list string)
      (es : list (string * node A)) :
  os_walk keep rel (Dir es)
  = {| root := rel;
       dirs := dir_names es;
       files := file_entries es |} :: flat_map (enter keep rel) es.
Proof.
  cbn [os_walk]. f_equal.
  induction es as [|[name child] es IH]; [reflexivity|].
  cbn [flat_map]. unfold enter at 1. cbn [fst snd].
  rewrite <- IH. now destruct (is_dir child && keep name).
Qed.

(** What a loop over [os.walk] that writes [arc(relative path)] for the
    files [keep_file] accepts produces, from [rel] down. *)
Definition listed {A} (keep_file : string -> bool) (arc : string -> string)
           (rel : list string) (n : node A) : list (string * A) :=
  flat_map (Archive.write_files keep_file arc) (os_walk visible rel n).

Definition list_file {A} (keep_file : string -> bool) (arc : string -> string)
           (rel : list string) (e : string * node A) : list (string * A) :=
  match snd e with
  | File a =>
      if keep_file (fst e) then [(arc (relative_path rel (fst e)), a)] else []
  | Dir _ => []
  end.

Definition list_dir {A} (keep_file : string -> bool) (arc : string -> string)
           (rel : list string) (e : string * node A) : list (string * A) :=
  if is_dir (snd e) && visible (fst e)
  then listed keep_file arc (rel ++ [fst e]) (snd e)
  else [].

Lemma write_files_entries {A} (keep_file : string -> bool)
      (arc : string -> string) (rel : list string) (ds : list string)
      (es : list (string * node A)) :
  Archive.write_files keep_file arc
    {| root := rel; dirs := ds; files := file_entries es |}
  = flat_map (list_file keep_file arc rel) es.
Proof.
  unfold Archive.write_files. cbn [root files].
  induction es as [|[name [a|sub]] es IH]; [reflexivity| |].
  - unfold file_entries in *. cbn [flat_map snd fst List.app filter].
    unfold list_file at 1. cbn [fst snd].
    destruct (keep_file name); cbn [map List.app]; now rewrite IH.
  - unfold file_entries in *. cbn [flat_map snd fst List.app].
    unfold list_file at 1. cbn [snd List.app]. exact IH.
Qed.

Lemma flat_map_flat_map {X Y Z} (f : Y -> list Z) (g : X -> list Y)
      (l : list X) :
  flat_map f (flat_map g l) = flat_map (fun x => flat_map f (g x)) l.
Proof.
  induction l as [|x l IH]; [reflexivity|].
  cbn [flat_map]. now rewrite flat_map_app, IH.
Qed.

Lemma listed_dir {A} (keep_file : string -> bool) (arc : string -> string)
      (rel : list string) (es : list (string * node A)) :
  listed keep_file arc rel (Dir es)
  = (flat_map (list_file keep_file arc rel) es
     ++ flat_map (list_dir keep_file arc rel) es)%list.
Proof.
  unfold listed at 1. rewrite os_walk_dir. cbn [flat_map].
  rewrite write_files_entries, flat_map_flat_map. f_equal.
  apply flat_map_ext. intros [name child].
  unfold enter, list_dir, listed. cbn [fst snd].
  now destruct (is_dir child && visible name).
Qed.

Lemma listed_file {A} (keep_file : string -> bool) (arc : string -> string)
      (rel : list string) (a : A) :
  listed keep_file arc rel (File a) = [].
Proof. reflexivity. Qed.

Lemma same_tree_is_dir {A} (n n' : node A) :
  same_tree n n' -> is_dir n = is_dir n'.
Proof. now intros []. Qed.

Lemma same_tree_listed {A} (keep_file : string -> bool)
      (arc : string -> string) :
  (forall n n' : node A, same_tree n n' ->
     forall rel, Permutation (listed keep_file arc rel n)
                             (listed keep_file arc rel n'))
  /\ (forall es es' : list (string * node A), same_entries es es' ->
        forall rel,
          Permutation (flat_map (list_file keep_file arc rel) es)
                      (flat_map (list_file keep_file arc rel) es')
          /\ Permutation (flat_map (list_dir keep_file arc rel) es)
                         (flat_map (list_dir keep_file arc rel) es')).
Proof.
  apply same_tree_entries_ind.
  - intros a rel. apply Permutation_refl.
  - intros es es' _ IH rel. rewrite !listed_dir.
    destruct (IH rel) as [Hf Hd]. now apply Permutation_app.
  - intros rel. split; apply Permutation_refl.
  - intros name n n' es es' Hn IHn _ IHes rel.
    destruct (IHes rel) as [Hf Hd]. cbn [flat_map]. split.
    + apply Permutation_app; [|exact Hf].
      unfold list_file. cbn [fst snd]. destruct Hn; apply Permutation_refl.
    + apply Permutation_app; [|exact Hd].
      unfold list_dir. cbn [fst snd]. rewrite (same_tree_is_dir _ _ Hn).
      destruct (is_dir n' && visible name);
        [apply IHn|apply Permutation_refl].
  - intros e1 e2 es rel. cbn [flat_map].
    split; rewrite !List.app_assoc;
      apply Permutation_app_tail, Permutation_app_comm.
  - intros es1 es2 es3 _ IH12 _ IH23 rel.
    destruct (IH12 rel), (IH23 rel).
    split; eapply Permutation_trans; eassumption.
Qed.

(** Every listed entry is a file of the tree reached through visible
    directories and kept by [keep_file]. *)
Lemma listed_sound {A} (keep_file : string -> bool) (arc : string -> string)
      (n : node A) :
  forall rel name a,
    In (name, a) (listed keep_file arc rel n) ->
    exists sub file,
      file_at n (sub ++ [file]) a
      /\ Forall (fun c => hidden c = false) sub
      /\ keep_file file = true
      /\ name = arc (join "/" (rel ++ sub ++ [file])).
Proof.
  induction n as [a0|es IH] using node_induction; intros rel name a Hin.
  - destruct Hin.
  - rewrite listed_dir in Hin. apply in_app_or in Hin as [Hin|Hin];
      apply in_flat_map in Hin as [[entry child] [He Hin]].
    + unfold list_file in Hin. cbn [fst snd] in Hin.
      destruct child as [a1|sub]; [|destruct Hin].
      destruct (keep_file entry) eqn:Hk; [|destruct Hin].
      destruct Hin as [Heq|[]]. injection Heq as <- <-.
      exists [], entry. repeat split; try assumption.
      * apply (at_entry es entry (File a1) [] a1 He), at_file.
      * constructor.
    + unfold list_dir in Hin. cbn [fst snd] in Hin.
      destruct (is_dir child && visible entry) eqn:Hv; [|destruct Hin].
      apply andb_prop in Hv as [_ Hv].
      rewrite Forall_forall in IH. specialize (IH _ He). cbn [snd] in IH.
      destruct (IH _ _ _ Hin) as (sub & file & Hat & Hsub & Hk & ->).
      exists (entry :: sub), file. repeat split; try assumption.
      * apply (at_entry es entry child (sub ++ [file]) a He Hat).
      * constructor; [|exact Hsub].
        unfold visible in Hv. now apply negb_true_iff in Hv.
      * now rewrite <- !List.app_assoc.
Qed.

(** No visible file is left out. *)
Lemma listed_complete {A} (keep_file : string -> bool)
      (arc : string -> string) (sub : list string) :
  forall (n : node A) rel file a,
    file_at n (sub ++ [file]) a ->
    Forall (fun c => hidden c = false) sub ->
    keep_file file = true ->
    In (arc (join "/" (rel ++ sub ++ [file])), a)
       (listed keep_file arc rel n).
Proof.
  induction sub as [|d sub IH]; intros n rel file a Hat Hsub Hk.
  - inversion Hat as [|es name child path a' He Hchild]; subst.
    inversion Hchild; subst.
    rewrite listed_dir. apply in_or_app. left.
    apply in_flat_map. exists (file, File a). split; [exact He|].
    unfold list_file. cbn [fst snd]. rewrite Hk. now left.
  - inversion Hat as [|es name child path a' He Hchild]; subst.
    inversion Hsub as [|? ? Hd Hsub']; subst.
    assert (Hdir : is_dir child = true).
    { destruct child; [|reflexivity]. inversion Hchild.
      now destruct sub. }
    rewrite listed_dir. apply in_or_app. right.
    apply in_flat_map. exists (d, child). split; [exact He|].
    unfold list_dir, visible. cbn [fst snd]. rewrite Hdir, Hd. cbn [andb negb].
    specialize (IH child (rel ++ [d])%list file a Hchild Hsub' Hk).
    now rewrite <- !List.app_assoc in IH.
Qed.

End WalkFacts.


(* ================================================================== *)
(** * The archive builder leaves hidden names out *)
(* ================================================================== *)

Section ArchiveBuilder.
Import PyStr Walk WalkFacts.

(** The tree of the specification's example: [a.txt], [sub/b.txt] and
    the hidden file [.secret]. *)
Definition sample_tree {A} (a b s : A) : node A :=
  Dir [("a.txt", File a); ("sub", Dir [("b.txt", File b)]);
       (".secret", File s)].

(** C5.  [create_zip] of [build_nuttyfi32_complete_auto_final.py] writes
    one entry per file of the source tree that is reached through
    directories whose name does not begin with a dot and whose own name
    does not begin with a dot, and no other entry; the entry is named
    [R/relative-path], [R] being the name of the root folder.  On the
    tree [a.txt], [sub/b.txt], [.secret] the entries are [R/a.txt] and
    [R/sub/b.txt], whatever the order in which directories are listed. *)
Theorem archive_skips_hidden :
  forall (A : Type) (R : string),
    (forall (source_dir : node A) (name : string) (a : A),
        In (name, a) (Archive.create_zip R source_dir)
        <-> exists sub file,
            file_at source_dir (sub ++ [file]) a
            /\ Forall (fun c => hidden c = false) (sub ++ [file])
            /\ name = R ++ "/" ++ join "/" (sub ++ [file]))
    /\ (forall a b s : A,
           Archive.create_zip R (sample_tree a b s)
           = [(R ++ "/a.txt", a); (R ++ "/sub/b.txt", b)])
    /\ (forall (a b s : A) (listing : node A),
           same_tree (sample_tree a b s) listing ->
           Permutation (Archive.create_zip R listing)
                       [(R ++ "/a.txt", a); (R ++ "/sub/b.txt", b)]).
Proof.
  intros A R. split; [|split].
  - intros source_dir name a.
    change (Archive.create_zip R source_dir)
      with (listed visible (fun p => R ++ "/" ++ p) [] source_dir).
    split.
    + intros Hin.
      destruct (listed_sound _ _ _ _ _ _ Hin)
        as (sub & file & Hat & Hsub & Hk & ->).
      exists sub, file. split; [exact Hat|]. split; [|reflexivity].
      apply Forall_app. split; [exact Hsub|].
      constructor; [|constructor].
      unfold visible in Hk. now apply negb_true_iff in Hk.
    + intros (sub & file & Hat & Hvis & ->).
      apply Forall_app in Hvis as [Hsub Hfile].
      inversion Hfile as [|? ? Hf _]; subst.
      apply (listed_complete visible (fun p => R ++ "/" ++ p) sub
                             source_dir [] file a Hat Hsub).
      unfold visible. now rewrite Hf.
  - reflexivity.
  - intros a b s listing Hsame.
    apply Permutation_sym.
    exact (proj1 (same_tree_listed visible (fun p => R ++ "/" ++ p))
                 _ _ Hsame []).
Qed.

(** The other builders on the same tree: [create_zip_from_bsp] of
    [build_and_push_complete.py] names the entries by their relative
    path, and [create_zip] of [build_nuttyfi32_package.py], which prunes
    hidden directories only, keeps [.secret]. *)
Lemma flat_archive_sample {A} (a b s : A) :
  Archive.create_zip_from_bsp (sample_tree a b s)
  = [("a.txt", a); ("sub/b.txt", b)].
Proof. reflexivity. Qed.

Lemma package_archive_sample {A} (a b s : A) :
  Archive.Package.create_zip (sample_tree a b s)
  = [("a.txt", a); (".secret", s); ("sub/b.txt", b)].
Proof. reflexivity. Qed.

End ArchiveBuilder.


(* ================================================================== *)
(** * Properties of sorting and of the hashed bytes *)
(* ================================================================== *)

Module TextFacts.
Import PyStr.

Lemma ltb_irrefl (s : string) : String.ltb s s = false.
Proof.
  unfold String.ltb.
  pose proof (proj2 (String_as_OT.cmp_eq s s) eq_refl) as Hs.
  unfold String_as_OT.cmp in Hs. now rewrite Hs.
Qed.

Lemma ltb_trans (s1 s2 s3 : string) :
  String.ltb s1 s2 = true -> String.ltb s2 s3 = true ->
  String.ltb s1 s3 = true.
Proof.
  unfold String.ltb. intros H12 H23.
  destruct (String.compare s1 s2) eqn:E12; try discriminate.
  destruct (String.compare s2 s3) eqn:E23; try discriminate.
  apply String_as_OT.cmp_lt in E12, E23.
  pose proof (String_as_OT.lt_trans _ _ _ E12 E23) as H13.
  apply String_as_OT.cmp_lt in H13. unfold String_as_OT.cmp in H13.
  now rewrite H13.
Qed.

Lemma ltb_total (s1 s2 : string) :
  s1 <> s2 -> String.ltb s1 s2 = false -> String.ltb s2 s1 = true.
Proof.
  unfold String.ltb. intros Hne H12.
  rewrite String.compare_antisym.
  destruct (String.compare s1 s2) eqn:E12; try discriminate; [|reflexivity].
  now apply String.compare_eq_iff in E12.
Qed.

(** [c] occurs in [s]. *)
Fixpoint occurs (c : ascii) (s : string) : bool :=
  match s with
  | String c' s' => Ascii.eqb c c' || occurs c s'
  | EmptyString => false
  end.

Lemma append_inv_head (p s1 s2 : string) : p ++ s1 = p ++ s2 -> s1 = s2.
Proof.
  induction p as [|c p IH]; cbn; [easy|].
  intros Heq. injection Heq as Heq. now apply IH.
Qed.

(** A text [a ++ c ++ b] in which [c] does not occur in [b] is cut in
    one way only. *)
Lemma cut_at_last (c : ascii) (a a' b b' : string) :
  a ++ String c b = a' ++ String c b' ->
  occurs c b = false -> occurs c b' = false ->
  a = a' /\ b = b'.
Proof.
  revert a'. induction a as [|x a IH]; intros [|x' a'] Heq Hb Hb'; cbn in Heq.
  - injection Heq as ->. now split.
  - injection Heq as <- ->. exfalso. clear -Hb.
    induction a' as [|y a' IH]; cbn in Hb.
    + now rewrite Ascii.eqb_refl in Hb.
    + apply orb_false_elim in Hb as [_ Hb]. now apply IH.
  - injection Heq as -> <-. exfalso. clear -Hb'.
    induction a as [|y a IH]; cbn in Hb'.
    + now rewrite Ascii.eqb_refl in Hb'.
    + apply orb_false_elim in Hb' as [_ Hb']. now apply IH.
  - injection Heq as <- Heq. destruct (IH _ Heq Hb Hb') as [-> ->].
    now split.
Qed.

Lemma string_of_uint_digits (d : Decimal.uint) :
  occurs ":" (NilEmpty.string_of_uint d) = false.
Proof. induction d; cbn; auto. Qed.

Lemma str_of_N_no_colon (n : N) : occurs ":" (str_of_N n) = false.
Proof. apply string_of_uint_digits. Qed.

Lemma str_of_N_inj (n n' : N) : str_of_N n = str_of_N n' -> n = n'.
Proof.
  unfold str_of_N. intros Heq. apply DecimalN.Unsigned.to_uint_inj.
  apply (f_equal NilEmpty.uint_of_string) in Heq.
  rewrite !NilEmpty.usu in Heq. now injection Heq.
Qed.

(** [encode] is one-to-one. *)
Definition all_chars : list ascii := map ascii_of_nat (seq 0 256).

Lemma in_all_chars (c : ascii) : In c all_chars.
Proof.
  unfold all_chars. rewrite <- (ascii_nat_embedding c).
  apply in_map, in_seq. pose proof (nat_ascii_bounded c). lia.
Qed.

Fixpoint compatible (l1 l2 : list Byte.byte) : bool :=
  match l1, l2 with
  | x :: l1', y :: l2' => Byte.eqb x y && compatible l1' l2'
  | _, _ => true
  end%list.

Lemma app_compatible (l1 l2 t1 t2 : list Byte.byte) :
  (l1 ++ t1 = l2 ++ t2)%list -> compatible l1 l2 = true.
Proof.
  revert l2. induction l1 as [|x l1 IH]; intros [|y l2] Heq;
    try reflexivity.
  cbn in Heq. injection Heq as <- Heq. cbn [compatible].
  rewrite (Byte.byte_dec_lb (eq_refl x)). cbn. now apply (IH l2).
Qed.

Lemma encode_char_table :
  forallb (fun c1 =>
             forallb (fun c2 =>
                        Ascii.eqb c1 c2
                        || negb (compatible (encode_char c1) (encode_char c2)))
                     all_chars)
          all_chars = true.
Proof. vm_compute. reflexivity. Qed.

Lemma encode_char_inj (c1 c2 : ascii) (t1 t2 : list Byte.byte) :
  (encode_char c1 ++ t1 = encode_char c2 ++ t2)%list -> c1 = c2 /\ t1 = t2.
Proof.
  intros Heq. pose proof encode_char_table as Htable.
  rewrite forallb_forall in Htable. specialize (Htable c1 (in_all_chars c1)).
  rewrite forallb_forall in Htable. specialize (Htable c2 (in_all_chars c2)).
  rewrite (app_compatible _ _ _ _ Heq) in Htable. cbn in Htable.
  rewrite orb_false_r in Htable. apply Ascii.eqb_eq in Htable. subst c2.
  split; [reflexivity|]. now apply app_inv_head in Heq.
Qed.

Lemma encode_char_not_nil (c : ascii) : encode_char c <> []%list.
Proof. unfold encode_char. now destruct (N_of_ascii c <? 128)%N. Qed.

Lemma encode_inj (s1 s2 : string) : encode s1 = encode s2 -> s1 = s2.
Proof.
  revert s2. induction s1 as [|c1 s1 IH]; intros [|c2 s2] Heq; cbn in Heq.
  - reflexivity.
  - symmetry in Heq. apply app_eq_nil in Heq as [Heq _].
    now apply encode_char_not_nil in Heq.
  - apply app_eq_nil in Heq as [Heq _].
    now apply encode_char_not_nil in Heq.
  - apply encode_char_inj in Heq as [-> Heq]. f_equal. now apply IH.
Qed.

End TextFacts.

Module SortFacts.
Import Fingerprint TextFacts.

Section ByKey.
Context {A : Type} (lt : A -> A -> bool) (key : A -> string).
Hypothesis lt_key :
  forall x y, key x <> key y -> lt x y = String.ltb (key x) (key y).

Definition before (x y : A) : Prop := String.ltb (key x) (key y) = true.

Lemma insert_perm (x : A) (l : list A) : Permutation (insert lt x l) (x :: l).
Proof.
  induction l as [|y l IH]; cbn [insert]; [apply Permutation_refl|].
  destruct (lt y x); [|apply Permutation_refl].
  eapply Permutation_trans; [apply perm_skip, IH|apply perm_swap].
Qed.

Lemma sort_perm (l : list A) : Permutation (sort lt l) l.
Proof.
  induction l as [|x l IH]; cbn [sort]; [apply Permutation_refl|].
  eapply Permutation_trans; [apply insert_perm|now apply perm_skip].
Qed.

Lemma insert_sorted (x : A) (l : list A) :
  StronglySorted before l ->
  ~ In (key x) (map key l) ->
  StronglySorted before (insert lt x l).
Proof.
  induction 1 as [|y l Hl IH Hy]; intros Hx; cbn [insert].
  - constructor; constructor.
  - assert (Hxy : key y <> key x).
    { intros Heq. apply Hx. left. exact Heq. }
    assert (Hxl : ~ In (key x) (map key l)).
    { intros Hin. apply Hx. right. exact Hin. }
    destruct (lt y x) eqn:E.
    + constructor; [now apply IH|].
      rewrite Forall_forall. intros z Hz.
      apply (Permutation_in _ (insert_perm x l)) in Hz as [<-|Hz].
      * unfold before. now rewrite <- (lt_key y x Hxy).
      * rewrite Forall_forall in Hy. now apply Hy.
    + rewrite (lt_key y x Hxy) in E.
      assert (Hbefore : before x y).
      { apply ltb_total; [exact Hxy|exact E]. }
      constructor; [now constructor|].
      constructor; [exact Hbefore|].
      eapply Forall_impl; [|exact Hy].
      intros z Hz. unfold before in *. eapply ltb_trans; eassumption.
Qed.

Lemma sort_sorted (l : list A) :
  NoDup (map key l) -> StronglySorted before (sort lt l).
Proof.
  induction l as [|x l IH]; cbn [sort map]; intros Hnd; [constructor|].
  inversion Hnd as [|? ? Hx Hnd']; subst.
  apply insert_sorted; [now apply IH|].
  intros Hin. apply Hx.
  eapply Permutation_in; [|exact Hin].
  apply Permutation_map, sort_perm.
Qed.

Lemma sorted_unique (l1 l2 : list A) :
  StronglySorted before l1 -> StronglySorted before l2 ->
  Permutation l1 l2 -> l1 = l2.
Proof.
  intros H1. revert l2.
  induction H1 as [|a l1 Hl1 IH Ha]; intros l2 H2 Hp.
  - apply Permutation_nil in Hp. now subst.
  - destruct H2 as [|b l2 Hl2 Hb].
    + apply Permutation_sym, Permutation_nil in Hp. discriminate.
    + assert (Hab : a = b).
      { assert (Hina : In a (b :: l2))
          by (eapply Permutation_in; [exact Hp|now left]).
        assert (Hinb : In b (a :: l1))
          by (eapply Permutation_in;
              [apply Permutation_sym; exact Hp|now left]).
        destruct Hina as [->|Hina]; [reflexivity|].
        destruct Hinb as [->|Hinb]; [reflexivity|].
        rewrite Forall_forall in Ha, Hb.
        pose proof (ltb_trans _ _ _ (Ha _ Hinb) (Hb _ Hina)) as Hcyc.
        now rewrite ltb_irrefl in Hcyc. }
      subst b. f_equal. apply IH; [exact Hl2|].
      now apply Permutation_cons_inv in Hp.
Qed.

(** The sorted list depends on the elements only, not on their order. *)
Lemma sort_permutation (l1 l2 : list A) :
  Permutation l1 l2 -> NoDup (map key l1) -> sort lt l1 = sort lt l2.
Proof.
  intros Hp Hnd. apply sorted_unique.
  - now apply sort_sorted.
  - apply sort_sorted.
    eapply Permutation_NoDup; [apply Permutation_map; exact Hp|exact Hnd].
  - eapply Permutation_trans; [apply sort_perm|].
    eapply Permutation_trans; [exact Hp|apply Permutation_sym, sort_perm].
Qed.

Lemma sorted_map (f : A -> A) (l : list A) :
  (forall x, key (f x) = key x) ->
  StronglySorted before l -> StronglySorted before (map f l).
Proof.
  intros Hf. induction 1 as [|x l Hl IH Hx]; cbn [map]; constructor.
  - exact IH.
  - rewrite Forall_map. eapply Forall_impl; [|exact Hx].
    intros y Hy. unfold before in *. now rewrite !Hf.
Qed.

(** Changing elements without touching their key does not move them. *)
Lemma sort_map (f : A -> A) (l : list A) :
  (forall x, key (f x) = key x) ->
  NoDup (map key l) ->
  sort lt (map f l) = map f (sort lt l).
Proof.
  intros Hf Hnd.
  assert (Hkeys : map key (map f l) = map key l).
  { rewrite map_map. apply map_ext. exact Hf. }
  apply sorted_unique.
  - apply sort_sorted. now rewrite Hkeys.
  - apply sorted_map; [exact Hf|now apply sort_sorted].
  - eapply Permutation_trans; [apply sort_perm|].
    apply Permutation_map, Permutation_sym, sort_perm.
Qed.

End ByKey.
End SortFacts.


(* ================================================================== *)
(** * Properties of the fingerprint engine *)
(* ================================================================== *)

Module FingerprintFacts.
Import PyStr Walk WalkFacts Fingerprint TextFacts SortFacts.

Section Directory.
Context `{PyFloat}.

Definition path (e : file_info) : string := fst (fst e).

Lemma file_info_lt_key (x y : file_info) :
  path x <> path y -> file_info_lt x y = String.ltb (path x) (path y).
Proof.
  destruct x as [[p m] s], y as [[p' m'] s']. cbn [path fst]. intros Hne.
  unfold file_info_lt, tuple_lt. apply String.eqb_neq in Hne.
  now rewrite Hne.
Qed.

(** The bytes [calculate_bsp_hash] feeds to SHA-256. *)
Definition hash_input (info : list file_info) : Sha256.hasher :=
  fold_left (fun h e => Sha256.update h (entry_bytes e))
            (sort file_info_lt info) Sha256.new.

Lemma fold_update {X} (f : X -> list Byte.byte) (l : list X)
      (h : Sha256.hasher) :
  fold_left (fun h e => Sha256.update h (f e)) l h
  = (h ++ List.concat (map f l))%list.
Proof.
  revert h. induction l as [|x l IH]; intros h; cbn [fold_left map List.concat].
  - now rewrite List.app_nil_r.
  - rewrite IH. unfold Sha256.update. now rewrite <- List.app_assoc.
Qed.

Lemma map_flat_map_comm {X Y Z} (g : Y -> Z) (f : X -> list Y) (l : list X) :
  map g (flat_map f l) = flat_map (fun x => map g (f x)) l.
Proof.
  induction l as [|x l IH]; [reflexivity|].
  cbn [flat_map]. now rewrite map_app, IH.
Qed.

Definition triple (e : string * stat) : file_info :=
  (fst e, st_mtime (snd e), st_size (snd e)).

Lemma collect_listed (t : node stat) :
  collect t = map triple (listed visible (fun p => p) [] t).
Proof.
  unfold collect, listed. rewrite map_flat_map_comm.
  apply flat_map_ext. intros it. unfold Archive.write_files.
  now rewrite map_map.
Qed.

Lemma same_tree_collect (t t' : node stat) :
  same_tree t t' -> Permutation (collect t) (collect t').
Proof.
  intros Hsame. rewrite !collect_listed. apply Permutation_map.
  now apply (proj1 (same_tree_listed visible (fun p => p))).
Qed.

Lemma hash_input_permutation (info info' : list file_info) :
  Permutation info info' -> NoDup (map path info) ->
  hash_input info = hash_input info'.
Proof.
  intros Hp Hnd. unfold hash_input.
  now rewrite (sort_permutation file_info_lt path file_info_lt_key _ _ Hp Hnd).
Qed.

Lemma entry_bytes_inj (p : string) (m m' : float) (s s' : N) :
  (forall a b : float, str_float a = str_float b -> a = b) ->
  entry_bytes (p, m, s) = entry_bytes (p, m', s') -> m = m' /\ s = s'.
Proof.
  intros Hinj Heq. unfold entry_bytes in Heq.
  apply encode_inj, append_inv_head in Heq.
  change (":" ++ ?x) with (String ":" x) in Heq.
  injection Heq as Heq.
  apply cut_at_last in Heq as [Hm Hs]; try apply str_of_N_no_colon.
  split; [now apply Hinj|now apply str_of_N_inj].
Qed.

Lemma map_unchanged (f : file_info -> file_info) (p : string)
      (l : list file_info) :
  (forall e, path e <> p -> f e = e) ->
  ~ In p (map path l) -> map f l = l.
Proof.
  intros Hf. induction l as [|e l IH]; cbn [map]; intros Hp; [reflexivity|].
  rewrite Hf, IH; [reflexivity| |]; intros Hin; apply Hp; [now right|now left].
Qed.

(** Changing the time or the size of one entry changes the hashed
    bytes. *)
Lemma hash_input_changes (l1 l2 : list file_info) (p : string)
      (m m' : float) (s s' : N) :
  (forall a b : float, str_float a = str_float b -> a = b) ->
  NoDup (map path (l1 ++ (p, m, s) :: l2)) ->
  (m, s) <> (m', s') ->
  hash_input (l1 ++ (p, m', s') :: l2) <> hash_input (l1 ++ (p, m, s) :: l2).
Proof.
  intros Hinj Hnd Hne Heq.
  set (f := (fun e : file_info =>
               if path e =? p then ((p, m', s') : file_info) else e)
             : file_info -> file_info).
  assert (Hkey : forall e, path (f e) = path e).
  { intros e. unfold f. destruct (String.eqb_spec (path e) p) as [->|];
      reflexivity. }
  assert (Hother : forall e, path e <> p -> f e = e).
  { intros e He. unfold f. apply String.eqb_neq in He. now rewrite He. }
  assert (Hnd' := Hnd). rewrite map_app in Hnd'. cbn [map] in Hnd'.
  apply NoDup_remove_2 in Hnd'. cbn [path fst] in Hnd'.
  assert (Hmap : map f (l1 ++ (p, m, s) :: l2) = (l1 ++ (p, m', s') :: l2)%list).
  { rewrite map_app. cbn [map].
    rewrite (map_unchanged f p l1 Hother), (map_unchanged f p l2 Hother).
    - unfold f at 1. cbn [path fst]. now rewrite String.eqb_refl.
    - intros Hin. apply Hnd', in_or_app. now right.
    - intros Hin. apply Hnd', in_or_app. now left. }
  unfold hash_input in Heq. rewrite <- Hmap in Heq.
  rewrite (sort_map file_info_lt path file_info_lt_key f _ Hkey Hnd) in Heq.
  pose proof (sort_perm file_info_lt (l1 ++ (p, m, s) :: l2)) as Hperm.
  assert (Hin : In (p, m, s) (sort file_info_lt (l1 ++ (p, m, s) :: l2))).
  { eapply Permutation_in; [apply Permutation_sym, Hperm|].
    apply in_or_app. right. now left. }
  apply in_split in Hin as (a & b & Hsorted).
  assert (Hnds : NoDup (map path (a ++ (p, m, s) :: b))).
  { rewrite <- Hsorted.
    eapply Permutation_NoDup; [|exact Hnd].
    apply Permutation_map, Permutation_sym, Hperm. }
  rewrite map_app in Hnds. cbn [map] in Hnds.
  apply NoDup_remove_2 in Hnds. cbn [path fst] in Hnds.
  rewrite Hsorted in Heq. rewrite map_app in Heq. cbn [map] in Heq.
  change (string * float * N)%type with file_info in Heq.
  rewrite (map_unchanged f p a Hother), (map_unchanged f p b Hother) in Heq.
  - unfold f at 1 in Heq. cbn [path fst] in Heq.
    rewrite String.eqb_refl in Heq.
    rewrite !fold_update, !map_app, !List.concat_app in Heq.
    cbn [map List.concat] in Heq.
    apply app_inv_head, app_inv_head, app_inv_tail in Heq.
    apply (entry_bytes_inj p m' m s' s Hinj) in Heq as [-> ->].
    now apply Hne.
  - intros Hin. apply Hnds, in_or_app. now right.
  - intros Hin. apply Hnds, in_or_app. now left.
Qed.

End Directory.

(** Floats that hold a whole number of seconds (below 10^16) are printed
    as that number followed by [.0]. *)
Definition whole_seconds : PyFloat :=
  {| float := Z;
     float_eqb := Z.eqb;
     float_ltb := Z.ltb;
     str_float := fun z => NilEmpty.string_of_int (Z.to_int z) ++ ".0" |}.

Lemma whole_seconds_inj (a b : Z) :
  @str_float whole_seconds a = @str_float whole_seconds b -> a = b.
Proof.
  cbn [str_float whole_seconds]. intros Heq.
  change (?x ++ ".0") with (x ++ String "." "0") in Heq.
  apply cut_at_last in Heq as [Heq _]; try reflexivity.
  apply DecimalZ.to_int_inj.
  apply (f_equal NilEmpty.int_of_string) in Heq.
  rewrite !NilEmpty.isi in Heq. now injection Heq.
Qed.

End FingerprintFacts.


(* ================================================================== *)
(** * The fingerprint engine: stability and the rebuild gate *)
(* ================================================================== *)

Section FingerprintEngine.
Import PyStr Walk WalkFacts Fingerprint FingerprintFacts.

(** C7.  The fingerprint of a directory is SHA-256 of the bytes
    [hash_input] built from the sorted triples (path, mtime, size) of its
    visible files.  Listing the directories in another order, or handing
    over the same triples in any order, gives the same fingerprint.
    Changing the time or the size of one file changes the hashed bytes,
    and with them the fingerprint unless SHA-256 takes the same value on
    the old and the new bytes.  Distinct files have distinct paths, and
    distinct floats are printed differently. *)
Theorem fingerprint_stability :
  forall (F : PyFloat) (t t' : node stat),
    same_tree t t' ->
    NoDup (map path (collect t)) ->
    (forall a b : float, str_float a = str_float b -> a = b) ->
    calculate_bsp_hash (Some t') = calculate_bsp_hash (Some t)
    /\ (forall info,
           Permutation (collect t) info ->
           hash_file_info info = calculate_bsp_hash (Some t))
    /\ (forall l1 l2 p m s m' s',
           collect t = (l1 ++ (p, m, s) :: l2)%list ->
           (m, s) <> (m', s') ->
           let changed := (l1 ++ (p, m', s') :: l2)%list in
           hash_input changed <> hash_input (collect t)
           /\ hash_file_info changed = Sha256.hexdigest (hash_input changed)
           /\ calculate_bsp_hash (Some t)
              = Sha256.hexdigest (hash_input (collect t))
           /\ ((Sha256.hexdigest (hash_input changed)
                = Sha256.hexdigest (hash_input (collect t)) ->
                hash_input changed = hash_input (collect t)) ->
               hash_file_info changed <> calculate_bsp_hash (Some t))).
Proof.
  intros F t t' Hsame Hnd Hinj. split; [|split].
  - unfold calculate_bsp_hash, hash_file_info.
    change (Sha256.hexdigest (hash_input (collect t'))
            = Sha256.hexdigest (hash_input (collect t))).
    f_equal. symmetry.
    apply hash_input_permutation; [now apply same_tree_collect|exact Hnd].
  - intros info Hp. unfold calculate_bsp_hash, hash_file_info.
    change (Sha256.hexdigest (hash_input info)
            = Sha256.hexdigest (hash_input (collect t))).
    f_equal. symmetry. now apply hash_input_permutation.
  - intros l1 l2 p m s m' s' Hcollect Hne changed.
    assert (Hchanges : hash_input changed <> hash_input (collect t)).
    { rewrite Hcollect in Hnd |- *.
      apply hash_input_changes; [exact Hinj|exact Hnd|exact Hne]. }
    repeat split; try exact Hchanges.
    intros Hfree Heq. apply Hchanges, Hfree, Heq.
Qed.

Definition stat_of (mtime : Z) (size : N) : @stat whole_seconds :=
  @Build_stat whole_seconds mtime size.

Definition bsp_tree : node (@stat whole_seconds) :=
  Dir [("boards.txt", File (stat_of 1700000000 4096));
       (".git", Dir [("HEAD", File (stat_of 1700000001 23))]);
       ("cores", Dir [("main.cpp", File (stat_of 1700000002 512))])].

Definition bsp_tree_relisted : node (@stat whole_seconds) :=
  Dir [(".git", Dir [("HEAD", File (stat_of 1700000001 23))]);
       ("boards.txt", File (stat_of 1700000000 4096));
       ("cores", Dir [("main.cpp", File (stat_of 1700000002 512))])].

Lemma fingerprint_stability_witness :
  @calculate_bsp_hash whole_seconds (Some bsp_tree_relisted)
  = @calculate_bsp_hash whole_seconds (Some bsp_tree)
  /\ @hash_file_info whole_seconds
       [("boards.txt", 1700000000%Z, 4097%N);
        ("cores/main.cpp", 1700000002%Z, 512%N)]
     <> @calculate_bsp_hash whole_seconds (Some bsp_tree).
Proof.
  assert (Hsame : same_tree bsp_tree bsp_tree_relisted)
    by (apply same_dir, same_swap).
  assert (Hnd : NoDup (map (@path whole_seconds)
                           (@collect whole_seconds bsp_tree))).
  { repeat constructor; cbn; intuition discriminate. }
  destruct (fingerprint_stability whole_seconds bsp_tree bsp_tree_relisted
              Hsame Hnd whole_seconds_inj) as (Hsamefp & _ & Hchange).
  split; [exact Hsamefp|].
  refine (proj2 (proj2 (proj2
    (Hchange [] [("cores/main.cpp", 1700000002%Z, 512%N)]
             "boards.txt" 1700000000%Z 4096%N 1700000000%Z 4097%N
             eq_refl _))) _).
  - intros Heq. discriminate Heq.
  - intros Heq. vm_compute in Heq. discriminate Heq.
Defined.

Definition release_archive : zip_file :=
  Zip [("esp32-1.0.6/boards.txt", 4096%N, 305419896%N);
       (".hidden", 1%N, 2%N);
       ("esp32-1.0.6/cores/main.cpp", 512%N, 2596069104%N)].

Definition stored_of (source_hash : option string) : text_file :=
  match source_hash with
  | Some h => Text h
  | None => TextAbsent
  end.

(** The stored fingerprint is the one of the source, and the output
    archive is missing. *)
Definition matching_release_but_no_zip : AutoFinal.files :=
  AutoFinal.Build_files false release_archive true
    (stored_of (calculate_zip_hash release_archive)).

Definition matching_but_no_zip : @BuildAndPush.files whole_seconds :=
  @BuildAndPush.Build_files whole_seconds false (Some bsp_tree)
    (Text (@calculate_bsp_hash whole_seconds (Some bsp_tree))).

(** C3, as stated: the stored fingerprint exists, is readable and equals
    the fresh one, and the function still answers [True], because the
    output archive is missing. *)
Lemma stored_match_counterexample :
  ((exists content,
       AutoFinal.hash_file matching_release_but_no_zip = Text content
       /\ calculate_zip_hash (AutoFinal.release_zip matching_release_but_no_zip)
          = Some content)
   /\ fst (AutoFinal.check_if_zip_needs_update matching_release_but_no_zip)
      = Py.Ok true)
  /\ ((exists content,
         @BuildAndPush.hash_file whole_seconds matching_but_no_zip
         = Text content
         /\ content
            = @calculate_bsp_hash whole_seconds
                (@BuildAndPush.bsp_source whole_seconds matching_but_no_zip))
      /\ fst (@BuildAndPush.check_if_zip_needs_update whole_seconds
                matching_but_no_zip) = true).
Proof.
  split; (split; [|reflexivity]); eexists; split; reflexivity.
Qed.

(** C3, amended.  When the output archive exists (and, in
    [build_nuttyfi32_complete_auto_final.py], the release archive too),
    [check_if_zip_needs_update] answers [False] exactly when the stored
    fingerprint file exists, can be read and holds, once stripped of the
    white space around it, the fingerprint just computed; it answers
    [True] when the file is missing, when reading it fails and when the
    text differs, and raises nothing. *)
Theorem rebuild_gate :
  forall (F : PyFloat) (fs : BuildAndPush.files) (fs' : AutoFinal.files),
    BuildAndPush.output_zip_exists fs = true ->
    AutoFinal.output_zip_exists fs' = true ->
    AutoFinal.zip_exists (AutoFinal.release_zip fs') = true ->
    ((fst (BuildAndPush.check_if_zip_needs_update fs) = false
      <-> exists content,
          BuildAndPush.hash_file fs = Text content
          /\ strip content = calculate_bsp_hash (BuildAndPush.bsp_source fs))
     /\ (BuildAndPush.hash_file fs = TextAbsent ->
         fst (BuildAndPush.check_if_zip_needs_update fs) = true)
     /\ (BuildAndPush.hash_file fs = TextUnreadable ->
         fst (BuildAndPush.check_if_zip_needs_update fs) = true)
     /\ (forall content,
            BuildAndPush.hash_file fs = Text content ->
            strip content <> calculate_bsp_hash (BuildAndPush.bsp_source fs) ->
            fst (BuildAndPush.check_if_zip_needs_update fs) = true))
    /\ ((fst (AutoFinal.check_if_zip_needs_update fs') = Py.Ok false
         <-> exists content,
             AutoFinal.hash_file fs' = Text content
             /\ calculate_zip_hash (AutoFinal.release_zip fs')
                = Some (strip content))
        /\ (AutoFinal.hash_file fs' = TextAbsent ->
            fst (AutoFinal.check_if_zip_needs_update fs') = Py.Ok true)
        /\ (AutoFinal.hash_file fs' = TextUnreadable ->
            fst (AutoFinal.check_if_zip_needs_update fs') = Py.Ok true)
        /\ (forall content,
               AutoFinal.hash_file fs' = Text content ->
               calculate_zip_hash (AutoFinal.release_zip fs')
               <> Some (strip content) ->
               fst (AutoFinal.check_if_zip_needs_update fs') = Py.Ok true)).
Proof.
  intros F fs fs' Hzip Hzip' Hrel. split.
  - unfold BuildAndPush.check_if_zip_needs_update. rewrite Hzip. cbn [negb].
    repeat split.
    + destruct (BuildAndPush.hash_file fs) as [| |content]; try discriminate.
      destruct (String.eqb_spec
                  (calculate_bsp_hash (BuildAndPush.bsp_source fs))
                  (strip content)) as [Heq|Hne]; [|discriminate].
      intros _. now exists content.
    + intros (content & -> & ->). now rewrite String.eqb_refl.
    + now intros ->.
    + now intros ->.
    + intros content -> Hne.
      destruct (String.eqb_spec
                  (calculate_bsp_hash (BuildAndPush.bsp_source fs))
                  (strip content)) as [Heq|_]; [|reflexivity].
      now destruct Hne.
  - unfold AutoFinal.check_if_zip_needs_update. rewrite Hzip', Hrel.
    cbn [negb]. repeat split.
    + destruct (AutoFinal.hash_file fs') as [| |content]; try discriminate.
      unfold AutoFinal.hash_eq.
      destruct (calculate_zip_hash (AutoFinal.release_zip fs')) as [h|];
        [|discriminate].
      destruct (String.eqb_spec h (strip content)) as [->|];
        [|discriminate].
      intros _. now exists content.
    + intros (content & -> & ->). unfold AutoFinal.hash_eq.
      now rewrite String.eqb_refl.
    + now intros ->.
    + now intros ->.
    + intros content -> Hne. unfold AutoFinal.hash_eq.
      destruct (calculate_zip_hash (AutoFinal.release_zip fs')) as [h|];
        [|reflexivity].
      destruct (String.eqb_spec h (strip content)) as [->|]; [|reflexivity].
      now destruct Hne.
Qed.

Lemma rebuild_gate_witness :
  fst (@BuildAndPush.check_if_zip_needs_update whole_seconds
         (@BuildAndPush.Build_files whole_seconds true (Some bsp_tree)
            (Text "0000"))) = true
  /\ fst (AutoFinal.check_if_zip_needs_update
            (AutoFinal.Build_files true release_archive false TextUnreadable))
     = Py.Ok true.
Proof.
  destruct (rebuild_gate whole_seconds
              (@BuildAndPush.Build_files whole_seconds true (Some bsp_tree)
                 (Text "0000"))
              (AutoFinal.Build_files true release_archive false TextUnreadable)
              eq_refl eq_refl eq_refl)
    as [(_ & _ & _ & Hdiff) (_ & _ & Hunreadable & _)].
  split.
  - apply (Hdiff "0000" eq_refl). vm_compute. discriminate.
  - apply Hunreadable. reflexivity.
Defined.

(** C10.  When the output archive does not exist,
    [check_if_zip_needs_update] answers [True] after the one test of its
    existence: the source is not fingerprinted and the stored fingerprint
    is not opened, whatever they hold. *)
Theorem missing_archive_forces_rebuild :
  forall (F : PyFloat) (fs : BuildAndPush.files) (fs' : AutoFinal.files),
    BuildAndPush.output_zip_exists fs = false ->
    AutoFinal.output_zip_exists fs' = false ->
    BuildAndPush.check_if_zip_needs_update fs = (true, [Exists OUTPUT_ZIP])
    /\ AutoFinal.check_if_zip_needs_update fs'
       = (Py.Ok true, [Exists OUTPUT_ZIP]).
Proof.
  intros F fs fs' Hzip Hzip'.
  unfold BuildAndPush.check_if_zip_needs_update,
    AutoFinal.check_if_zip_needs_update.
  now rewrite Hzip, Hzip'.
Qed.

Lemma missing_archive_forces_rebuild_witness :
  @BuildAndPush.check_if_zip_needs_update whole_seconds matching_but_no_zip
  = (true, [Exists OUTPUT_ZIP])
  /\ AutoFinal.check_if_zip_needs_update
       (AutoFinal.Build_files false release_archive true
          (Text "e3b0c44298fc1c149afbf4c8996fb92427ae41e4649b934ca495991b7852b855"))
     = (Py.Ok true, [Exists OUTPUT_ZIP]).
Proof.
  exact (missing_archive_forces_rebuild whole_seconds matching_but_no_zip
           (AutoFinal.Build_files false release_archive true
              (Text "e3b0c44298fc1c149afbf4c8996fb92427ae41e4649b934ca495991b7852b855"))
           eq_refl eq_refl).
Defined.

End FingerprintEngine.


(* ================================================================== *)
(** * Properties of the descriptor model *)
(* ================================================================== *)

Module Sha256Facts.
Import PyStr.

(** The test vectors of FIPS 180-4: one block, the empty message, and a
    message that spans two blocks. *)
Example sha256_abc :
  Sha256.hexdigest (encode "abc")
  = "ba7816bf8f01cfea414140de5dae2223b00361a396177a9cb410ff61f20015ad".
Proof. vm_compute. reflexivity. Qed.

Example sha256_empty :
  Sha256.hexdigest []
  = "e3b0c44298fc1c149afbf4c8996fb92427ae41e4649b934ca495991b7852b855".
Proof. vm_compute. reflexivity. Qed.

Example sha256_two_blocks :
  Sha256.hexdigest
    (encode "abcdbcdecdefdefgefghfghighijhijkijkljklmklmnlmnomnopnopq")
  = "248d6a61d20638b8e5c026930c3e6039a33ce45964ff2167f6ecedd419db06c1".
Proof. vm_compute. reflexivity. Qed.

Lemma groups_concat {A} (n fuel : nat) (l : list A) :
  0 < n -> List.length l <= fuel ->
  List.concat (Sha256.groups n fuel l) = l.
Proof.
  intros Hn. revert l.
  induction fuel as [|fuel IH]; intros l Hl; cbn [Sha256.groups].
  - destruct l; [reflexivity|cbn in Hl; lia].
  - destruct l as [|x l]; [reflexivity|].
    cbn [List.concat]. rewrite IH.
    + apply firstn_skipn.
    + rewrite length_skipn. cbn [List.length] in *. lia.
Qed.

Lemma fold_updates (blocks : list (list Byte.byte)) (h : Sha256.hasher) :
  fold_left Sha256.update blocks h = (h ++ List.concat blocks)%list.
Proof.
  revert h. induction blocks as [|b blocks IH]; intros h; cbn.
  - now rewrite List.app_nil_r.
  - rewrite IH. unfold Sha256.update. now rewrite <- List.app_assoc.
Qed.

(** Reading the archive by blocks hashes the archive. *)
Lemma calculate_sha256_digest (content : list Byte.byte) :
  Descriptor.calculate_sha256 content = upper (Sha256.hexdigest content).
Proof.
  unfold Descriptor.calculate_sha256.
  rewrite fold_updates, groups_concat; [reflexivity|lia|lia].
Qed.

End Sha256Facts.

Module DescriptorFacts.
Import Py PyStr Descriptor.

Lemma lookup_dict_set_same (k : string) (v : json) (d : list (string * json)) :
  lookup k (dict_set k v d) = Some v.
Proof.
  induction d as [|[k' v'] d IH]; cbn [dict_set lookup].
  - now rewrite String.eqb_refl.
  - destruct (String.eqb_spec k' k) as [->|Hne]; cbn [lookup].
    + now rewrite String.eqb_refl.
    + apply String.eqb_neq in Hne. now rewrite Hne.
Qed.

Lemma lookup_dict_set_other (k k' : string) (v : json)
      (d : list (string * json)) :
  k <> k' -> lookup k' (dict_set k v d) = lookup k' d.
Proof.
  intros Hne. induction d as [|[k0 v0] d IH]; cbn [dict_set lookup].
  - apply String.eqb_neq in Hne. now rewrite Hne.
  - destruct (String.eqb_spec k0 k) as [->|Hk0]; cbn [lookup].
    + apply String.eqb_neq in Hne. now rewrite Hne.
    + now rewrite IH.
Qed.

(** An assignment keeps every key that was there, in place. *)
Lemma dict_set_keys (k : string) (v : json) (d : list (string * json)) :
  map fst (dict_set k v d)
  = if existsb (String.eqb k) (map fst d) then map fst d
    else (map fst d ++ [k])%list.
Proof.
  induction d as [|[k' v'] d IH]; cbn [dict_set map fst existsb List.app];
    [reflexivity|].
  rewrite (String.eqb_sym k k').
  destruct (String.eqb_spec k' k) as [->|Hne]; cbn [map fst orb];
    [reflexivity|].
  rewrite IH. now destruct (existsb (String.eqb k) (map fst d)).
Qed.

Lemma nth_error_list_set_same (i : nat) (v x : json) (l : list json) :
  nth_error l i = Some x -> nth_error (list_set i v l) i = Some v.
Proof.
  revert i. induction l as [|y l IH]; intros [|i]; cbn; try discriminate.
  - reflexivity.
  - apply IH.
Qed.

Lemma nth_error_list_set_other (i j : nat) (v : json) (l : list json) :
  i <> j -> nth_error (list_set i v l) j = nth_error l j.
Proof.
  revert i j. induction l as [|y l IH]; intros [|i] [|j] Hne; cbn;
    try reflexivity; try congruence.
  apply IH. congruence.
Qed.

Definition is_str (v : json) : bool :=
  match v with JStr _ => true | _ => false end.

Lemma getitem_put_same (v : json) (s : subscript) (c c' : json) :
  is_str v = false -> getitem v s = Ok c -> getitem (put v s c') s = Ok c'.
Proof.
  destruct v as [| | | |l|d], s as [k|i]; cbn; try discriminate; intros _.
  - destruct (nth_error l i) eqn:E; [|discriminate].
    intros _. now rewrite (nth_error_list_set_same _ _ _ _ E).
  - intros _. now rewrite lookup_dict_set_same.
Qed.

Lemma getitem_put_other (v : json) (s s' : subscript) (c : json) :
  s <> s' -> getitem (put v s c) s' = getitem v s'.
Proof.
  intros Hne.
  destruct v as [| | | |l|d], s as [k|i], s' as [k'|i']; cbn; try reflexivity.
  - rewrite nth_error_list_set_other; [reflexivity|congruence].
  - rewrite lookup_dict_set_other; [reflexivity|congruence].
Qed.

Lemma subscript_eqb_spec (a b : subscript) : reflect (a = b) (subscript_eqb a b).
Proof.
  destruct a as [k|i], b as [k'|i']; cbn; try (constructor; discriminate).
  - destruct (String.eqb_spec k k'); constructor; congruence.
  - destruct (Nat.eqb_spec i i'); constructor; congruence.
Qed.

(** Two paths part ways: neither leads through the other. *)
Fixpoint diverges (p q : list subscript) : bool :=
  match p, q with
  | s :: p', s' :: q' => if subscript_eqb s s' then diverges p' q' else true
  | _, _ => false
  end%list.

Lemma get_path_str (p : list subscript) (s : string) (x : json) :
  get_path p (JStr s) = Ok x -> is_str x = true.
Proof.
  revert s. induction p as [|[k|i] p IH]; intros s; cbn.
  - now intros [= <-].
  - discriminate.
  - destruct (String.get i s); cbn; [apply IH|discriminate].
Qed.

Lemma get_path_app (p q : list subscript) (v : json) :
  get_path (p ++ q) v = bind (get_path p v) (get_path q).
Proof.
  revert v. induction p as [|s p IH]; intros v; cbn; [reflexivity|].
  destruct (getitem v s); cbn; [apply IH|reflexivity].
Qed.

(** Mutating the object found at [path] is seen there afterwards. *)
Lemma modify_get (f : json -> result json) (path : list subscript) :
  forall v x x',
    get_path path v = Ok x -> is_str x = false -> f x = Ok x' ->
    exists v', modify path f v = Ok v' /\ get_path path v' = Ok x'.
Proof.
  induction path as [|s path IH]; intros v x x' Hget Hx Hf; cbn in *.
  - injection Hget as ->. now exists x'.
  - destruct (getitem v s) as [c|] eqn:Hc; [|discriminate]. cbn in Hget.
    destruct (IH c x x' Hget Hx Hf) as (c' & Hmod & Hget').
    cbn. rewrite Hmod. cbn. eexists. split; [reflexivity|]. cbn.
    assert (Hv : is_str v = false).
    { destruct v; try reflexivity.
      destruct s as [k|i]; cbn in Hc; [discriminate|].
      destruct (String.get i s0); [|discriminate]. injection Hc as <-.
      apply get_path_str in Hget. congruence. }
    now rewrite (getitem_put_same v s c c' Hv Hc).
Qed.

(** ... and nowhere else. *)
Lemma modify_frame (f : json -> result json) (path : list subscript) :
  forall v v' q,
    modify path f v = Ok v' -> diverges path q = true ->
    get_path q v' = get_path q v.
Proof.
  induction path as [|s path IH]; intros v v' q Hmod Hq; [discriminate|].
  destruct q as [|s' q]; [discriminate|]. cbn in Hmod, Hq.
  destruct (getitem v s) as [c|] eqn:Hc; [|discriminate]. cbn in Hmod.
  destruct (modify path f c) as [c'|] eqn:Hc'; [|discriminate].
  cbn in Hmod. injection Hmod as <-. cbn [get_path].
  destruct (subscript_eqb_spec s s') as [<-|Hne].
  - destruct (is_str v) eqn:Hv.
    + destruct v; try discriminate. reflexivity.
    + rewrite (getitem_put_same v s c c' Hv Hc), Hc. cbn.
      now apply IH.
  - now rewrite getitem_put_other.
Qed.

Definition updated_keys : list string :=
  ["version"; "url"; "archiveFileName"; "checksum"; "size"].

(** What the assignments leave in the platform entry. *)
Definition platform_updated (version checksum size : string)
           (fields fields' : list (string * json)) : Prop :=
  lookup "version" fields' = Some (JStr version)
  /\ lookup "url" fields' = Some (JStr (release_url version))
  /\ lookup "archiveFileName" fields'
     = Some (JStr (archive_file_name version))
  /\ lookup "checksum" fields' = Some (JStr ("SHA-256:" ++ checksum))
  /\ lookup "size" fields' = Some (JStr size)
  /\ (forall k, ~ In k updated_keys -> lookup k fields' = lookup k fields)
  /\ (exists added, map fst fields' = (map fst fields ++ added)%list).

Ltac other_key :=
  rewrite lookup_dict_set_other by (try discriminate; cbn in *; intuition).

Lemma keys_dict_set (k : string) (v : json) (d d0 : list (string * json)) :
  (exists added, map fst d = (map fst d0 ++ added)%list) ->
  exists added, map fst (dict_set k v d) = (map fst d0 ++ added)%list.
Proof.
  intros (added & Hkeys). rewrite dict_set_keys, Hkeys.
  destruct (existsb _ _); [now exists added|].
  exists (added ++ [k])%list. now rewrite List.app_assoc.
Qed.

Lemma keys_start (d : list (string * json)) :
  exists added, map fst d = (map fst d ++ added)%list.
Proof. exists []%list. now rewrite List.app_nil_r. Qed.

Lemma set_platform_info_spec (version checksum size : string)
      (fields : list (string * json)) :
  exists fields',
    set_platform_info version checksum size (JObj fields) = Ok (JObj fields')
    /\ platform_updated version checksum size fields fields'.
Proof.
  eexists. split; [reflexivity|]. unfold platform_updated, updated_keys.
  repeat split.
  - repeat other_key. apply lookup_dict_set_same.
  - repeat other_key. apply lookup_dict_set_same.
  - repeat other_key. apply lookup_dict_set_same.
  - repeat other_key. apply lookup_dict_set_same.
  - apply lookup_dict_set_same.
  - intros k Hk. cbn in Hk.
    repeat (rewrite lookup_dict_set_other by (intros <-; intuition)).
    reflexivity.
  - repeat apply keys_dict_set. apply keys_start.
Qed.

Lemma package_set_platform_info_spec (version checksum size : string)
      (fields : list (string * json)) :
  exists fields',
    Package.set_platform_info version checksum size (JObj fields)
    = Ok (JObj fields')
    /\ platform_updated version checksum size fields fields'.
Proof.
  eexists. split; [reflexivity|]. unfold platform_updated, updated_keys.
  repeat split.
  - repeat other_key. apply lookup_dict_set_same.
  - repeat other_key. apply lookup_dict_set_same.
  - apply lookup_dict_set_same.
  - repeat other_key. apply lookup_dict_set_same.
  - repeat other_key. apply lookup_dict_set_same.
  - intros k Hk. cbn in Hk.
    repeat (rewrite lookup_dict_set_other by (intros <-; intuition)).
    reflexivity.
  - repeat apply keys_dict_set. apply keys_start.
Qed.

(** What is not one of the five fields reads in [data'] as in [data]:
    whatever a path that leaves the path of the platform entry reaches,
    and whatever lies in the platform entry under another key. *)
Definition unrelated_unchanged (data data' : json) : Prop :=
  (forall q, diverges PLATFORM q = true -> get_path q data' = get_path q data)
  /\ (forall s q,
         (forall k, In k updated_keys -> s <> Key k) ->
         get_path (PLATFORM ++ s :: q) data'
         = get_path (PLATFORM ++ s :: q) data).

(** The document after the update, for any of the two orders of
    assignment. *)
Lemma platform_update (setter : json -> result json) (version checksum size : string)
      (data : json) (fields : list (string * json)) :
  (forall fields,
      exists fields',
        setter (JObj fields) = Ok (JObj fields')
        /\ platform_updated version checksum size fields fields') ->
  get_path PLATFORM data = Ok (JObj fields) ->
  exists data' fields',
    modify PLATFORM setter data = Ok data'
    /\ get_path PLATFORM data' = Ok (JObj fields')
    /\ platform_updated version checksum size fields fields'
    /\ unrelated_unchanged data data'.
Proof.
  intros Hsetter Hget.
  destruct (Hsetter fields) as (fields' & Hset & Hupd).
  destruct (modify_get setter PLATFORM data _ _ Hget eq_refl Hset)
    as (data' & Hmod & Hget').
  exists data', fields'. split; [exact Hmod|]. split; [exact Hget'|].
  split; [exact Hupd|]. split.
  - intros q Hq. exact (modify_frame setter PLATFORM data data' q Hmod Hq).
  - intros s q Hs. rewrite !get_path_app, Hget, Hget'. cbn [bind get_path].
    replace (getitem (JObj fields') s) with (getitem (JObj fields) s);
      [reflexivity|].
    destruct s as [k|i]; [|reflexivity]. cbn [getitem].
    destruct Hupd as (_ & _ & _ & _ & _ & Hother & _).
    rewrite (Hother k); [reflexivity|].
    intros Hin. exact (Hs k Hin eq_refl).
Qed.

End DescriptorFacts.


(* ================================================================== *)
(** * The descriptor synchronizer: field isolation, missing descriptor *)
(* ================================================================== *)

Section DescriptorSynchronizer.
Import Py PyStr Descriptor DescriptorFacts Sha256Facts.

(** The document [update_json_with_zip_info] of
    [build_nuttyfi32_complete_auto_final.py] reads. *)
Definition descriptor_read (fs : files) : json_file :=
  if json_exists (json_output fs) then json_output fs else json_template fs.

(** C2.  When the archive is present and the descriptor read holds an
    object at [packages[0].platforms[0]], the synchronizer succeeds,
    returns the upper-case SHA-256 hex digest of the archive bytes and
    the decimal byte count, and writes a document in which that object
    has [version], [url], [archiveFileName], [checksum] (["SHA-256:"]
    followed by the digest) and [size] set; every other key of the
    object, and everything reached by a path that leaves the path of the
    platform entry, reads as before; the archive and the template are not
    touched.  [update_json_with_checksum] of [build_nuttyfi32_package.py]
    does the same to the file it is given. *)
Theorem descriptor_field_isolation :
  forall (fs : files) (zip : list Byte.byte) (data : json)
         (fields : list (string * json)),
    output_zip fs = Some zip ->
    descriptor_read fs = Json data ->
    get_path PLATFORM data = Ok (JObj fields) ->
    let checksum := upper (Sha256.hexdigest zip) in
    let size := str_of_N (N.of_nat (List.length zip)) in
    (exists data' fields',
        AutoFinal.update_json_with_zip_info fs
        = (Ok (checksum, size),
           {| output_zip := Some zip;
              json_output := Json data';
              json_template := json_template fs |})
        /\ get_path PLATFORM data' = Ok (JObj fields')
        /\ platform_updated VERSION checksum size fields fields'
        /\ unrelated_unchanged data data')
    /\ (forall version,
           exists data' fields',
             Package.update_json_with_checksum (Json data) (Some zip) version
             = (Ok tt, Json data')
             /\ get_path PLATFORM data' = Ok (JObj fields')
             /\ platform_updated version checksum size fields fields'
             /\ unrelated_unchanged data data').
Proof.
  intros fs zip data fields Hzip Hread Hget checksum size. split.
  - destruct (platform_update (set_platform_info VERSION checksum size)
                VERSION checksum size data fields
                (set_platform_info_spec VERSION checksum size) Hget)
      as (data' & fields' & Hmod & Hget' & Hupd & Hframe).
    exists data', fields'.
    split; [|split; [exact Hget'|split; [exact Hupd|exact Hframe]]].
    unfold AutoFinal.update_json_with_zip_info. rewrite Hzip.
    rewrite calculate_sha256_digest. fold checksum.
    change (str_of_N (get_file_size zip)) with size.
    assert (Hload :
              (if json_exists (json_output fs) then json_load (json_output fs)
               else if json_exists (json_template fs)
                    then json_load (json_template fs)
                    else Raise FileNotFoundError) = Ok data).
    { unfold descriptor_read in Hread.
      destruct (json_exists (json_output fs)); rewrite Hread; reflexivity. }
    rewrite Hload. unfold update_and_write. cbn [bind]. rewrite Hmod.
    unfold write_json_output. now rewrite Hzip.
  - intros version.
    destruct (platform_update (Package.set_platform_info version checksum size)
                version checksum size data fields
                (package_set_platform_info_spec version checksum size) Hget)
      as (data' & fields' & Hmod & Hget' & Hupd & Hframe).
    exists data', fields'.
    split; [|split; [exact Hget'|split; [exact Hupd|exact Hframe]]].
    unfold Package.update_json_with_checksum.
    rewrite calculate_sha256_digest. fold checksum.
    change (str_of_N (get_file_size zip)) with size.
    cbn [json_load bind]. now rewrite Hmod.
Qed.

Definition descriptor_sample : json :=
  JObj
    [("packages",
      JArr
        [JObj
           [("name", JStr "nuttyfi32");
            ("platforms",
             JArr
               [JObj
                  [("name", JStr "nuttyfi32");
                   ("version", JStr "0.9.0");
                   ("checksum", JStr "SHA-256:00");
                   ("boards", JArr [JObj [("name", JStr "nuttyfi32 Dev Module")]]);
                   ("toolsDependencies", JArr [])];
                JObj [("name", JStr "older")]]);
            ("tools", JArr [JObj [("name", JStr "esptool_py")]])]])]%list.

Definition archive_sample : list Byte.byte := encode "PK".

Lemma descriptor_field_isolation_witness :
  exists data',
    fst (AutoFinal.update_json_with_zip_info
           {| output_zip := Some archive_sample;
              json_output := Json descriptor_sample;
              json_template := JsonAbsent |})
    = Ok ("FCAB7FCC2B4CFFD9BB45003BFC2E468A04EF6F77CA8200A7341F027631584D25"%string,
          "2"%string)
    /\ get_path (PLATFORM ++ [Key "boards"]) data'
       = get_path (PLATFORM ++ [Key "boards"]) descriptor_sample
    /\ get_path [Key "packages"; Index 0; Key "tools"] data'
       = get_path [Key "packages"; Index 0; Key "tools"] descriptor_sample.
Proof.
  destruct (descriptor_field_isolation
              {| output_zip := Some archive_sample;
                 json_output := Json descriptor_sample;
                 json_template := JsonAbsent |}
              archive_sample descriptor_sample _ eq_refl eq_refl eq_refl)
    as [(data' & fields' & Hrun & Hget & Hupd & Hframe) _].
  exists data'. split; [|split].
  - rewrite Hrun. vm_compute. reflexivity.
  - apply (proj2 Hframe (Key "boards") []%list).
    intros k Hk. cbn in Hk. intuition (subst; discriminate).
  - apply (proj1 Hframe). reflexivity.
Defined.

(** C1: what the variants do when the archive exists and there is no
    descriptor and no template.  [build_nuttyfi32_complete_auto_final.py]
    and [build_nuttyfi32_complete_auto.py] raise [FileNotFoundError] and
    write nothing; only [build_nuttyfi32_from_release_zip.py] writes a
    document made from scratch and returns the checksum and the size. *)
Theorem missing_descriptor_raises :
  forall zip : list Byte.byte,
    let fs := {| output_zip := Some zip;
                 json_output := JsonAbsent;
                 json_template := JsonAbsent |} in
    let checksum := upper (Sha256.hexdigest zip) in
    let size := str_of_N (N.of_nat (List.length zip)) in
    AutoFinal.update_json_with_zip_info fs = (Raise FileNotFoundError, fs)
    /\ CompleteAuto.update_json_with_zip_info fs = (Raise FileNotFoundError, fs)
    /\ exists data' fields',
        FromReleaseZip.update_json_with_zip_info fs
        = (Ok (checksum, size),
           {| output_zip := Some zip;
              json_output := Json data';
              json_template := JsonAbsent |})
        /\ get_path PLATFORM data' = Ok (JObj fields')
        /\ lookup "version" fields' = Some (JStr VERSION)
        /\ lookup "url" fields' = Some (JStr (release_url VERSION))
        /\ lookup "archiveFileName" fields'
           = Some (JStr (archive_file_name VERSION))
        /\ lookup "checksum" fields' = Some (JStr ("SHA-256:" ++ checksum))
        /\ lookup "size" fields' = Some (JStr size).
Proof.
  intros zip fs checksum size. split; [reflexivity|]. split; [reflexivity|].
  unfold FromReleaseZip.update_json_with_zip_info, fs. cbn [output_zip].
  rewrite calculate_sha256_digest. fold checksum.
  change (str_of_N (get_file_size zip)) with size.
  do 2 eexists. split; [reflexivity|]. repeat split.
Qed.

End DescriptorSynchronizer.


(* ================================================================== *)
(** * Properties of the publish workflow *)
(* ================================================================== *)

Module PublishFacts.
Import Py PyStr Publish.

Section Logs.
Context `{Machine}.

(** [m] only adds commands to the log, and the commands it adds satisfy
    [P]. *)
Definition extends (P : list string -> Prop) {A} (m : M A) : Prop :=
  forall st,
  exists added,
    log (snd (m st)) = (log st ++ added)%list
    /\ Forall (fun e => P (fst e)) added.

Lemma extends_ret (P : list string -> Prop) {A} (a : A) : extends P (ret a).
Proof. intros st. exists []. now rewrite List.app_nil_r. Qed.

Lemma extends_raise (P : list string -> Prop) {A} (e : exn) :
  extends P (@raise _ A e).
Proof. intros st. exists []. now rewrite List.app_nil_r. Qed.

Lemma extends_ask (P : list string -> Prop) {A} (f : world -> A) :
  extends P (ask f).
Proof. intros st. exists []. now rewrite List.app_nil_r. Qed.

Lemma extends_lift (P : list string -> Prop) {A}
      (f : world -> result A * world) :
  extends P (lift f).
Proof.
  intros st. exists []. unfold lift. destruct (f (now st)).
  now rewrite List.app_nil_r.
Qed.

Lemma extends_bind (P : list string -> Prop) {A B} (m : M A) (k : A -> M B) :
  extends P m -> (forall a, extends P (k a)) -> extends P (bindM m k).
Proof.
  intros Hm Hk st. unfold bindM.
  destruct (Hm st) as (added & Hlog & Hadded).
  destruct (m st) as [[a|e] st1]; cbn [snd] in *.
  - destruct (Hk a st1) as (added' & Hlog' & Hadded').
    exists (added ++ added')%list. split.
    + now rewrite Hlog', Hlog, List.app_assoc.
    + now apply Forall_app.
  - now exists added.
Qed.

Lemma extends_run_git (P : list string -> Prop) (cmd : list string)
      (allow_failure timeout : bool) :
  P cmd -> extends P (run_git cmd allow_failure timeout).
Proof.
  intros Hcmd st. unfold run_git.
  destruct (if timeout then git_timeout cmd (now st) else None) as [w|].
  - eexists. split; [reflexivity|]. now repeat constructor.
  - destruct (git cmd (now st)) as [result w].
    exists [(cmd, Some result)]. split; [|now repeat constructor].
    now destruct (negb (returncode result =? 0)%Z && negb allow_failure).
Qed.

Lemma extends_for_each (P : list string -> Prop) {A S} (l : list A)
      (body : A -> S -> M S) :
  (forall x acc, extends P (body x acc)) ->
  forall acc, extends P (for_each l body acc).
Proof.
  intros Hbody. induction l as [|x l IH]; intros acc; cbn [for_each].
  - apply extends_ret.
  - apply extends_bind; [apply Hbody|exact IH].
Qed.












(** [run_tasks] once the repository is synchronised. *)
Definition after_sync : M nat :=
  bindM (fun st =>
           (fst (Fingerprint.AutoFinal.check_if_zip_needs_update
                   (zip_files (now st))), st))
        (fun zip_needs_update =>
  bindM (if zip_needs_update then lift rebuild else ret tt) (fun _ =>
  push_bsp_to_github)).


(** In [build_and_push_complete.py] any line printed by
    [git status --porcelain], staged or not, leads to [git commit]. *)
Lemma commit_and_push_root_commits (file_count : nat) (st : state) :
  strip (stdout (fst (git STATUS (now st)))) <> "" ->
  exists c rest,
    log (snd (commit_and_push_root file_count st))
    = (log st ++ (STATUS, Some (fst (git STATUS (now st))))
              :: (COMMIT_SYNC, Some c) :: rest)%list.
Proof.
  intros Hstatus. unfold commit_and_push_root, bindM, run.
  destruct (git STATUS (now st)) as [r w1]. cbn [fst] in Hstatus.
  rewrite andb_false_r. apply String.eqb_neq in Hstatus. rewrite Hstatus.
  cbn [now log]. destruct (git COMMIT_SYNC w1) as [c w2]. exists c.
  destruct (negb (returncode c =? 0)%Z && true).
  - exists []%list. cbn [snd log]. now rewrite <- List.app_assoc.
  - cbn [now log]. destruct (git_timeout PUSH w2) as [w3|].
    + exists [(PUSH, None)]%list. cbn [snd log].
      rewrite <- !List.app_assoc. reflexivity.
    + destruct (git PUSH w2) as [p w3]. exists [(PUSH, Some p)]%list.
      destruct (negb (returncode p =? 0)%Z && true); cbn [ret snd log];
        rewrite <- !List.app_assoc; reflexivity.
Qed.

Definition ABORT : list string := ["rebase"; "--abort"].
Definition FETCH : list string := ["fetch"; "origin"; GITHUB_BRANCH].
Definition PULL : list string := ["pull"; "--rebase"; "origin"; GITHUB_BRANCH].

Definition marker (w : world) : bool :=
  path_exists ".git/rebase-apply" w || path_exists ".git/rebase-merge" w.

(** [ensure_git_ready] never raises, whatever [git rebase --abort]
    returns. *)
Lemma ensure_git_ready_log (st : state) :
  fst (ensure_git_ready st) = Ok tt
  /\ (marker (now st) = true ->
      exists a,
        log (snd (ensure_git_ready st)) = (log st ++ [(ABORT, Some a)])%list)
  /\ (marker (now st) = false -> snd (ensure_git_ready st) = st).
Proof.
  unfold ensure_git_ready, bindM, ask. fold (marker (now st)).
  destruct (marker (now st)).
  - unfold run_git. destruct (git ["rebase"; "--abort"] (now st)) as [a w].
    rewrite andb_false_r. cbn. repeat split; try discriminate.
    intros _. now exists a.
  - cbn. repeat split; try discriminate.
Qed.

(** The three ways [sync_with_remote] ends. *)
Definition synced (st : state) (out : result unit * state)
           (tail_ok : bool) : Prop :=
  (exists f,
      log (snd out) = (log st ++ [(FETCH, Some f)])%list
      /\ returncode f <> 0%Z /\ fst out = Raise RuntimeError
      /\ tail_ok = false)
  \/ (exists f c,
         log (snd out) = (log st ++ [(FETCH, Some f); (PULL, Some c)])%list
         /\ returncode f = 0%Z /\ returncode c <> 0%Z
         /\ fst out = Raise RuntimeError /\ tail_ok = false)
  \/ (exists f c,
         log (snd out) = (log st ++ [(FETCH, Some f); (PULL, Some c)])%list
         /\ returncode f = 0%Z /\ returncode c = 0%Z
         /\ fst out = Ok tt /\ tail_ok = true).

Lemma sync_with_remote_log (st : state) :
  exists tail_ok, synced st (sync_with_remote st) tail_ok.
Proof.
  unfold sync_with_remote, bindM, run_git, synced.
  fold FETCH PULL.
  destruct (git FETCH (now st)) as [f w1]. cbn [negb andb].
  destruct (Z.eqb_spec (returncode f) 0) as [Hf|Hf]; cbn [negb andb fst snd].
  - cbn [now log]. destruct (git PULL w1) as [c w2]. rewrite andb_false_r.
    destruct (Z.eqb_spec (returncode c) 0) as [Hc|Hc]; cbn -[FETCH PULL].
    + exists true. right. right. exists f, c.
      rewrite <- List.app_assoc. now repeat split.
    + exists false. right. left. exists f, c.
      rewrite <- List.app_assoc. now repeat split.
  - exists false. left. exists f. now repeat split.
Qed.

End Logs.
End PublishFacts.


(* ================================================================== *)
(** * The publish workflow: no-op, commit, and synchronisation first *)
(* ================================================================== *)

Section PublishWorkflow.
Import Py PyStr Publish PublishFacts.





End PublishWorkflow.


(* ================================================================== *)
(** * More of the section transformer: what it inserts and where *)
(* ================================================================== *)

Module LinesFacts.
Import PyStr PyStrFacts TextFacts.

(** A line, as opposed to a text: it holds no newline. *)
Definition one_line (l : string) : Prop := occurs newline l = false.

Lemma occurs_append (c : ascii) (a b : string) :
  occurs c (a ++ b) = occurs c a || occurs c b.
Proof.
  induction a as [|x a IH]; cbn [append occurs orb]; [reflexivity|].
  now rewrite IH, orb_assoc.
Qed.

Lemma occurs_drop (c : ascii) (n : nat) (s : string) :
  occurs c s = false -> occurs c (drop n s) = false.
Proof.
  revert s.
  induction n as [|n IH]; intros [|x s] Hs; cbn [drop]; try exact Hs.
  cbn [occurs] in Hs. apply orb_false_elim in Hs as [_ Hs]. now apply IH.
Qed.

Lemma split_lines_one_line (s : string) : Forall one_line (split_lines s).
Proof.
  induction s as [|c s IH]; cbn [split_lines].
  - now repeat constructor.
  - destruct (Ascii.eqb_spec c newline) as [->|Hc].
    + constructor; [reflexivity|exact IH].
    + pose proof (split_lines_not_nil s) as Hne.
      destruct (split_lines s) as [|h t]; [congruence|].
      inversion IH as [|? ? Hh Ht]; subst. constructor; [|exact Ht].
      unfold one_line in *. cbn [occurs]. rewrite Hh.
      rewrite Ascii.eqb_sym. apply Ascii.eqb_neq in Hc. now rewrite Hc.
Qed.

Lemma split_lines_single (l : string) : one_line l -> split_lines l = [l].
Proof.
  unfold one_line.
  induction l as [|c l IH]; cbn [occurs split_lines]; [reflexivity|].
  intros Hl. apply orb_false_elim in Hl as [Hc Hl].
  rewrite Ascii.eqb_sym, Hc. now rewrite (IH Hl).
Qed.

Lemma split_lines_append (l rest : string) :
  one_line l ->
  split_lines (l ++ String newline rest) = l :: split_lines rest.
Proof.
  unfold one_line. induction l as [|c l IH]; cbn [append occurs]; intros Hl.
  - cbn [split_lines]. now rewrite Ascii.eqb_refl.
  - apply orb_false_elim in Hl as [Hc Hl].
    cbn [split_lines]. rewrite Ascii.eqb_sym, Hc. now rewrite (IH Hl).
Qed.

(** Splitting what was joined gives the lines back. *)
Lemma split_join_lines (ls : list string) :
  ls <> []%list -> Forall one_line ls -> split_lines (join_lines ls) = ls.
Proof.
  induction ls as [|l ls IH]; intros Hne Hl; [congruence|].
  inversion Hl as [|? ? Hone Hrest]; subst.
  destruct ls as [|l' ls]; cbn [join_lines].
  - now apply split_lines_single.
  - rewrite split_lines_append by exact Hone. f_equal.
    apply IH; [discriminate|exact Hrest].
Qed.

Lemma replace_first_one_line (old new l : string) :
  one_line new -> one_line l -> one_line (replace_first old new l).
Proof.
  unfold one_line. intros Hnew.
  induction l as [|c l IH]; intros Hl; cbn [replace_first].
  - destruct (prefix old ""); [|reflexivity].
    rewrite occurs_append, Hnew. now apply occurs_drop.
  - destruct (prefix old (String c l)).
    + rewrite occurs_append, Hnew. now apply occurs_drop.
    + cbn [occurs] in *. apply orb_false_elim in Hl as [Hc Hl].
      now rewrite Hc, IH.
Qed.

End LinesFacts.

Module BoardsMore.
Import PyStr Boards PyStrFacts BoardsFacts TextFacts LinesFacts.

Lemma rename_line_one_line (l : string) :
  one_line l -> Forall one_line (rename_line l).
Proof.
  intros Hl. unfold rename_line.
  destruct (startswith "esp32." (strip l)).
  - constructor; [|constructor].
    now apply replace_first_one_line.
  - destruct ((strip l =? "") || startswith "#" (strip l));
      now repeat constructor.
Qed.

Lemma banner_one_line (title : string) :
  one_line title -> Forall one_line (banner title).
Proof. intros Ht. unfold banner. now repeat constructor. Qed.

(** The block [add_board] inserts, and the index where it goes; [None]
    when no line strips to the anchor. *)
Definition insertion (title : string) (lines : list string)
  : option (nat * list string) :=
  match scan lines 0 None with
  | (Some esp32_start, found) =>
      let esp32_end :=
        match found with
        | Some e => e
        | None =>
            match next_board (skipn (S esp32_start) lines) (S esp32_start) with
            | Some e => e
            | None => List.length lines
            end
        end in
      Some (esp32_end,
            (banner title
             ++ flat_map rename_line (slice lines esp32_start esp32_end))%list)
  | (None, _) => None
  end.

Lemma add_board_insertion (title content : string) :
  add_board title content
  = match insertion title (split_lines content) with
    | Some (i, block) => join_lines (insert_at (split_lines content) i block)
    | None => content
    end.
Proof.
  unfold add_board, insertion.
  destruct (scan (split_lines content) 0 None) as [[start|] found];
    [reflexivity|apply join_split_lines].
Qed.

Lemma Forall_parts {A} (P : A -> Prop) (n : nat) (l : list A) :
  Forall P l -> Forall P (firstn n l) /\ Forall P (skipn n l).
Proof.
  intros Hl. rewrite <- (firstn_skipn n l) in Hl.
  now apply Forall_app in Hl.
Qed.

Lemma slice_one_line (lines : list string) (a b : nat) :
  Forall one_line lines -> Forall one_line (slice lines a b).
Proof.
  intros Hl. unfold slice.
  apply Forall_parts, (proj2 (Forall_parts _ a _ Hl)).
Qed.

Lemma insertion_one_line (title : string) (lines : list string)
      (i : nat) (block : list string) :
  one_line title -> Forall one_line lines ->
  insertion title lines = Some (i, block) -> Forall one_line block.
Proof.
  intros Ht Hl. unfold insertion.
  destruct (scan lines 0 None) as [[start|] found]; [|discriminate].
  intros [= <- <-].
  refine (proj2 (Forall_app one_line (banner title) _) _).
  split; [now apply banner_one_line|].
  apply Forall_flat_map.
  eapply Forall_impl; [|apply slice_one_line; exact Hl].
  intros l. apply rename_line_one_line.
Qed.

(** The lines of the result: the block goes in at its index. *)
Lemma add_board_lines (title content : string) :
  one_line title ->
  match insertion title (split_lines content) with
  | Some (i, block) =>
      split_lines (add_board title content)
      = (firstn i (split_lines content) ++ block
         ++ skipn i (split_lines content))%list
      /\ exists rest, block = (banner title ++ rest)%list
  | None => add_board title content = content
  end.
Proof.
  intros Htitle. rewrite add_board_insertion.
  pose proof (split_lines_one_line content) as Hlines.
  destruct (insertion title (split_lines content)) as [[i block]|] eqn:Hins;
    [|reflexivity].
  assert (Hblock : exists rest, block = (banner title ++ rest)%list).
  { unfold insertion in Hins.
    destruct (scan (split_lines content) 0 None) as [[start|] found];
      [|discriminate].
    injection Hins as _ <-. eexists. reflexivity. }
  split; [|exact Hblock].
  apply split_join_lines.
  - unfold insert_at. destruct Hblock as (rest & ->). intros Heq.
    apply app_eq_nil in Heq as [_ Heq].
    apply app_eq_nil in Heq as [Heq _]. discriminate Heq.
  - unfold insert_at.
    destruct (Forall_parts one_line i _ Hlines) as [Hfirst Hskip].
    apply Forall_app. split; [exact Hfirst|].
    apply Forall_app. split; [|exact Hskip].
    now apply (insertion_one_line title (split_lines content) i block).
Qed.

Lemma scan_started (lines : list string) (i start : nat) :
  fst (scan lines i (Some start)) = Some start.
Proof.
  revert i. induction lines as [|line rest IH]; intros i; cbn [scan];
    [reflexivity|].
  rewrite andb_false_r. cbn [is_some is_none negb].
  destruct (ends_section line); [reflexivity|apply IH].
Qed.

Lemma scan_finds (lines : list string) (i : nat) :
  Exists (fun l => strip l = ANCHOR) lines ->
  exists start, fst (scan lines i None) = Some start.
Proof.
  intros Hex. revert i.
  induction lines as [|line rest IH]; intros i; [inversion Hex|].
  cbn [scan is_none is_some negb].
  destruct (String.eqb_spec (strip line) ANCHOR) as [Heq|Hne]; cbn [andb].
  - exists i. apply scan_started.
  - apply IH. inversion Hex as [? ? Hhere|? ? Hlater]; subst;
      [contradiction|exact Hlater].
Qed.

Lemma insertion_found (title : string) (lines : list string) :
  Exists (fun l => strip l = ANCHOR) lines ->
  exists i block, insertion title lines = Some (i, block).
Proof.
  intros Hex. destruct (scan_finds lines 0 Hex) as (start & Hscan).
  unfold insertion.
  destruct (scan lines 0 None) as [first found]. cbn [fst] in Hscan.
  subst first. now do 2 eexists.
Qed.

End BoardsMore.

Section BoardsExtras.
Import PyStr Boards PyStrFacts BoardsFacts TextFacts LinesFacts BoardsMore.

Lemma next_board_section (body : list string) (i : nat) :
  Forall section_line body -> next_board body i = None.
Proof.
  intros Hbody. revert i.
  induction Hbody as [|l body Hl _ IH]; intros i; cbn [next_board];
    [reflexivity|].
  rewrite IH. destruct Hl as [Hl|[Hl|Hl]].
  - rewrite (startswith_strip "e" "sp32." l eq_refl Hl).
    now rewrite andb_false_r.
  - now rewrite Hl.
  - rewrite Hl. now rewrite andb_false_r.
Qed.

(** X1.  Whatever the text, the boards branch only inserts: the lines of
    the result are the lines of the input with one block of lines put in
    at some index, and that block is empty or begins with the banner. *)
Theorem boards_only_inserts :
  forall content : string,
  exists (i : nat) (block : list string),
    split_lines (fst (Boards.AutoFinal.update_boards content))
    = (firstn i (split_lines content) ++ block
       ++ skipn i (split_lines content))%list
    /\ (block = []%list
        \/ exists rest,
            block = (banner Boards.AutoFinal.TITLE ++ rest)%list).
Proof.
  intros content.
  assert (Hout : fst (Boards.AutoFinal.update_boards content)
                 = add_board Boards.AutoFinal.TITLE content).
  { unfold Boards.AutoFinal.update_boards. now destruct (negb _). }
  rewrite Hout.
  pose proof (add_board_lines Boards.AutoFinal.TITLE content eq_refl)
    as Hlines.
  destruct (insertion Boards.AutoFinal.TITLE (split_lines content))
    as [[i block]|].
  - destruct Hlines as [Hlines Hblock].
    exists i, block. split; [exact Hlines|now right].
  - exists 0, []%list. rewrite Hlines. split; [reflexivity|now left].
Qed.

(** X2.  A section that runs to the end of the file is duplicated at the
    end of the file. *)
Theorem boards_section_until_eof :
  forall (content : string) (pre body : list string),
    split_lines content = (pre ++ ANCHOR :: body)%list ->
    Forall (fun l => strip l <> ANCHOR) pre ->
    Forall section_line body ->
    fst (Boards.AutoFinal.update_boards content)
    = join_lines (pre ++ ANCHOR :: body
                      ++ banner Boards.AutoFinal.TITLE
                      ++ map renamed (ANCHOR :: body))%list.
Proof.
  intros content pre body Hsplit Hpre Hbody.
  assert (Hout : fst (Boards.AutoFinal.update_boards content)
                 = add_board Boards.AutoFinal.TITLE content).
  { unfold Boards.AutoFinal.update_boards. now destruct (negb _). }
  rewrite Hout. unfold add_board. rewrite Hsplit.
  rewrite (scan_skip _ _ _ Hpre), (scan_anchor ANCHOR) by reflexivity.
  rewrite <- (List.app_nil_r body) at 1.
  rewrite scan_section
    by (eapply Forall_impl; [|exact Hbody]; apply ends_section_section).
  cbn [scan]. replace (List.length pre + 0) with (List.length pre) by lia.
  assert (Hskip : skipn (S (List.length pre)) (pre ++ ANCHOR :: body) = body).
  { change (S (List.length pre)) with (1 + List.length pre).
    rewrite <- skipn_skipn, skipn_app, skipn_all, Nat.sub_diag.
    reflexivity. }
  rewrite Hskip, (next_board_section _ _ Hbody).
  assert (Hsec : Forall section_line (ANCHOR :: body)).
  { constructor; [now left|exact Hbody]. }
  assert (Hslice : slice (pre ++ ANCHOR :: body) (List.length pre)
                         (List.length (pre ++ ANCHOR :: body))
                   = (ANCHOR :: body)%list).
  { unfold slice. rewrite skipn_app, skipn_all, Nat.sub_diag.
    cbn [List.app skipn]. apply firstn_all2.
    rewrite List.length_app. lia. }
  rewrite Hslice, (flat_map_rename _ Hsec).
  unfold insert_at. rewrite firstn_all, skipn_all, List.app_nil_r.
  now rewrite <- List.app_assoc.
Qed.

Lemma boards_section_until_eof_witness :
  fst (Boards.AutoFinal.update_boards
         (join_lines ["# boards"; ANCHOR; "esp32.build.mcu=esp32"; ""]))
  = join_lines ["# boards"; ANCHOR; "esp32.build.mcu=esp32"; "";
                ""; SEPARATOR; "# nuttyfi32 Dev Module"; SEPARATOR; "";
                "nuttyfi32.name=ESP32 Dev Module";
                "nuttyfi32.build.mcu=esp32"; ""].
Proof.
  refine (boards_section_until_eof
            (join_lines ["# boards"; ANCHOR; "esp32.build.mcu=esp32"; ""])
            ["# boards"] ["esp32.build.mcu=esp32"; ""] eq_refl _ _).
  - repeat constructor; discriminate.
  - repeat constructor;
      first [ now left | right; left; reflexivity ].
Defined.

(** X3.  Running the transformer on its own output does not leave it
    alone: the section now runs up to the renamed anchor line, banner
    included, and is duplicated once more in front of that line. *)
Theorem boards_second_run :
  forall (content : string) (pre body post : list string) (foreign : string),
    split_lines content = (pre ++ ANCHOR :: body ++ foreign :: post)%list ->
    Forall (fun l => strip l <> ANCHOR) pre ->
    Forall section_line body ->
    contains ".name=" foreign = true ->
    startswith "esp32." (strip foreign) = false ->
    startswith "#" (strip foreign) = false ->
    let first_run := fst (Boards.AutoFinal.update_boards content) in
    fst (Boards.AutoFinal.update_boards first_run)
    = join_lines (pre ++ ANCHOR :: body
                      ++ banner Boards.AutoFinal.TITLE
                      ++ (banner Boards.AutoFinal.TITLE
                          ++ map renamed (ANCHOR :: body)
                          ++ banner Boards.AutoFinal.TITLE)
                      ++ map renamed (ANCHOR :: body)
                      ++ foreign :: post)%list
    /\ fst (Boards.AutoFinal.update_boards first_run) <> first_run.
Proof.
  intros content pre body post foreign Hsplit Hpre Hbody Hname Hesp Hcom
         first_run.
  pose proof (ends_section_foreign _ Hname Hesp Hcom) as Hend.
  assert (Hout : forall c, fst (Boards.AutoFinal.update_boards c)
                           = add_board Boards.AutoFinal.TITLE c).
  { intros c. unfold Boards.AutoFinal.update_boards. now destruct (negb _). }
  assert (Hfirst : first_run
                   = join_lines (pre ++ ANCHOR :: body
                                     ++ banner Boards.AutoFinal.TITLE
                                     ++ map renamed (ANCHOR :: body)
                                     ++ foreign :: post)%list).
  { subst first_run. rewrite Hout.
    apply (add_board_shape _ _ _ _ _ _ Hsplit Hpre Hbody Hend). }
  pose proof (split_lines_one_line content) as Hlines.
  rewrite Hsplit in Hlines.
  apply Forall_app in Hlines as [Hlpre Hlines].
  inversion Hlines as [|? ? Hlanchor Hlines']; subst.
  apply Forall_app in Hlines' as [Hlbody Hlpost].
  assert (Hrenamed : forall ls, Forall one_line ls ->
                                Forall one_line (map renamed ls)).
  { intros ls Hls. rewrite Forall_map. eapply Forall_impl; [|exact Hls].
    intros l Hl. unfold renamed.
    destruct (startswith "esp32." l); [|exact Hl].
    unfold one_line. rewrite occurs_append. cbn [orb].
    replace (occurs newline "nuttyfi32.") with false by reflexivity.
    now apply occurs_drop. }
  assert (Hsplit2 :
            split_lines first_run
            = (pre ++ ANCHOR :: (body ++ banner Boards.AutoFinal.TITLE)
                   ++ renamed ANCHOR
                   :: (map renamed body ++ foreign :: post))%list).
  { rewrite Hfirst, split_join_lines.
    - cbn [map]. rewrite <- !List.app_assoc. reflexivity.
    - intros Heq. apply app_eq_nil in Heq as [_ Heq]. discriminate Heq.
    - apply Forall_app. split; [exact Hlpre|].
      constructor; [exact Hlanchor|].
      apply Forall_app. split; [exact Hlbody|].
      apply Forall_app. split; [now apply banner_one_line|].
      apply Forall_app. split; [|exact Hlpost].
      apply Hrenamed. now constructor. }
  assert (Hbody2 : Forall section_line
                          (body ++ banner Boards.AutoFinal.TITLE)).
  { apply Forall_app. split; [exact Hbody|].
    repeat constructor;
      first [ right; left; reflexivity | right; right; reflexivity ]. }
  assert (Hresult :
            fst (Boards.AutoFinal.update_boards first_run)
            = join_lines (pre ++ ANCHOR :: body
                              ++ banner Boards.AutoFinal.TITLE
                              ++ (banner Boards.AutoFinal.TITLE
                                  ++ map renamed (ANCHOR :: body)
                                  ++ banner Boards.AutoFinal.TITLE)
                              ++ map renamed (ANCHOR :: body)
                              ++ foreign :: post)%list).
  { rewrite Hout.
    rewrite (add_board_shape _ _ _ _ _ _ Hsplit2 Hpre Hbody2 eq_refl).
    f_equal. cbn [map]. rewrite map_app.
    replace (map renamed (banner Boards.AutoFinal.TITLE))
      with (banner Boards.AutoFinal.TITLE) by reflexivity.
    rewrite <- !List.app_assoc. cbn [List.app].
    rewrite <- ?List.app_assoc. reflexivity. }
  split; [exact Hresult|].
  rewrite Hresult, Hfirst. intros Heq.
  apply (f_equal split_lines) in Heq.
  assert (Hban : Forall one_line (banner Boards.AutoFinal.TITLE))
    by now apply banner_one_line.
  assert (Hren : Forall one_line (map renamed (ANCHOR :: body)))
    by (apply Hrenamed; now constructor).
  rewrite !split_join_lines in Heq.
  - apply (f_equal (@List.length string)) in Heq.
    repeat (rewrite ?List.length_app in Heq; cbn [List.length] in Heq).
    replace (List.length (banner Boards.AutoFinal.TITLE)) with 5 in Heq
      by reflexivity.
    lia.
  - intros Hnil. apply app_eq_nil in Hnil as [_ Hnil]. discriminate Hnil.
  - apply Forall_app. split; [exact Hlpre|].
    constructor; [exact Hlanchor|].
    repeat (apply Forall_app; split); assumption.
  - intros Hnil. apply app_eq_nil in Hnil as [_ Hnil]. discriminate Hnil.
  - apply Forall_app. split; [exact Hlpre|].
    constructor; [exact Hlanchor|].
    repeat (apply Forall_app; split); assumption.
Qed.

Lemma boards_second_run_witness :
  let content :=
    join_lines ["# boards"; ANCHOR; "esp32.build.mcu=esp32"; "";
                "other.name=Other Board"; "other.build.mcu=other"] in
  let first_run := fst (Boards.AutoFinal.update_boards content) in
  fst (Boards.AutoFinal.update_boards first_run) <> first_run.
Proof.
  intros content first_run.
  refine (proj2 (boards_second_run content ["# boards"]
                   ["esp32.build.mcu=esp32"; ""]
                   ["other.build.mcu=other"] "other.name=Other Board"
                   eq_refl _ _ eq_refl eq_refl eq_refl)).
  - repeat constructor; discriminate.
  - repeat constructor;
      first [ now left | right; left; reflexivity ].
Defined.

End BoardsExtras.

(* ================================================================== *)
(** * The [platform.txt] branch of [rename_esp32_to_nuttyfi32] *)
(* ================================================================== *)

Module PlatformFacts.
Import PyStr Boards Boards.AutoFinal PyStrFacts TextFacts LinesFacts.

Lemma keep_new_line (new_line line : string) :
  (if negb (new_line =? line) then new_line else line) = new_line.
Proof.
  destruct (String.eqb_spec new_line line) as [->|_]; reflexivity.
Qed.

Lemma python3_line_fold (line : string) :
  python3_line line = fold_left replace_python_with_python3 python_keys line.
Proof.
  unfold python3_line. generalize python_keys. intros keys. revert line.
  induction keys as [|key keys IH]; intros line; cbn [fold_left];
    [reflexivity|].
  now rewrite keep_new_line, IH.
Qed.

Lemma fold_replace_other (keys : list string) (line : string) :
  (forall key, In key keys -> startswith (key ++ "=python") line = false) ->
  fold_left replace_python_with_python3 keys line = line.
Proof.
  induction keys as [|key keys IH]; intros Hkeys; cbn [fold_left];
    [reflexivity|].
  unfold replace_python_with_python3 at 2.
  rewrite (Hkeys key (or_introl eq_refl)).
  apply IH. intros k Hk. apply Hkeys. now right.
Qed.

Lemma fold_replace_one_line (keys : list string) (line : string) :
  Forall one_line keys -> one_line line ->
  one_line (fold_left replace_python_with_python3 keys line).
Proof.
  intros Hkeys. revert line.
  induction Hkeys as [|key keys Hkey _ IH]; intros line Hline;
    cbn [fold_left]; [exact Hline|].
  apply IH. unfold replace_python_with_python3.
  destruct (startswith _ line); [|exact Hline].
  unfold one_line. rewrite !occurs_append.
  rewrite Hkey. cbn [orb].
  replace (occurs newline "=python3") with false by reflexivity.
  cbn [orb]. now apply occurs_drop.
Qed.

Lemma python3_line_one_line (line : string) :
  one_line line -> one_line (python3_line line).
Proof.
  intros Hline. rewrite python3_line_fold.
  apply fold_replace_one_line; [|exact Hline].
  repeat constructor.
Qed.

Lemma rename_platform_length (lines : list string) :
  List.length (rename_platform lines) = List.length lines.
Proof.
  induction lines as [|line rest IH]; [reflexivity|].
  cbn [rename_platform].
  destruct (startswith "name=" line && contains "ESP32" line);
    cbn [List.length]; congruence.
Qed.

Lemma rename_platform_one_line (lines : list string) :
  Forall one_line lines -> Forall one_line (rename_platform lines).
Proof.
  induction 1 as [|line rest Hline Hrest IH]; [constructor|].
  cbn [rename_platform].
  destruct (startswith "name=" line && contains "ESP32" line);
    constructor; try assumption. reflexivity.
Qed.

Lemma rename_platform_other (lines : list string) (i : nat) (line : string) :
  nth_error lines i = Some line ->
  startswith "name=" line = false ->
  nth_error (rename_platform lines) i = Some line.
Proof.
  revert i. induction lines as [|l rest IH]; intros i Hnth Hname;
    [destruct i; discriminate|].
  cbn [rename_platform].
  destruct i as [|i]; cbn [nth_error] in Hnth.
  - injection Hnth as ->. now rewrite Hname.
  - destruct (startswith "name=" l && contains "ESP32" l);
      cbn [nth_error]; [exact Hnth|now apply IH].
Qed.

Lemma update_platform_lines (content : string) :
  split_lines (fst (update_platform content))
  = map python3_line (rename_platform (split_lines content)).
Proof.
  assert (Hout : fst (update_platform content)
                 = join_lines (map python3_line
                                   (rename_platform (split_lines content)))).
  { unfold update_platform. now destruct (negb _). }
  rewrite Hout. apply split_join_lines.
  - intros Hnil. apply (f_equal (@List.length string)) in Hnil.
    rewrite length_map, rename_platform_length in Hnil.
    destruct (split_lines content) eqn:Hsplit; [|discriminate].
    now apply (split_lines_not_nil content).
  - rewrite Forall_map.
    eapply Forall_impl;
      [|apply rename_platform_one_line, split_lines_one_line].
    apply python3_line_one_line.
Qed.

Lemma drop_length_app (p s : string) : drop (String.length p) (p ++ s) = s.
Proof. induction p as [|c p IH]; [now destruct s|exact IH]. Qed.

Lemma append_assoc (a b c : string) : (a ++ b) ++ c = a ++ b ++ c.
Proof. induction a as [|x a IH]; [reflexivity|]. cbn. now rewrite IH. Qed.

Lemma replace_python_same (key rest : string) :
  replace_python_with_python3 (key ++ "=python" ++ rest) key
  = key ++ "=python3" ++ rest.
Proof.
  unfold replace_python_with_python3.
  rewrite <- (append_assoc key "=python" rest).
  now rewrite startswith_app, drop_length_app.
Qed.

Lemma fold_replace_hit (before after : list string) (key rest : string) :
  (forall k, In k before ->
             startswith (k ++ "=python") (key ++ "=python" ++ rest) = false) ->
  (forall k, In k after ->
             startswith (k ++ "=python") (key ++ "=python3" ++ rest) = false) ->
  fold_left replace_python_with_python3 (before ++ key :: after)%list
            (key ++ "=python" ++ rest)
  = key ++ "=python3" ++ rest.
Proof.
  intros Hbefore Hafter.
  rewrite fold_left_app, (fold_replace_other before _ Hbefore).
  cbn [fold_left]. rewrite replace_python_same.
  now apply fold_replace_other.
Qed.

Ltac decide_keys :=
  let k := fresh "k" in
  let Hk := fresh "Hk" in
  intros k Hk;
  repeat (destruct Hk as [<-|Hk]; [reflexivity|]);
  destruct Hk.

End PlatformFacts.

Section PlatformExtras.
Import PyStr Boards Boards.AutoFinal PyStrFacts TextFacts LinesFacts.
Import PlatformFacts.

(** X4.  A line that assigns [python...] to one of the four keys gets
    [python3...]; a line that already says [python3] is rewritten again,
    to [python33]: the rewriting is not idempotent. *)
Theorem python3_rewritten_again :
  forall key rest : string,
    In key python_keys ->
    python3_line (key ++ "=python" ++ rest) = key ++ "=python3" ++ rest
    /\ python3_line (python3_line (key ++ "=python" ++ rest))
       = key ++ "=python33" ++ rest.
Proof.
  assert (Hstep : forall key rest, In key python_keys ->
            python3_line (key ++ "=python" ++ rest)
            = key ++ "=python3" ++ rest).
  { intros key rest Hkey. rewrite python3_line_fold.
    destruct Hkey as [<-|[<-|[<-|[<-|[]]]]].
    - apply (fold_replace_hit []%list); decide_keys.
    - apply (fold_replace_hit [_]%list); decide_keys.
    - apply (fold_replace_hit [_; _]%list); decide_keys.
    - apply (fold_replace_hit [_; _; _]%list); decide_keys. }
  intros key rest Hkey. split; [now apply Hstep|].
  rewrite (Hstep key rest Hkey).
  apply (Hstep key ("3" ++ rest) Hkey).
Qed.

Lemma python3_rewritten_again_witness :
  python3_line (python3_line "tools.gen_esp32part.cmd=python {x}")
  = "tools.gen_esp32part.cmd=python33 {x}".
Proof.
  refine (proj2 (python3_rewritten_again
                   "tools.gen_esp32part.cmd" " {x}" _)).
  right. left. reflexivity.
Defined.

(** X5.  [platform.txt] keeps its number of lines, and a line is left as
    it is unless it starts with [name=] or assigns [python...] to one of
    the four keys. *)
Theorem platform_other_lines_kept :
  forall (content : string) (i : nat) (line : string),
    nth_error (split_lines content) i = Some line ->
    startswith "name=" line = false ->
    (forall key, In key python_keys ->
                 startswith (key ++ "=python") line = false) ->
    nth_error (split_lines (fst (update_platform content))) i = Some line
    /\ List.length (split_lines (fst (update_platform content)))
       = List.length (split_lines content).
Proof.
  intros content i line Hnth Hname Hkeys.
  rewrite update_platform_lines. split.
  - rewrite nth_error_map,
      (rename_platform_other _ _ _ Hnth Hname).
    cbn [option_map]. f_equal.
    rewrite python3_line_fold. now apply fold_replace_other.
  - now rewrite length_map, rename_platform_length.
Qed.

Lemma platform_other_lines_kept_witness :
  let content :=
    join_lines ["name=ESP32 Arduino"; "version=1.0.6";
                "tools.gen_esp32part.cmd=python {x}"] in
  nth_error (split_lines (fst (update_platform content))) 1
  = Some "version=1.0.6"
  /\ List.length (split_lines (fst (update_platform content))) = 3.
Proof.
  intros content.
  refine (platform_other_lines_kept content 1 "version=1.0.6"
            eq_refl eq_refl _).
  intros key Hkey.
  repeat (destruct Hkey as [<-|Hkey]; [reflexivity|]).
  destruct Hkey.
Defined.

End PlatformExtras.

(* ================================================================== *)
(** * The shape of a digest *)
(* ================================================================== *)

Module DigestFacts.
Import PyStr PyStrFacts.
Local Open Scope Z_scope.

(** Every character of [s] is one of [alphabet]. *)
Fixpoint all_in (alphabet : list ascii) (s : string) : bool :=
  match s with
  | String c s' =>
      existsb (Ascii.eqb c) alphabet && all_in alphabet s'
  | EmptyString => true
  end.

Definition lower_hex : list ascii := list_ascii_of_string "0123456789abcdef".
Definition upper_hex : list ascii := list_ascii_of_string "0123456789ABCDEF".

Definition is_byte (b : Z) : Prop := 0 <= b < 256.

Lemma be_bytes_bytes (width : nat) (x : Z) :
  Forall is_byte (Sha256.be_bytes width x).
Proof.
  unfold Sha256.be_bytes. rewrite Forall_map. apply Forall_forall.
  intros i _. unfold is_byte.
  change 255 with (Z.ones 8). rewrite Z.land_ones by lia.
  apply Z.mod_pos_bound. reflexivity.
Qed.

Lemma be_bytes_length (width : nat) (x : Z) :
  List.length (Sha256.be_bytes width x) = width.
Proof.
  unfold Sha256.be_bytes.
  now rewrite length_map, length_rev, length_seq.
Qed.

Lemma digest_bytes (msg : list Z) : Forall is_byte (Sha256.digest msg).
Proof.
  unfold Sha256.digest. apply Forall_flat_map, Forall_forall.
  intros x _. apply be_bytes_bytes.
Qed.

Lemma round_length (s : list Z) (kw : Z * Z) :
  List.length (Sha256.round s kw) = List.length s.
Proof.
  unfold Sha256.round.
  do 8 (destruct s as [|? s]; [reflexivity|]).
  destruct s; reflexivity.
Qed.

Lemma rounds_length (kws : list (Z * Z)) (s : list Z) :
  List.length (fold_left Sha256.round kws s) = List.length s.
Proof.
  revert s. induction kws as [|kw kws IH]; intros s; cbn [fold_left];
    [reflexivity|].
  now rewrite IH, round_length.
Qed.

Lemma compress_length (h block : list Z) :
  List.length (Sha256.compress h block) = List.length h.
Proof.
  unfold Sha256.compress.
  rewrite length_map, length_combine, rounds_length. apply Nat.min_id.
Qed.

Lemma compressions_length (blocks : list (list Z)) (h : list Z) :
  List.length (fold_left Sha256.compress blocks h) = List.length h.
Proof.
  revert h. induction blocks as [|b blocks IH]; intros h; cbn [fold_left];
    [reflexivity|].
  now rewrite IH, compress_length.
Qed.

Lemma flat_map_length {X Y} (f : X -> list Y) (n : nat) (l : list X) :
  (forall x, List.length (f x) = n) ->
  List.length (flat_map f l) = (n * List.length l)%nat.
Proof.
  intros Hf. induction l as [|x l IH]; cbn [flat_map List.length]; [lia|].
  rewrite List.length_app, Hf, IH. lia.
Qed.

Lemma digest_length (msg : list Z) : List.length (Sha256.digest msg) = 32%nat.
Proof.
  unfold Sha256.digest.
  rewrite (flat_map_length _ 4) by (intros x; apply be_bytes_length).
  now rewrite compressions_length.
Qed.

Lemma hex_digit_lower (x : Z) :
  0 <= x < 16 -> existsb (Ascii.eqb (Sha256.hex_digit x)) lower_hex = true.
Proof.
  intros Hx.
  assert (Hcases : In x (map Z.of_nat (seq 0 16))).
  { apply in_map_iff. exists (Z.to_nat x). split; [lia|].
    apply in_seq. lia. }
  cbn in Hcases.
  repeat (destruct Hcases as [<-|Hcases]; [reflexivity|]).
  destruct Hcases.
Qed.

Lemma hex_lower (bytes : list Z) :
  Forall is_byte bytes -> all_in lower_hex (Sha256.hex bytes) = true.
Proof.
  induction 1 as [|b bytes Hb _ IH]; [reflexivity|].
  unfold is_byte in Hb. cbn [Sha256.hex all_in].
  rewrite !hex_digit_lower, IH; [reflexivity| |].
  - change 15 with (Z.ones 4). rewrite Z.land_ones by lia.
    apply Z.mod_pos_bound. reflexivity.
  - rewrite Z.shiftr_div_pow2 by lia. change (2 ^ 4) with 16.
    split; [apply Z.div_pos; lia|apply Z.div_lt_upper_bound; lia].
Qed.

Lemma hex_length (bytes : list Z) :
  String.length (Sha256.hex bytes) = (2 * List.length bytes)%nat.
Proof.
  induction bytes as [|b bytes IH]; [reflexivity|].
  cbn [Sha256.hex String.length List.length]. rewrite IH. lia.
Qed.

Lemma hexdigest_lower (h : Sha256.hasher) :
  all_in lower_hex (Sha256.hexdigest h) = true.
Proof. apply hex_lower, digest_bytes. Qed.

Lemma hexdigest_length (h : Sha256.hasher) :
  String.length (Sha256.hexdigest h) = 64%nat.
Proof.
  unfold Sha256.hexdigest. now rewrite hex_length, digest_length.
Qed.

Lemma upper_lower_hex (s : string) :
  all_in lower_hex s = true -> all_in upper_hex (upper s) = true.
Proof.
  induction s as [|c s IH]; [reflexivity|].
  cbn [all_in upper]. intros Hs. apply andb_prop in Hs as [Hc Hs].
  rewrite (IH Hs), andb_true_r.
  apply existsb_exists in Hc as (d & Hd & Hcd).
  apply Ascii.eqb_eq in Hcd. subst d. cbn in Hd.
  repeat (destruct Hd as [<-|Hd]; [reflexivity|]).
  destruct Hd.
Qed.

Lemma upper_length (s : string) : String.length (upper s) = String.length s.
Proof. induction s as [|c s IH]; [reflexivity|]. cbn. now rewrite IH. Qed.

Lemma lower_hex_no_space (s : string) :
  all_in lower_hex s = true -> no_space s = true.
Proof.
  induction s as [|c s IH]; [reflexivity|].
  cbn [all_in no_space]. intros Hs. apply andb_prop in Hs as [Hc Hs].
  rewrite (IH Hs), andb_true_r.
  apply existsb_exists in Hc as (d & Hd & Hcd).
  apply Ascii.eqb_eq in Hcd. subst d. cbn in Hd.
  repeat (destruct Hd as [<-|Hd]; [reflexivity|]).
  destruct Hd.
Qed.

Lemma strip_no_space (s : string) : no_space s = true -> strip s = s.
Proof.
  destruct s as [|c s]; [reflexivity|]. intros Hs.
  pose proof (strip_app_no_space c s "" Hs) as Hstrip.
  cbn [rstrip] in Hstrip.
  assert (Hnil : forall t : string, (t ++ "")%string = t).
  { induction t as [|x t IHt]; [reflexivity|]. cbn. now rewrite IHt. }
  now rewrite !Hnil in Hstrip.
Qed.

Lemma strip_hexdigest (h : Sha256.hasher) :
  strip (Sha256.hexdigest h) = Sha256.hexdigest h.
Proof. apply strip_no_space, lower_hex_no_space, hexdigest_lower. Qed.

End DigestFacts.

Section ChecksumFormat.
Import PyStr DigestFacts Sha256Facts.

(** X6.  Whatever the archive holds, [calculate_sha256] returns 64
    characters, each of them one of [0-9A-F]. *)
Theorem checksum_is_upper_hex :
  forall content : list Byte.byte,
    String.length (Descriptor.calculate_sha256 content) = 64
    /\ all_in upper_hex (Descriptor.calculate_sha256 content) = true.
Proof.
  intros content. rewrite calculate_sha256_digest. split.
  - now rewrite upper_length, hexdigest_length.
  - apply upper_lower_hex, hexdigest_lower.
Qed.

End ChecksumFormat.

(* ================================================================== *)
(** * Building the archive and remembering its fingerprint *)
(* ================================================================== *)

(** What the builders leave on disk.  [open(path, 'w')] on the
    fingerprint file either succeeds or raises an [OSError]; the source
    tree is readable and the output archive can be written. *)
Module Build.
Import PyStr Walk Fingerprint.

Inductive exn : Type := FileNotFoundError | OSError.

Inductive result (A : Type) : Type :=
| Ok (a : A)
| Raise (e : exn).
Arguments Ok {A} a.
Arguments Raise {A} e.

(** [build_and_push_complete.py], [create_zip_from_bsp()]: the number of
    files written and the files afterwards. *)
Module BuildAndPush.
Section Create.
Context `{PyFloat}.

Definition create_zip_from_bsp (hash_file_writable : bool)
           (fs : BuildAndPush.files) : result nat * BuildAndPush.files :=
  match BuildAndPush.bsp_source fs with
  | None => (Raise FileNotFoundError, fs)
  | Some tree =>
      let file_count := List.length (Archive.create_zip_from_bsp tree) in
      let current_hash := calculate_bsp_hash (BuildAndPush.bsp_source fs) in
      if hash_file_writable
      then (Ok file_count,
            {| BuildAndPush.output_zip_exists := true;
               BuildAndPush.bsp_source := BuildAndPush.bsp_source fs;
               BuildAndPush.hash_file := Text current_hash |})
      else (Raise OSError,
            {| BuildAndPush.output_zip_exists := true;
               BuildAndPush.bsp_source := BuildAndPush.bsp_source fs;
               BuildAndPush.hash_file := BuildAndPush.hash_file fs |})
  end.
End Create.
End BuildAndPush.

(** [build_nuttyfi32_complete_auto_final.py], [create_zip(source_dir,
    OUTPUT_ZIP)]: the entries written and the files afterwards.  The
    fingerprint saved is the one of the release archive, when there is
    one. *)
Module AutoFinal.
Definition create_zip {A} (hash_file_writable : bool)
           (root_folder_name : string) (source_dir : node A)
           (fs : AutoFinal.files)
  : result (list (string * A)) * AutoFinal.files :=
  let entries := Archive.create_zip root_folder_name source_dir in
  let source_hash :=
    if AutoFinal.zip_exists (AutoFinal.release_zip fs)
    then calculate_zip_hash (AutoFinal.release_zip fs)
    else None in
  let written (hash_file : text_file) :=
    {| AutoFinal.output_zip_exists := true;
       AutoFinal.release_zip := AutoFinal.release_zip fs;
       AutoFinal.bsp_source_exists := AutoFinal.bsp_source_exists fs;
       AutoFinal.hash_file := hash_file |} in
  match source_hash with
  | Some h =>
      if negb (h =? "")
      then if hash_file_writable
           then (Ok entries, written (Text h))
           else (Raise OSError, written (AutoFinal.hash_file fs))
      else (Ok entries, written (AutoFinal.hash_file fs))
  | None => (Ok entries, written (AutoFinal.hash_file fs))
  end.
End AutoFinal.

End Build.

Module ZipHashFacts.
Import PyStr Fingerprint TextFacts SortFacts.

Definition filename (e : string * N * N) : string := fst (fst e).

Lemma zip_info_lt_key (x y : string * N * N) :
  filename x <> filename y ->
  zip_info_lt x y = String.ltb (filename x) (filename y).
Proof.
  destruct x as [[p m] s], y as [[p' m'] s']. cbn [filename fst]. intros Hne.
  unfold zip_info_lt, tuple_lt. apply String.eqb_neq in Hne.
  now rewrite Hne.
Qed.

Lemma filter_permutation {X} (f : X -> bool) (l l' : list X) :
  Permutation l l' -> Permutation (filter f l) (filter f l').
Proof.
  induction 1 as [|x l l' _ IH|x y l|l1 l2 l3 _ IH12 _ IH23]; cbn [filter].
  - apply Permutation_refl.
  - destruct (f x); [now apply perm_skip|exact IH].
  - destruct (f x), (f y);
      first [apply perm_swap|apply Permutation_refl].
  - eapply Permutation_trans; eassumption.
Qed.

Lemma filter_NoDup_map {X Y} (g : X -> Y) (f : X -> bool) (l : list X) :
  NoDup (map g l) -> NoDup (map g (filter f l)).
Proof.
  induction l as [|x l IH]; cbn [map filter]; intros Hnd; [constructor|].
  inversion Hnd as [|? ? Hx Hl]; subst.
  destruct (f x); [|now apply IH].
  cbn [map]. constructor; [|now apply IH].
  intros Hin. apply Hx. apply in_map_iff in Hin as (y & Hy & Hin).
  apply in_map_iff. exists y. split; [exact Hy|].
  now apply filter_In in Hin as [Hin _].
Qed.

End ZipHashFacts.

Section BuildExtras.
Import PyStr Walk WalkFacts Fingerprint FingerprintFacts DigestFacts.
Import ZipHashFacts SortFacts.

(** X7.  [create_zip] of [build_nuttyfi32_package.py] prunes hidden
    directories but writes every file of the directories it visits,
    hidden ones included, under its relative path. *)
Theorem package_archive_keeps_hidden_files :
  forall (A : Type) (source_dir : node A) (name : string) (a : A),
    In (name, a) (Archive.Package.create_zip source_dir)
    <-> exists sub file,
        file_at source_dir (sub ++ [file]) a
        /\ Forall (fun c => hidden c = false) sub
        /\ name = join "/" (sub ++ [file]).
Proof.
  intros A source_dir name a.
  change (Archive.Package.create_zip source_dir)
    with (listed (fun _ => true) (fun p => p) [] source_dir).
  split.
  - intros Hin.
    destruct (listed_sound _ _ _ _ _ _ Hin)
      as (sub & file & Hat & Hsub & _ & ->).
    now exists sub, file.
  - intros (sub & file & Hat & Hsub & ->).
    now apply (listed_complete (fun _ => true) (fun p => p) sub
                               source_dir [] file a Hat Hsub).
Qed.

(** X8.  The fingerprint of the source folder depends on the folder only
    through the entries [create_zip_from_bsp] would write, with their
    time and size: two folders with the same entries, in any order, have
    the same fingerprint, whatever hidden files and empty directories
    they hold. *)
Theorem fingerprint_follows_archive :
  forall (F : PyFloat) (t t' : node stat),
    Permutation (Archive.create_zip_from_bsp t)
                (Archive.create_zip_from_bsp t') ->
    NoDup (map fst (Archive.create_zip_from_bsp t)) ->
    calculate_bsp_hash (Some t') = calculate_bsp_hash (Some t).
Proof.
  intros F t t' Hperm Hnd.
  unfold calculate_bsp_hash, hash_file_info.
  change (Sha256.hexdigest (hash_input (collect t'))
          = Sha256.hexdigest (hash_input (collect t))).
  f_equal. symmetry. apply hash_input_permutation.
  - rewrite !collect_listed. now apply Permutation_map.
  - rewrite collect_listed, map_map.
    exact Hnd.
Qed.

Definition bsp_tree_touched : node (@stat whole_seconds) :=
  Dir [("cores", Dir [("main.cpp", File (stat_of 1700000002 512));
                      (".cache", File (stat_of 1800000000 77))]);
       ("empty", Dir []);
       (".git", Dir [("HEAD", File (stat_of 1800000001 41))]);
       ("boards.txt", File (stat_of 1700000000 4096))].

Lemma fingerprint_follows_archive_witness :
  @calculate_bsp_hash whole_seconds (Some bsp_tree_touched)
  = @calculate_bsp_hash whole_seconds (Some bsp_tree).
Proof.
  refine (fingerprint_follows_archive whole_seconds bsp_tree
            bsp_tree_touched _ _).
  - apply Permutation_refl.
  - repeat constructor; cbn; intuition discriminate.
Defined.



(** X10.  After [create_zip] of [build_nuttyfi32_complete_auto_final.py]
    has run to its end, the gate answers [False] exactly when the release
    archive can be read: a build from the local folder is never
    remembered. *)
Theorem build_remembered_iff_release_readable :
  forall (A : Type) (R : string) (source_dir : node A)
         (fs : AutoFinal.files),
    let built := Build.AutoFinal.create_zip true R source_dir fs in
    fst built = Build.Ok (Archive.create_zip R source_dir)
    /\ (fst (AutoFinal.check_if_zip_needs_update (snd built)) = Py.Ok false
        <-> exists infolist, AutoFinal.release_zip fs = Zip infolist).
Proof.
  intros A R source_dir fs built. subst built.
  unfold Build.AutoFinal.create_zip.
  destruct (AutoFinal.release_zip fs) as [| |infolist] eqn:Hrel;
    cbn [AutoFinal.zip_exists calculate_zip_hash].
  - cbn [fst snd]. split; [reflexivity|].
    unfold AutoFinal.check_if_zip_needs_update.
    cbn [AutoFinal.output_zip_exists AutoFinal.release_zip
         AutoFinal.zip_exists AutoFinal.bsp_source_exists negb].
    split.
    + destruct (AutoFinal.bsp_source_exists fs); discriminate.
    + intros [infolist Hzip]. discriminate Hzip.
  - cbn [fst snd]. split; [reflexivity|].
    unfold AutoFinal.check_if_zip_needs_update.
    cbn [AutoFinal.output_zip_exists AutoFinal.release_zip
         AutoFinal.zip_exists AutoFinal.hash_file calculate_zip_hash
         AutoFinal.hash_eq negb].
    split.
    + destruct (AutoFinal.hash_file fs); discriminate.
    + intros [infolist Hzip]. discriminate Hzip.
  - set (h := Sha256.hexdigest _).
    assert (Hh : (h =? "") = false).
    { apply String.eqb_neq. intros Heq.
      apply (f_equal String.length) in Heq.
      subst h. rewrite hexdigest_length in Heq. discriminate Heq. }
    rewrite Hh. cbn [negb fst snd]. split; [reflexivity|].
    split; [intros _; now exists infolist|intros _].
    unfold AutoFinal.check_if_zip_needs_update.
    cbn [AutoFinal.output_zip_exists AutoFinal.release_zip
         AutoFinal.zip_exists AutoFinal.hash_file calculate_zip_hash
         AutoFinal.hash_eq negb].
    fold h. subst h. now rewrite strip_hexdigest, String.eqb_refl.
Qed.

(** X11.  The fingerprint of the release archive does not depend on the
    order of its entries, as long as their names differ, and entries
    whose name begins with a dot do not count. *)
Theorem zip_hash_ignores_order_and_dot_names :
  forall infolist infolist' : list (string * N * N),
    Permutation
      (filter (fun e => negb (startswith "." (filename e))) infolist)
      (filter (fun e => negb (startswith "." (filename e))) infolist') ->
    NoDup (map filename infolist) ->
    calculate_zip_hash (Zip infolist') = calculate_zip_hash (Zip infolist).
Proof.
  intros infolist infolist' Hperm Hnd.
  unfold calculate_zip_hash. do 2 f_equal.
  apply (f_equal (fun l => fold_left _ l Sha256.new)).
  symmetry.
  apply (sort_permutation zip_info_lt filename zip_info_lt_key _ _ Hperm).
  now apply filter_NoDup_map.
Qed.

Lemma zip_hash_ignores_order_and_dot_names_witness :
  calculate_zip_hash
    (Zip [("esp32-1.0.6/cores/main.cpp", 512%N, 2596069104%N);
          (".DS_Store", 6148%N, 7%N);
          ("esp32-1.0.6/boards.txt", 4096%N, 305419896%N)])
  = calculate_zip_hash release_archive.
Proof.
  refine (zip_hash_ignores_order_and_dot_names _ _ _ _).
  - vm_compute. apply perm_swap.
  - repeat constructor; cbn; intuition discriminate.
Defined.

End BuildExtras.

(* ================================================================== *)
(** * The descriptor synchronizer: failures and a second run *)
(* ================================================================== *)

Module DescriptorMore.
Import Py PyStr Descriptor DescriptorFacts.

Lemma dict_set_same_value (k : string) (v : json) (d : list (string * json)) :
  lookup k d = Some v -> dict_set k v d = d.
Proof.
  induction d as [|[k' v'] d IH]; cbn [lookup dict_set]; [discriminate|].
  destruct (String.eqb_spec k' k) as [->|_].
  - now intros [= ->].
  - intros Hd. now rewrite IH.
Qed.

Lemma list_set_same_value (i : nat) (v : json) (l : list json) :
  nth_error l i = Some v -> list_set i v l = l.
Proof.
  revert i. induction l as [|x l IH]; intros [|i]; cbn; try discriminate.
  - now intros [= ->].
  - intros Hl. now rewrite IH.
Qed.

Lemma put_same (v : json) (s : subscript) (c : json) :
  getitem v s = Ok c -> put v s c = v.
Proof.
  destruct v as [| | | |l|d], s as [k|i]; cbn; try reflexivity.
  - destruct (nth_error l i) eqn:E; [|discriminate].
    intros [= <-]. now rewrite list_set_same_value.
  - destruct (lookup k d) eqn:E; [|discriminate].
    intros [= <-]. now rewrite dict_set_same_value.
Qed.

(** A mutation that changes nothing leaves the document as it is. *)
Lemma modify_fix (f : json -> result json) (path : list subscript) :
  forall v x, get_path path v = Ok x -> f x = Ok x -> modify path f v = Ok v.
Proof.
  induction path as [|s path IH]; intros v x Hget Hf; cbn in *.
  - now injection Hget as ->.
  - destruct (getitem v s) as [c|] eqn:Hc; [|discriminate]. cbn in *.
    rewrite (IH c x Hget Hf). cbn. now rewrite (put_same v s c Hc).
Qed.

Lemma modify_inv (f : json -> result json) (path : list subscript) :
  forall v v', modify path f v = Ok v' ->
               exists x x', get_path path v = Ok x /\ f x = Ok x'.
Proof.
  induction path as [|s path IH]; intros v v' Hmod; cbn in *.
  - now exists v, v'.
  - destruct (getitem v s) as [c|]; [|discriminate]. cbn in *.
    destruct (modify path f c) as [c'|] eqn:Hc; [|discriminate].
    exact (IH c c' Hc).
Qed.

(** A failing subscript, or a failing mutation, is what [modify] raises. *)
Lemma modify_raise_path (f : json -> result json) (path : list subscript) :
  forall v e, get_path path v = Raise e -> modify path f v = Raise e.
Proof.
  induction path as [|s path IH]; intros v e Hget; cbn in *; [discriminate|].
  destruct (getitem v s) as [c|]; cbn in *; [|exact Hget].
  now rewrite (IH c e Hget).
Qed.

Lemma modify_raise_at (f : json -> result json) (path : list subscript) :
  forall v x e, get_path path v = Ok x -> f x = Raise e ->
                modify path f v = Raise e.
Proof.
  induction path as [|s path IH]; intros v x e Hget Hf; cbn in *.
  - now injection Hget as ->.
  - destruct (getitem v s) as [c|]; [|discriminate]. cbn in *.
    now rewrite (IH c x e Hget Hf).
Qed.

Lemma set_platform_info_again (version checksum size : string)
      (fields fields' : list (string * json)) :
  platform_updated version checksum size fields fields' ->
  set_platform_info version checksum size (JObj fields') = Ok (JObj fields').
Proof.
  intros (Hv & Hu & Ha & Hc & Hs & _).
  unfold set_platform_info. cbn [setitem bind].
  now rewrite (dict_set_same_value _ _ _ Hv), (dict_set_same_value _ _ _ Hu),
    (dict_set_same_value _ _ _ Ha), (dict_set_same_value _ _ _ Hc),
    (dict_set_same_value _ _ _ Hs).
Qed.

Lemma set_platform_info_object (version checksum size : string) (x x' : json) :
  set_platform_info version checksum size x = Ok x' ->
  exists fields, x = JObj fields.
Proof. destruct x; try discriminate. intros _. now eexists. Qed.

Lemma set_platform_info_other (version checksum size : string) (x : json) :
  (forall fields, x <> JObj fields) ->
  set_platform_info version checksum size x = Raise TypeError.
Proof. destruct x; try reflexivity. intros Hx. now destruct (Hx fields). Qed.

End DescriptorMore.

Section DescriptorExtras.
Import Py PyStr Descriptor DescriptorFacts DescriptorMore.

(** X12.  A second run of [update_json_with_zip_info] on what the first
    run left, the archive being the same, returns the same pair and
    leaves the files as they are. *)
Theorem synchronizer_idempotent :
  forall (fs fs' : files) (r : string * string),
    AutoFinal.update_json_with_zip_info fs = (Ok r, fs') ->
    AutoFinal.update_json_with_zip_info fs' = (Ok r, fs').
Proof.
  intros fs fs' r. unfold AutoFinal.update_json_with_zip_info.
  destruct (output_zip fs) as [zip|] eqn:Hzip; [|discriminate].
  set (checksum := calculate_sha256 zip).
  set (size := str_of_N (get_file_size zip)).
  unfold update_and_write.
  destruct (if json_exists (json_output fs) then json_load (json_output fs)
            else if json_exists (json_template fs)
                 then json_load (json_template fs)
                 else Raise FileNotFoundError) as [data|]; [|discriminate].
  cbn [bind].
  destruct (modify PLATFORM (set_platform_info VERSION checksum size) data)
    as [data'|] eqn:Hmod; [|discriminate].
  intros [= <- <-].
  unfold write_json_output. cbn [output_zip json_output json_template].
  rewrite Hzip. fold checksum size. cbn [json_exists json_load bind].
  destruct (modify_inv _ _ _ _ Hmod) as (x & x' & Hget & Hset).
  destruct (set_platform_info_object _ _ _ _ _ Hset) as (fields & ->).
  destruct (set_platform_info_spec VERSION checksum size fields)
    as (fields' & Hset' & Hupd).
  rewrite Hset' in Hset. injection Hset as <-.
  destruct (modify_get _ PLATFORM data _ _ Hget eq_refl Hset')
    as (data'' & Hmod' & Hget').
  rewrite Hmod in Hmod'. injection Hmod' as <-.
  now rewrite (modify_fix _ PLATFORM data' _ Hget'
                 (set_platform_info_again _ _ _ _ _ Hupd)).
Qed.

Lemma synchronizer_idempotent_witness :
  let fs := {| output_zip := Some archive_sample;
               json_output := JsonAbsent;
               json_template := Json descriptor_sample |} in
  let first := AutoFinal.update_json_with_zip_info fs in
  AutoFinal.update_json_with_zip_info (snd first)
  = (Ok ("FCAB7FCC2B4CFFD9BB45003BFC2E468A04EF6F77CA8200A7341F027631584D25"%string,
         "2"%string),
     snd first).
Proof.
  intros fs first.
  apply (synchronizer_idempotent fs (snd first)).
  vm_compute. reflexivity.
Defined.

(** X13.  With the archive in place, [update_json_with_zip_info] fails
    without writing anything when the descriptor it reads cannot be
    parsed ([JSONDecodeError]), when a subscript of
    [data['packages'][0]['platforms'][0]] fails (the [KeyError],
    [IndexError] or [TypeError] of that subscript), and when what is
    found there is no object ([TypeError]). *)
Theorem synchronizer_failures :
  forall (fs : files) (zip : list Byte.byte),
    output_zip fs = Some zip ->
    (descriptor_read fs = JsonMalformed ->
     AutoFinal.update_json_with_zip_info fs = (Raise JSONDecodeError, fs))
    /\ (forall data e,
           descriptor_read fs = Json data ->
           get_path PLATFORM data = Raise e ->
           AutoFinal.update_json_with_zip_info fs = (Raise e, fs))
    /\ (forall data x,
           descriptor_read fs = Json data ->
           get_path PLATFORM data = Ok x ->
           (forall fields, x <> JObj fields) ->
           AutoFinal.update_json_with_zip_info fs = (Raise TypeError, fs)).
Proof.
  intros fs zip Hzip.
  assert (Hload : forall d,
            descriptor_read fs = d -> d <> JsonAbsent ->
            (if json_exists (json_output fs) then json_load (json_output fs)
             else if json_exists (json_template fs)
                  then json_load (json_template fs)
                  else Raise FileNotFoundError) = json_load d).
  { intros d Hread Hd. unfold descriptor_read in Hread.
    destruct (json_exists (json_output fs)) eqn:Hout;
      [now rewrite Hread|].
    rewrite Hread. destruct d; [now destruct Hd|reflexivity|reflexivity]. }
  unfold AutoFinal.update_json_with_zip_info. rewrite Hzip.
  unfold update_and_write. split; [|split].
  - intros Hread. now rewrite (Hload _ Hread) by discriminate.
  - intros data e Hread Hget. rewrite (Hload _ Hread) by discriminate.
    cbn [json_load bind]. now rewrite (modify_raise_path _ _ _ _ Hget).
  - intros data x Hread Hget Hx. rewrite (Hload _ Hread) by discriminate.
    cbn [json_load bind].
    now rewrite (modify_raise_at _ _ _ _ _ Hget
                   (set_platform_info_other _ _ _ _ Hx)).
Qed.

Lemma synchronizer_failures_witness :
  let fs := {| output_zip := Some archive_sample;
               json_output := Json (JObj [("packages", JArr [])]);
               json_template := Json descriptor_sample |} in
  AutoFinal.update_json_with_zip_info fs = (Raise IndexError, fs).
Proof.
  intros fs.
  exact (proj1 (proj2 (synchronizer_failures fs archive_sample eq_refl))
           (JObj [("packages", JArr [])]) IndexError eq_refl eq_refl).
Defined.

End DescriptorExtras.

(* ================================================================== *)
(** * More of the publish workflow: what is staged, and when nothing is *)
(* ================================================================== *)

Module PublishMore.
Import Py PyStr Publish PyStrFacts PublishFacts.

(** An item of the base directory the staging loop does not skip. *)
Definition stageable (n : string) : Prop :=
  mem n exclude_items = false
  /\ startswith "." n = false
  /\ mem (suffix n) exclude_extensions = false.

(** The commands [push_bsp_to_github] runs before it asks for the staged
    changes. *)
Definition stage_allowed (cmd : list string) : Prop :=
  cmd = ["config"; "http.postBuffer"; "524288000"]%list
  \/ cmd = ["config"; "http.timeout"; "600"]%list
  \/ (exists token,
         cmd = ["remote"; "set-url"; "origin";
                ("https://" ++ token
                 ++ "@github.com/itsbhupendrasingh/nuttyfi32.git")%string
               ]%list)
  \/ cmd = ["add"; "-f"; JSON_OUTPUT_NAME]%list
  \/ (exists n, stageable n
                /\ (cmd = ["add"; "-f"; n]%list
                    \/ cmd = ["add"; "-f"; (n ++ "/")%string]%list))
  \/ (exists script, In script auto_scripts /\ cmd = ["add"; script]%list).

Section Staging.
Context `{Machine}.

Lemma add_item_allowed (item : dir_entry) (added_count : nat) :
  extends stage_allowed (add_item item added_count).
Proof.
  unfold add_item.
  destruct (mem (name item) exclude_items || startswith "." (name item))
    eqn:Hex; [apply extends_ret|].
  apply orb_false_elim in Hex as [Hex Hdot].
  destruct (mem (suffix (name item)) exclude_extensions) eqn:Hext;
    [apply extends_ret|].
  destruct (name item =? JSON_OUTPUT_NAME); [apply extends_ret|].
  assert (Hitem : stageable (name item)) by now repeat split.
  destruct (is_file item); [|destruct (is_dir item)].
  - apply extends_bind; [|intros; apply extends_ret].
    apply extends_run_git. do 4 right. left.
    exists (name item). split; [exact Hitem|now left].
  - apply extends_bind; [|intros; apply extends_ret].
    apply extends_run_git. do 4 right. left.
    exists (name item). split; [exact Hitem|now right].
  - apply extends_ret.
Qed.

Lemma add_scripts_allowed (scripts : list string) (u : unit) :
  (forall s, In s scripts -> In s auto_scripts) ->
  extends stage_allowed (for_each scripts add_script u).
Proof.
  revert u. induction scripts as [|script scripts IH]; intros u Hin;
    cbn [for_each]; [apply extends_ret|].
  apply extends_bind.
  - unfold add_script. apply extends_bind; [apply extends_ask|].
    intros [|]; [|apply extends_ret].
    apply extends_bind; [|intros; apply extends_ret].
    apply extends_run_git. do 5 right.
    exists script. split; [apply Hin; now left|reflexivity].
  - intros u'. apply IH. intros s Hs. apply Hin. now right.
Qed.

Lemma stage_allowed_only : extends stage_allowed stage.
Proof.
  unfold stage. apply extends_bind; [apply extends_ask|].
  intros [[|c token]|]; try apply extends_raise.
  apply extends_bind; [apply extends_ask|]. intros present.
  apply extends_bind;
    [destruct present; [apply extends_ret|apply extends_lift]|]. intros _.
  apply extends_bind; [apply extends_run_git; now left|]. intros _.
  apply extends_bind; [apply extends_run_git; right; now left|]. intros _.
  apply extends_bind;
    [apply extends_run_git; do 2 right; left; now eexists|]. intros _.
  apply extends_bind; [apply extends_lift|]. intros file_count.
  apply extends_bind; [apply extends_ask|]. intros json_present.
  apply extends_bind.
  { destruct json_present; [|apply extends_ret].
    apply extends_bind; [|intros; apply extends_ret].
    apply extends_run_git. do 3 right. now left. }
  intros _.
  apply extends_bind; [apply extends_ask|]. intros items.
  apply extends_bind;
    [apply extends_for_each; intros; apply add_item_allowed|]. intros _.
  apply extends_bind; [now apply add_scripts_allowed|]. intros _.
  apply extends_ret.
Qed.

Lemma bindM_assoc {A B C} (m : M A) (k : A -> M B) (k' : B -> M C)
      (st : state) :
  bindM (bindM m k) k' st = bindM m (fun a => bindM (k a) k') st.
Proof.
  unfold bindM. destruct (m st) as [[a|e] st1]; reflexivity.
Qed.

End Staging.

(** The first character of a stripped string is no white space. *)
Lemma lstrip_head (s : string) :
  lstrip s = ""
  \/ exists c r, lstrip s = String c r /\ isspace c = false.
Proof.
  induction s as [|c s IH]; [now left|]. cbn [lstrip].
  destruct (isspace c) eqn:Hc; [exact IH|].
  right. now exists c, s.
Qed.

Lemma strip_head (s : string) :
  strip s = ""
  \/ exists c r, strip s = String c r /\ isspace c = false.
Proof.
  unfold strip. destruct (lstrip_head s) as [->|(c & r & -> & Hc)];
    [now left|].
  right. exists c, (rstrip r). split; [|exact Hc].
  now apply rstrip_cons_nonspace.
Qed.

Lemma strip_cons_nonspace (c : ascii) (s : string) :
  isspace c = false -> strip (String c s) = String c (rstrip s).
Proof.
  intros Hc. unfold strip. rewrite lstrip_cons_nonspace by exact Hc.
  now apply rstrip_cons_nonspace.
Qed.

End PublishMore.

Section PublishExtras.
Import Py PyStr Publish PyStrFacts PublishFacts PublishMore.

(** X14.  Before it asks for the staged changes, [push_bsp_to_github]
    runs only: the two [git config], [git remote set-url origin] with the
    token in the address, [git add -f] of the descriptor, [git add -f] of
    items of the base directory that are not excluded by name, by a
    leading dot or by the suffixes [.bat] and [.zip], and [git add] of
    the automation scripts.  No command names [.github_token]. *)
Theorem staging_leaves_excluded_items :
  forall (Mach : Machine) (st : state),
  exists added,
    log (snd (stage st)) = (log st ++ added)%list
    /\ Forall (fun e => stage_allowed (fst e)) added
    /\ Forall (fun e => ~ In ".github_token" (fst e)) added.
Proof.
  intros Mach st.
  destruct (stage_allowed_only st) as (added & Hlog & Hadded).
  exists added. split; [exact Hlog|]. split; [exact Hadded|].
  eapply Forall_impl; [|exact Hadded].
  intros [cmd out]. cbn [fst].
  intros [->|[->|[(token & ->)|[->|[(n & Hn & Hcmd)|(s & Hs & ->)]]]]] Hin.
  - cbn in Hin. intuition discriminate.
  - cbn in Hin. intuition discriminate.
  - cbn in Hin. intuition discriminate.
  - cbn in Hin. intuition discriminate.
  - destruct Hn as (Hex & Hdot & _).
    destruct Hcmd as [->| ->]; cbn [In] in Hin;
      destruct Hin as [Hin|[Hin|[Hin|[]]]]; try discriminate Hin.
    + subst n. discriminate Hex.
    + destruct n as [|c n]; [discriminate Hin|].
      injection Hin as Hc _. subst c.
      pose proof (startswith_app "." n) as Hstarts.
      change ("." ++ n) with (String "." n) in Hstarts.
      rewrite Hstarts in Hdot. discriminate Hdot.
  - destruct Hin as [Hin|[Hin|[]]]; [discriminate Hin|]. subst s.
    cbn in Hs.
    repeat (destruct Hs as [Hs|Hs]; [discriminate Hs|]). exact Hs.
Qed.

(** X15.  When [.github_token] is missing, cannot be read or holds only
    white space, [push_bsp_to_github] raises [ValueError] before any git
    command is run and before anything is copied. *)
Theorem blank_token_stops_publish :
  forall (Mach : Machine) (st : state),
    (forall content,
        token_file (now st) = Fingerprint.Text content ->
        all_space content = true) ->
    push_bsp_to_github st = (Raise ValueError, st).
Proof.
  intros Mach st Htoken.
  unfold push_bsp_to_github, stage, bindM, ask, get_token.
  destruct (token_file (now st)) as [| |content] eqn:Hfile;
    try reflexivity.
  now rewrite (all_space_strip content (Htoken content eq_refl)).
Qed.

Definition blank_token_machine : Machine :=
  {| world := unit;
     git := fun _ w => ({| returncode := 0; stdout := ""; stderr := "" |}, w);
     git_timeout := fun _ _ => None;
     path_exists := fun _ _ => true;
     token_file := fun _ => Fingerprint.Text (String newline " ");
     iterdir_base := fun _ => []%list;
     ensure_bsp_source_folder := fun w => (Ok tt, w);
     sync_to_root := fun w => (Ok 0, w);
     zip_files :=
       fun _ => Fingerprint.AutoFinal.Build_files true Fingerprint.ZipAbsent
                  true Fingerprint.TextAbsent;
     rebuild := fun w => (Raise FileNotFoundError, w) |}.

Lemma blank_token_stops_publish_witness :
  @push_bsp_to_github blank_token_machine (@start blank_token_machine tt)
  = (Raise ValueError, @start blank_token_machine tt).
Proof.
  apply (blank_token_stops_publish blank_token_machine).
  intros content [= <-]. reflexivity.
Defined.

(** X16.  The list of staged files is empty exactly when
    [git diff --cached --name-only] printed nothing but white space. *)
Theorem staged_files_empty_iff_blank :
  forall stdout : string,
    staged_files stdout = []%list <-> all_space stdout = true.
Proof.
  intros out. unfold staged_files. split.
  - intros Hnone. apply strip_empty.
    destruct (strip_head out) as [Hs|(c & r & Hs & Hc)]; [exact Hs|].
    rewrite Hs in Hnone. cbn [split_lines] in Hnone.
    assert (Hnl : Ascii.eqb c newline = false).
    { destruct (Ascii.eqb_spec c newline) as [->|]; [discriminate Hc|].
      reflexivity. }
    rewrite Hnl in Hnone.
    destruct (split_lines r) as [|h t]; cbn [filter] in Hnone;
      rewrite (strip_cons_nonspace c _ Hc) in Hnone; discriminate Hnone.
  - intros Hs. now rewrite (all_space_strip out Hs).
Qed.

(** X17.  When the gate asks for a rebuild and the rebuild fails, the run
    ends with the error of the rebuild: the log holds only what the
    synchronisation ran, so nothing is staged, committed or pushed. *)
Theorem failed_rebuild_publishes_nothing :
  forall (Mach : Machine) (w : world) (e : exn),
    let synced := bindM ensure_git_ready (fun _ => sync_with_remote) (start w) in
    fst synced = Ok tt ->
    fst (Fingerprint.AutoFinal.check_if_zip_needs_update
           (zip_files (now (snd synced)))) = Ok true ->
    fst (rebuild (now (snd synced))) = Raise e ->
    let out := run_tasks (start w) in
    fst out = Raise e
    /\ log (snd out) = log (snd synced)
    /\ Forall (fun c => In (hd "" (fst c)) ["rebase"; "fetch"; "pull"])
              (log (snd out)).
Proof.
  intros Mach w e synced Hsync Hgate Hrebuild out.
  assert (Hrun : out = bindM (fun st => synced) (fun _ => after_sync) (start w)).
  { subst out synced. unfold run_tasks, after_sync, bindM.
    destruct (ensure_git_ready (start w)) as [[[]|e1] st1]; [|reflexivity].
    destruct (sync_with_remote st1) as [[[]|e2] st2]; reflexivity. }
  assert (Hout : fst out = Raise e /\ log (snd out) = log (snd synced)).
  { rewrite Hrun. unfold bindM.
    destruct synced as [[[]|e0] st2]; [|discriminate Hsync].
    cbn [fst snd] in *. unfold after_sync, bindM. rewrite Hgate.
    unfold lift. destruct (rebuild (now st2)) as [r w3].
    cbn [fst] in Hrebuild. subst r. now split. }
  destruct Hout as [Hfail Hlog]. split; [exact Hfail|].
  split; [exact Hlog|]. rewrite Hlog. subst synced. unfold bindM.
  destruct (ensure_git_ready_log (start w)) as (_ & Hmark & Hnomark).
  change (now (start w)) with w in Hmark, Hnomark.
  destruct (ensure_git_ready (start w)) as [r1 st1]. cbn [fst snd] in *.
  assert (Hst1 : Forall (fun c => In (hd "" (fst c))
                                     ["rebase"; "fetch"; "pull"]) (log st1)).
  { destruct (marker w) eqn:Hm.
    - destruct (Hmark eq_refl) as (a & ->). cbn.
      constructor; [|constructor]. cbn. tauto.
    - rewrite (Hnomark eq_refl). constructor. }
  destruct r1 as [[]|e1]; [|exact Hst1].
  destruct (sync_with_remote_log st1) as (tail_ok & Hsynced).
  unfold synced in Hsynced.
  destruct (sync_with_remote st1) as [r2 st2]. cbn [fst snd] in *.
  destruct Hsynced as [(f & Hl & _)|[(f & c & Hl & _)|(f & c & Hl & _)]];
    rewrite Hl; apply Forall_app; (split; [exact Hst1|]);
    repeat constructor; cbn; tauto.
Qed.

Lemma failed_rebuild_publishes_nothing_witness :
  fst (@run_tasks blank_token_machine (@start blank_token_machine tt))
  = Raise FileNotFoundError
  /\ map fst (log (snd (@run_tasks blank_token_machine
                          (@start blank_token_machine tt))))
     = [["rebase"; "--abort"];
        ["fetch"; "origin"; "Master"];
        ["pull"; "--rebase"; "origin"; "Master"]]%list.
Proof.
  destruct (failed_rebuild_publishes_nothing blank_token_machine tt
              FileNotFoundError eq_refl eq_refl eq_refl)
    as (Hfail & Hlog & _).
  split; [exact Hfail|]. rewrite Hlog. reflexivity.
Defined.

End PublishExtras.

(* ================================================================== *)
(** * What the fingerprint does not tell apart; when boards.txt is
      written *)
(* ================================================================== *)

Module EncodingFacts.
Import PyStr PyStrFacts TextFacts.

Lemma encode_app (a b : string) :
  encode (a ++ b) = (encode a ++ encode b)%list.
Proof.
  induction a as [|c a IH]; [reflexivity|].
  cbn [append encode]. now rewrite IH, List.app_assoc.
Qed.

Lemma ltb_asym (a b : string) : String.ltb a b = true -> String.ltb b a = false.
Proof.
  intros Hab. destruct (String.ltb b a) eqn:Hba; [|reflexivity].
  pose proof (ltb_trans _ _ _ Hab Hba) as Haa.
  now rewrite ltb_irrefl in Haa.
Qed.

Lemma hidden_append (p s : string) :
  p <> "" -> Walk.hidden (p ++ s) = Walk.hidden p.
Proof.
  destruct p as [|c q]; [congruence|]. intros _.
  unfold Walk.hidden. cbn [append]. rewrite !startswith_cons.
  f_equal. unfold startswith.
  assert (Hempty : forall x, String.prefix "" x = true) by now intros [].
  now rewrite !Hempty.
Qed.

End EncodingFacts.

Section LastExtras.
Import PyStr Walk Fingerprint FingerprintFacts TextFacts EncodingFacts.
Import Boards PyStrFacts BoardsFacts LinesFacts BoardsMore.

(** X18.  The entries are hashed one after the other with nothing in
    between, so the fingerprint of two files [p1] and [p2] is also the
    fingerprint of the one file whose name is the text hashed for [p1]
    followed by [p2]: equal fingerprints do not mean equal file lists. *)
Theorem fingerprint_merges_entries :
  forall (F : PyFloat) (p1 p2 : string) (a1 a2 : stat),
    p1 <> "" ->
    hidden p1 = false ->
    hidden p2 = false ->
    String.ltb p1 p2 = true ->
    let merged :=
      p1 ++ ":" ++ str_float (st_mtime a1) ++ ":" ++ str_of_N (st_size a1)
         ++ p2 in
    calculate_bsp_hash (Some (Dir [(merged, File a2)]))
    = calculate_bsp_hash (Some (Dir [(p1, File a1); (p2, File a2)])).
Proof.
  intros F p1 p2 a1 a2 Hp1 Hh1 Hh2 Hlt merged.
  assert (Hhm : hidden merged = false).
  { subst merged. now rewrite hidden_append. }
  unfold calculate_bsp_hash, hash_file_info, collect.
  cbn [os_walk flat_map file_entries files root snd fst List.app filter map].
  unfold visible. rewrite Hhm, Hh1, Hh2.
  cbn [negb filter map List.app sort insert relative_path join].
  assert (Horder : file_info_lt (p2, st_mtime a2, st_size a2)
                                (p1, st_mtime a1, st_size a1) = false).
  { rewrite file_info_lt_key.
    - cbn [path fst]. now apply ltb_asym.
    - cbn [path fst]. intros ->. now rewrite ltb_irrefl in Hlt. }
  cbn [is_dir andb flat_map sort insert fst snd].
  rewrite Horder. cbn [fold_left]. f_equal.
  unfold Sha256.update, Sha256.new, entry_bytes. cbn [List.app].
  rewrite <- encode_app. f_equal. subst merged.
  now rewrite !PlatformFacts.append_assoc.
Qed.

Lemma fingerprint_merges_entries_witness :
  @calculate_bsp_hash whole_seconds
    (Some (Dir [("a.txt:1700000000.0:12b.txt", File (stat_of 1700000005 7))]))
  = @calculate_bsp_hash whole_seconds
      (Some (Dir [("a.txt", File (stat_of 1700000000 12));
                  ("b.txt", File (stat_of 1700000005 7))])).
Proof.
  refine (fingerprint_merges_entries whole_seconds "a.txt" "b.txt"
            (stat_of 1700000000 12) (stat_of 1700000005 7) _ _ _ _).
  - discriminate.
  - reflexivity.
  - reflexivity.
  - reflexivity.
Defined.

(** X19.  When some line of [boards.txt] strips to the anchor,
    [rename_esp32_to_nuttyfi32] writes the file, and what it writes has
    at least five lines more than before (the banner). *)
Theorem boards_written_when_anchor_present :
  forall (directory : Boards.AutoFinal.work_dir) (content : string),
    Boards.AutoFinal.boards_txt directory = Some content ->
    List.Exists (fun l => strip l = ANCHOR) (split_lines content) ->
    let after := Boards.AutoFinal.rename_esp32_to_nuttyfi32 directory in
    In "boards.txt" (snd after)
    /\ exists written,
        Boards.AutoFinal.boards_txt (fst after) = Some written
        /\ List.length (split_lines content) + 5
           <= List.length (split_lines written).
Proof.
  intros directory content Hboards Hex after.
  destruct (insertion_found Boards.AutoFinal.TITLE _ Hex)
    as (i & block & Hins).
  pose proof (add_board_lines Boards.AutoFinal.TITLE content eq_refl)
    as Hlines.
  rewrite Hins in Hlines. destruct Hlines as [Hlines (rest & ->)].
  assert (Hlonger : List.length (split_lines content) + 5
                    <= List.length
                         (split_lines
                            (add_board Boards.AutoFinal.TITLE content))).
  { rewrite Hlines, !List.length_app.
    replace (List.length (banner Boards.AutoFinal.TITLE)) with 5
      by reflexivity.
    pose proof (firstn_skipn i (split_lines content)) as Hparts.
    apply (f_equal (@List.length string)) in Hparts.
    rewrite List.length_app in Hparts. lia. }
  assert (Hchanged : (add_board Boards.AutoFinal.TITLE content =? content)
                     = false).
  { apply String.eqb_neq. intros Heq. rewrite Heq in Hlonger. lia. }
  assert (Hupdate :
            Boards.AutoFinal.update_file "boards.txt"
              Boards.AutoFinal.update_boards (Some content)
            = (Some (add_board Boards.AutoFinal.TITLE content),
               ["boards.txt"]%list)).
  { unfold Boards.AutoFinal.update_file, Boards.AutoFinal.update_boards.
    now rewrite Hchanged. }
  subst after. unfold Boards.AutoFinal.rename_esp32_to_nuttyfi32.
  rewrite Hboards, Hupdate.
  destruct (Boards.AutoFinal.update_file "platform.txt"
              Boards.AutoFinal.update_platform
              (Boards.AutoFinal.platform_txt directory)) as [platform w1].
  cbn [fst snd Boards.AutoFinal.boards_txt]. split.
  - apply in_or_app. right. now left.
  - exists (add_board Boards.AutoFinal.TITLE content).
    split; [reflexivity|exact Hlonger].
Qed.

Lemma boards_written_when_anchor_present_witness :
  In "boards.txt"
     (snd (Boards.AutoFinal.rename_esp32_to_nuttyfi32
             (Boards.AutoFinal.Build_work_dir
                false None None None None (Some boards_sample)))).
Proof.
  refine (proj1 (boards_written_when_anchor_present
                   (Boards.AutoFinal.Build_work_dir
                      false None None None None (Some boards_sample))
                   boards_sample eq_refl _)).
  vm_compute. apply Exists_cons_tl, Exists_cons_hd. reflexivity.
Defined.

End LastExtras.

(* ================================================================== *)
(** * [delete_old_zips] and [clean_old_zips] *)
(* ================================================================== *)

(** The two functions are the same loop.  The base directory is the list
    of its entries, in the order [glob] yields them; names are compared
    as on a POSIX system, and [unlink] fails on a directory only. *)
Module Cleanup.
Import PyStr Build.

Record entry : Type := { name : string; directory : bool }.

Definition VERSION : string := "1.0.0".
Definition OUTPUT_ZIP : string := "nuttyfi32-" ++ VERSION ++ ".zip".

(** [s.endswith(suffix)] *)
Definition endswith (suffix s : string) : bool :=
  (String.length suffix <=? String.length s)%nat
  && (drop (String.length s - String.length suffix) s =? suffix).

(** A name matched by the pattern [nuttyfi32-*.zip]. *)
Definition old_zip_name (n : string) : bool :=
  startswith "nuttyfi32-" n
  && endswith ".zip" (drop (String.length "nuttyfi32-") n).

(** [old_zip.unlink()] on the listing. *)
Definition unlink (old_zip : entry) (listing : list entry) : list entry :=
  filter (fun e => negb (name e =? name old_zip)) listing.

(** [for old_zip in old_zips: ...] *)
Fixpoint delete_loop (old_zips listing : list entry) (deleted_count : nat)
  : result nat * list entry :=
  match old_zips with
  | [] => (Ok deleted_count, listing)
  | old_zip :: rest =>
      if negb (name old_zip =? OUTPUT_ZIP)
      then if directory old_zip
           then (Raise OSError, listing)
           else delete_loop rest (unlink old_zip listing) (S deleted_count)
      else delete_loop rest listing deleted_count
  end%list.

Definition delete_old_zips (listing : list entry)
  : result nat * list entry :=
  let old_zips := filter (fun e => old_zip_name (name e)) listing in
  delete_loop old_zips listing 0.

End Cleanup.

Module CleanupFacts.
Import PyStr Build Cleanup.

(** An entry the loop has to delete. *)
Definition doomed (e : entry) : bool :=
  old_zip_name (name e) && negb (name e =? OUTPUT_ZIP).

Lemma unlink_in (z e : entry) (listing : list entry) :
  In e (unlink z listing) <-> In e listing /\ name e <> name z.
Proof.
  unfold unlink. rewrite filter_In.
  destruct (String.eqb_spec (name e) (name z)) as [Heq|Hne]; cbn [negb].
  - split; [intros [_ Hf]; discriminate Hf|intros [_ Hne]; now destruct Hne].
  - split; [intros [He _]; now split|intros [He _]; now split].
Qed.

Lemma delete_loop_spec (old_zips : list entry) :
  forall (listing : list entry) (deleted_count : nat),
    let out := delete_loop old_zips listing deleted_count in
    (forall e, In e (snd out) -> In e listing)
    /\ (forall e, In e listing ->
                  (forall z, In z old_zips -> name z = name e ->
                             name e = OUTPUT_ZIP) ->
                  In e (snd out))
    /\ (forall n, fst out = Ok n ->
                  n = deleted_count
                      + List.length
                          (filter (fun z => negb (name z =? OUTPUT_ZIP))
                                  old_zips)
                  /\ forall e z, In e (snd out) -> In z old_zips ->
                                 name z = name e -> name e = OUTPUT_ZIP)
    /\ (forall x, fst out = Raise x ->
                  exists z, In z old_zips /\ directory z = true
                            /\ name z <> OUTPUT_ZIP)
    /\ (Forall (fun z => name z <> OUTPUT_ZIP -> directory z = false)
               old_zips ->
        exists n, fst out = Ok n).
Proof.
  induction old_zips as [|z zs IH]; intros listing deleted_count out.
  - subst out. cbn [delete_loop fst snd filter List.length].
    split; [tauto|]. split; [tauto|]. split; [|split].
    + intros n [= <-]. split; [lia|]. intros e z _ [].
    + discriminate.
    + intros _. now exists deleted_count.
  - subst out. cbn [delete_loop filter].
    destruct (String.eqb_spec (name z) OUTPUT_ZIP) as [Hout|Hout];
      cbn [negb].
    + destruct (IH listing deleted_count) as (Hsub & Hkeep & Hok & Hfail & Hrun).
      split; [exact Hsub|]. split; [|split; [|split]].
      * intros e He Hz. apply Hkeep; [exact He|].
        intros z' Hz'. apply Hz. now right.
      * intros n Hn. destruct (Hok n Hn) as [Hcount Hgone].
        split; [exact Hcount|].
        intros e z' He [<-|Hz'] Hname; [congruence|].
        now apply (Hgone e z').
      * intros x Hx. destruct (Hfail x Hx) as (z' & Hz' & Hd & Hn).
        exists z'. split; [now right|now split].
      * intros Hall. apply Hrun. now inversion Hall.
    + destruct (directory z) eqn:Hdir.
      * cbn [fst snd]. split; [tauto|]. split; [tauto|].
        split; [discriminate|]. split.
        -- intros x _. exists z. split; [now left|now split].
        -- intros Hall. inversion Hall as [|? ? Hz _]; subst.
           rewrite (Hz Hout) in Hdir. discriminate Hdir.
      * destruct (IH (unlink z listing) (S deleted_count))
          as (Hsub & Hkeep & Hok & Hfail & Hrun).
        split; [|split; [|split; [|split]]].
        -- intros e He. now apply Hsub, unlink_in in He.
        -- intros e He Hz. apply Hkeep.
           ++ apply unlink_in. split; [exact He|].
              intros Hname. apply Hout. rewrite <- Hname.
              apply (Hz z); [now left|now symmetry].
           ++ intros z' Hz'. apply Hz. now right.
        -- intros n Hn. destruct (Hok n Hn) as [Hcount Hgone].
           cbn [List.length]. split; [lia|].
           intros e z' He [<-|Hz'] Hname.
           ++ apply Hsub, unlink_in in He. destruct He as [_ He].
              now destruct He.
           ++ now apply (Hgone e z').
        -- intros x Hx. destruct (Hfail x Hx) as (z' & Hz' & Hd & Hn).
           exists z'. split; [now right|now split].
        -- intros Hall. apply Hrun. now inversion Hall.
Qed.

End CleanupFacts.

Section CleanupExtras.
Import PyStr Build Cleanup CleanupFacts.

(** X20.  [delete_old_zips] never removes the current archive nor an
    entry the pattern does not match.  When no matching entry other than
    the current archive is a directory it returns normally: what is left
    is the listing without the other matching entries, and the count is
    their number.  It fails only on such a directory. *)
Theorem old_archives_deleted :
  forall listing : list entry,
    let out := delete_old_zips listing in
    (forall e, In e listing -> doomed e = false -> In e (snd out))
    /\ (forall n, fst out = Ok n ->
                  (forall e, In e (snd out)
                             <-> In e listing /\ doomed e = false)
                  /\ n = List.length (filter doomed listing))
    /\ (forall x, fst out = Raise x ->
                  exists z, In z listing /\ doomed z = true
                            /\ directory z = true)
    /\ (Forall (fun z => doomed z = true -> directory z = false) listing ->
        exists n, fst out = Ok n).
Proof.
  intros listing out. subst out. unfold delete_old_zips.
  destruct (delete_loop_spec
              (filter (fun e => old_zip_name (name e)) listing) listing 0)
    as (Hsub & Hkeep & Hok & Hfail & Hrun).
  assert (Hsafe : forall e, In e listing -> doomed e = false ->
            forall z, In z (filter (fun e => old_zip_name (name e)) listing) ->
                      name z = name e -> name e = OUTPUT_ZIP).
  { intros e He Hd z Hz Hname. apply filter_In in Hz as [_ Hz].
    unfold doomed in Hd. rewrite <- Hname, Hz in Hd. cbn [andb] in Hd.
    apply negb_false_iff, String.eqb_eq in Hd. congruence. }
  split; [|split; [|split]].
  - intros e He Hd. apply Hkeep; [exact He|now apply Hsafe].
  - intros n Hn. destruct (Hok n Hn) as [Hcount Hgone]. split.
    + intros e. split.
      * intros He. split; [now apply Hsub|].
        unfold doomed. destruct (old_zip_name (name e)) eqn:Hm;
          [|reflexivity].
        cbn [andb]. apply negb_false_iff, String.eqb_eq.
        apply (Hgone e e He); [|reflexivity].
        apply filter_In. split; [now apply Hsub|exact Hm].
      * intros [He Hd]. apply Hkeep; [exact He|now apply Hsafe].
    + rewrite Hcount. cbn [Nat.add]. clear.
      induction listing as [|e l IH]; [reflexivity|].
      cbn [filter]. unfold doomed at 1.
      destruct (old_zip_name (name e)); cbn [andb filter]; [|exact IH].
      destruct (negb (name e =? OUTPUT_ZIP)); cbn [List.length];
        now rewrite IH.
  - intros x Hx. destruct (Hfail x Hx) as (z & Hz & Hdir & Hname).
    apply filter_In in Hz as [Hz Hm].
    exists z. split; [exact Hz|]. split; [|exact Hdir].
    unfold doomed. rewrite Hm. cbn [andb].
    apply negb_true_iff, String.eqb_neq, Hname.
  - intros Hall. apply Hrun. apply Forall_forall.
    intros z Hz Hname. apply filter_In in Hz as [Hz Hm].
    rewrite Forall_forall in Hall. apply (Hall z Hz).
    unfold doomed. rewrite Hm. cbn [andb].
    apply negb_true_iff, String.eqb_neq, Hname.
Qed.

End CleanupExtras.

Section RootPublish.
Import Py PyStr Publish PyStrFacts PublishFacts.

(** X21.  [push_bsp_to_github_root] of [build_and_push_complete.py],
    once the files are staged: when [git status --porcelain] prints only
    white space it returns [file_count] and runs nothing more; otherwise
    it runs [git commit], whatever is staged, and a commit that fails
    raises [CalledProcessError] before any push. *)
Theorem root_publish_commits_on_any_change :
  forall (Mach : Machine) (st : state) (file_count : nat),
    let status := fst (git STATUS (now st)) in
    let out := commit_and_push_root file_count st in
    (all_space (stdout status) = true ->
     fst out = Ok file_count
     /\ log (snd out) = (log st ++ [(STATUS, Some status)])%list)
    /\ (all_space (stdout status) = false ->
        exists c rest,
          log (snd out)
          = (log st ++ (STATUS, Some status)
                 :: (COMMIT_SYNC, Some c) :: rest)%list
          /\ ((returncode c <> 0%Z /\ rest = []%list
               /\ fst out = Raise CalledProcessError)
              \/ (returncode c = 0%Z /\ exists o, rest = [(PUSH, o)]%list))).
Proof.
  intros Mach st file_count status out. subst status out.
  unfold commit_and_push_root, bindM, run.
  destruct (git STATUS (now st)) as [r w1]. cbn [fst].
  rewrite andb_false_r. split.
  - intros Hblank. rewrite (all_space_strip _ Hblank). cbn. now split.
  - intros Hsome.
    assert (Hstrip : (strip (stdout r) =? "") = false).
    { apply String.eqb_neq. intros Hs. apply strip_empty in Hs. congruence. }
    rewrite Hstrip. cbn [now log].
    destruct (git COMMIT_SYNC w1) as [c w2]. exists c.
    destruct (Z.eqb_spec (returncode c) 0) as [Hc|Hc]; cbn [negb andb].
    + cbn [now log]. destruct (git_timeout PUSH w2) as [w3|].
      * exists [(PUSH, None)]%list.
        split; [|right; split; [exact Hc|eexists; reflexivity]].
        cbn [snd log]. rewrite <- !List.app_assoc. reflexivity.
      * destruct (git PUSH w2) as [p w3]. exists [(PUSH, Some p)]%list.
        split; [|right; split; [exact Hc|eexists; reflexivity]].
        destruct (negb (returncode p =? 0)%Z && true);
          cbn [ret snd log]; rewrite <- !List.app_assoc; reflexivity.
    + exists []%list. split; [|left; now repeat split].
      cbn [snd log]. rewrite <- !List.app_assoc. reflexivity.
Qed.

End RootPublish.

Section CleanupSample.
Import Build Cleanup.

Lemma delete_old_zips_sample :
  delete_old_zips
    [{| name := "nuttyfi32-0.9.0.zip"; directory := false |};
     {| name := "notes.txt"; directory := false |};
     {| name := "nuttyfi32-1.0.0.zip"; directory := false |};
     {| name := "nuttyfi32-.zip"; directory := false |};
     {| name := "esp32-1.0.6.zip"; directory := false |}]
  = (Ok 2,
     [{| name := "notes.txt"; directory := false |};
      {| name := "nuttyfi32-1.0.0.zip"; directory := false |};
      {| name := "esp32-1.0.6.zip"; directory := false |}]).
Proof. reflexivity. Qed.

End CleanupSample.
